(** * preview.cpp: the display layer of the path tracer

    A shallow embedding of [src/preview.cpp].  The file is glue over GLFW,
    GLEW, OpenGL and the CUDA/GL interop API: every function is a sequence of
    calls into those libraries, guarded by a few tests on their results and on
    the globals [pbo], [displayImage] and [window].

    The embedding therefore keeps
    - the globals of the translation unit and the [extern] ones it reads,
    - the part of the OpenGL server state that the calls of this file
      determine (names in use, buffer bindings, buffer stores, texture
      images, the program in use),
    - the list of [atexit] registrations,
    - the trace of library calls, in program order, with their arguments,
    and writes every function of the file as a computation in a small
    state monad whose outcomes are: return, process exit, or (for the render
    loop only) fuel exhausted.  What a library answers (does [glfwInit]
    succeed, is the window closed yet) is read from an environment record.

    [currentTimeString], which nothing in the file calls, is modelled on its
    own, as a function of the clock value.

    The libraries are modelled as far as the file depends on them.  A call
    whose result the file tests ([glfwInit], [glfwCreateWindow], [glewInit],
    [glGetUniformLocation], [glfwWindowShouldClose]) answers what the
    environment says.  A call whose result the file discards
    ([cudaGLSetGLDevice], [atexit], [cudaGLRegisterBufferObject]) and the
    OpenGL calls, which report errors through a flag the file never reads,
    are modelled in the case in which they succeed; the notes at their
    definitions say what that leaves out.

    Left out: the body of [errorCallback] (GLFW calls it, the file only
    registers it), and the code inside comments ([packThisShit] and the
    sending block of [mainLoop]), which is not part of the program. *)

From Stdlib Require Import ZArith List Ascii String DecimalString QArith.
From Stdlib Require Import Lia Lqa.
From stdpp Require Import base gmap sets list strings.

Local Open Scope Z_scope.

(** ** C integers *)

Module CInt.

(** [int] is 32 bits wide, two's complement; arithmetic that leaves the
    range wraps around. *)
Definition INT_MIN : Z := - 2 ^ 31.
Definition INT_MAX : Z := 2 ^ 31 - 1.

Definition in_int (z : Z) : Prop := INT_MIN <= z <= INT_MAX.

Definition to_int (z : Z) : Z := (z + 2 ^ 31) mod 2 ^ 32 - 2 ^ 31.

Definition int_mul (a b : Z) : Z := to_int (a * b).

(** [size_t] is an unsigned 64-bit integer. *)
Definition to_size_t (z : Z) : Z := z mod 2 ^ 64.

Definition size_t_mul (a b : Z) : Z := to_size_t (a * b).

(** [sizeof(GLubyte)], [sizeof(GLfloat)], [sizeof(GLushort)]. *)
Definition sizeof_GLubyte : Z := 1.
Definition sizeof_GLfloat : Z := 4.
Definition sizeof_GLushort : Z := 2.

Definition EXIT_FAILURE : Z := 1.
Definition GLEW_OK : Z := 0.
Definition GL_TRUE : Z := 1.
Definition GL_FALSE : Z := 0.
(** [NULL], as a pointer and cast to [GLuint]. *)
Definition NULL : Z := 0.

End CInt.
Export CInt.

(** ** OpenGL enumerants used by the file *)

Inductive GLenum : Set :=
| GL_TEXTURE_2D
| GL_TEXTURE_MAG_FILTER
| GL_TEXTURE_MIN_FILTER
| GL_NEAREST
| GL_RGBA8
| GL_BGRA
| GL_RGBA
| GL_UNSIGNED_BYTE
| GL_UNSIGNED_SHORT
| GL_FLOAT
| GL_ARRAY_BUFFER
| GL_ELEMENT_ARRAY_BUFFER
| GL_PIXEL_UNPACK_BUFFER
| GL_STATIC_DRAW
| GL_DYNAMIC_COPY
| GL_TEXTURE0
| GL_COLOR_BUFFER_BIT
| GL_TRIANGLES.

#[global] Instance GLenum_eq_dec : EqDecision GLenum.
Proof. solve_decision. Defined.

(** Bytes taken by one texel of a sized internal format. *)
Definition bytes_per_texel (fmt : GLenum) : Z :=
  match fmt with
  | GL_RGBA8 => 4
  | _ => 0
  end.

(** ** Client data handed to [glBufferData]

    The literals of [initVAO] are [-1.0f], [0.0f] and [1.0f], which binary32
    represents exactly; the model keeps them as rationals. *)
Inductive ClientData : Set :=
| data_NULL
| data_GLfloat (xs : list Q)
| data_GLushort (xs : list Z)
| data_rendered (frame : nat).

(** Functions of the program that are handed to GLFW as callbacks, and the
    one that is handed to [atexit]. *)
Inductive Callback : Set :=
| errorCallback
| keyCallback.

Inductive ExitFn : Set :=
| fn_cleanupCuda.

(** ** Library calls

    One constructor per library function the file calls, carrying the
    arguments of the call (and, for the functions that produce a value the
    program uses, that value). *)
Inductive Call : Type :=
| call_glGenTextures (n : Z) (names : list Z)
| call_glBindTexture (target : GLenum) (texture : Z)
| call_glTexParameteri (target pname param : GLenum)
| call_glTexImage2D (target : GLenum) (level : Z) (internalformat : GLenum)
    (w h border : Z) (format type : GLenum) (data : ClientData)
| call_glGenBuffers (n : Z) (names : list Z)
| call_glBindBuffer (target : GLenum) (buffer : Z)
| call_glBufferData (target : GLenum) (size : Z) (data : ClientData)
    (usage : GLenum)
| call_glVertexAttribPointer (index size : Z) (type : GLenum)
    (normalized stride pointer : Z)
| call_glEnableVertexAttribArray (index : Z)
| call_createDefaultProgram (attribLocations : list string) (n : Z)
    (program : Z)
| call_glGetUniformLocation (program : Z) (name : string) (location : Z)
| call_glUniform1i (location v0 : Z)
| call_cudaGLUnregisterBufferObject (buffer : Z)
| call_glDeleteBuffers (n : Z) (names : list Z)
| call_glDeleteTextures (n : Z) (names : list Z)
| call_cudaGLSetGLDevice (device : Z)
| call_atexit (f : ExitFn)
| call_cudaGLRegisterBufferObject (buffer : Z)
| call_glfwSetErrorCallback (f : Callback)
| call_glfwInit (result : Z)
| call_exit (status : Z)
| call_glfwCreateWindow (w h : Z) (title : string) (monitor share : Z)
    (result : Z)
| call_glfwTerminate
| call_glfwMakeContextCurrent (win : Z)
| call_glfwSetKeyCallback (win : Z) (f : Callback)
| call_glewInit (result : Z)
| call_glUseProgram (program : Z)
| call_glActiveTexture (texture : GLenum)
| call_glfwWindowShouldClose (win : Z) (result : Z)
| call_glfwPollEvents
| call_runCuda
| call_glfwSetWindowTitle (win : Z) (title : string)
| call_glTexSubImage2D (target : GLenum) (level xoffset yoffset w h : Z)
    (format type : GLenum) (pixels : Z)
| call_glClear (mask : GLenum)
| call_glDrawElements (mode : GLenum) (count : Z) (type : GLenum)
    (indices : Z)
| call_glfwSwapBuffers (win : Z)
| call_glfwDestroyWindow (win : Z).

(** The name of the function a call goes to, as the source spells it. *)
Definition callee (c : Call) : string :=
  match c with
  | call_glGenTextures _ _ => "glGenTextures"
  | call_glBindTexture _ _ => "glBindTexture"
  | call_glTexParameteri _ _ _ => "glTexParameteri"
  | call_glTexImage2D _ _ _ _ _ _ _ _ _ => "glTexImage2D"
  | call_glGenBuffers _ _ => "glGenBuffers"
  | call_glBindBuffer _ _ => "glBindBuffer"
  | call_glBufferData _ _ _ _ => "glBufferData"
  | call_glVertexAttribPointer _ _ _ _ _ _ => "glVertexAttribPointer"
  | call_glEnableVertexAttribArray _ => "glEnableVertexAttribArray"
  | call_createDefaultProgram _ _ _ => "glslUtility::createDefaultProgram"
  | call_glGetUniformLocation _ _ _ => "glGetUniformLocation"
  | call_glUniform1i _ _ => "glUniform1i"
  | call_cudaGLUnregisterBufferObject _ => "cudaGLUnregisterBufferObject"
  | call_glDeleteBuffers _ _ => "glDeleteBuffers"
  | call_glDeleteTextures _ _ => "glDeleteTextures"
  | call_cudaGLSetGLDevice _ => "cudaGLSetGLDevice"
  | call_atexit _ => "atexit"
  | call_cudaGLRegisterBufferObject _ => "cudaGLRegisterBufferObject"
  | call_glfwSetErrorCallback _ => "glfwSetErrorCallback"
  | call_glfwInit _ => "glfwInit"
  | call_exit _ => "exit"
  | call_glfwCreateWindow _ _ _ _ _ _ => "glfwCreateWindow"
  | call_glfwTerminate => "glfwTerminate"
  | call_glfwMakeContextCurrent _ => "glfwMakeContextCurrent"
  | call_glfwSetKeyCallback _ _ => "glfwSetKeyCallback"
  | call_glewInit _ => "glewInit"
  | call_glUseProgram _ => "glUseProgram"
  | call_glActiveTexture _ => "glActiveTexture"
  | call_glfwWindowShouldClose _ _ => "glfwWindowShouldClose"
  | call_glfwPollEvents => "glfwPollEvents"
  | call_runCuda => "runCuda"
  | call_glfwSetWindowTitle _ _ => "glfwSetWindowTitle"
  | call_glTexSubImage2D _ _ _ _ _ _ _ _ _ => "glTexSubImage2D"
  | call_glClear _ => "glClear"
  | call_glDrawElements _ _ _ _ => "glDrawElements"
  | call_glfwSwapBuffers _ => "glfwSwapBuffers"
  | call_glfwDestroyWindow _ => "glfwDestroyWindow"
  end.

(** ** The state the program runs in *)

(** Data store of a buffer object, as [glBufferData] creates it. *)
Record BufferObject : Set := mkBufferObject {
  buf_size : Z;
  buf_data : ClientData;
  buf_usage : GLenum
}.

(** Level-0 image of a texture, as [glTexImage2D] specifies it. *)
Record TexImage : Set := mkTexImage {
  tex_internalformat : GLenum;
  tex_width : Z;
  tex_height : Z
}.

(** A generic vertex attribute array, as [glVertexAttribPointer] sets it:
    the buffer bound to [GL_ARRAY_BUFFER] at the time of the call and the
    layout of one element. *)
Record AttribPointer : Set := mkAttribPointer {
  attr_buffer : Z;
  attr_size : Z;
  attr_type : GLenum
}.

(** The part of the OpenGL state the calls of this file read or write.
    A name is "in use" from the [glGen*] (or program creation) that returned
    it until the [glDelete*] that names it. *)
Record GLState : Type := mkGLState {
  buffer_names : gset Z;
  buffer_store : gmap Z BufferObject;
  texture_names : gset Z;
  texture_image : gmap Z TexImage;
  program_names : gset Z;
  array_buffer_binding : Z;
  element_array_buffer_binding : Z;
  pixel_unpack_buffer_binding : Z;
  texture_binding_2d : Z;
  current_program : Z;
  vertex_attrib : gmap Z AttribPointer;
  next_buffer : positive;
  next_texture : positive;
  next_program : positive
}.

(** Globals: [pbo], [displayImage] and [window] are defined in preview.cpp;
    [width], [height], [iteration] and [glewExperimental] are declared in
    headers and defined elsewhere. *)
Record Globals : Set := mkGlobals {
  pbo : Z;
  displayImage : Z;
  window : Z;
  width : Z;
  height : Z;
  iteration : Z;
  glewExperimental : Z
}.

Record World : Type := mkWorld {
  globals : Globals;
  gl : GLState;
  (** buffers registered with CUDA *)
  cuda_registered : gset Z;
  (** functions registered with [atexit], most recent first *)
  atexit_list : list ExitFn;
  (** number of [glfwWindowShouldClose] and of [runCuda] calls so far *)
  close_queries : nat;
  cuda_runs : nat;
  (** library calls so far, oldest first *)
  trace : list Call
}.

(** [positionLocation] and [texcoordsLocation] are initialised at their
    definition and never assigned. *)
Definition positionLocation : Z := 0.
Definition texcoordsLocation : Z := 1.

(** *** Field updates *)

Definition set_pbo (v : Z) (g : Globals) : Globals :=
  mkGlobals v (displayImage g) (window g) (width g) (height g) (iteration g)
    (glewExperimental g).
Definition set_displayImage (v : Z) (g : Globals) : Globals :=
  mkGlobals (pbo g) v (window g) (width g) (height g) (iteration g)
    (glewExperimental g).
Definition set_window (v : Z) (g : Globals) : Globals :=
  mkGlobals (pbo g) (displayImage g) v (width g) (height g) (iteration g)
    (glewExperimental g).
Definition set_iteration (v : Z) (g : Globals) : Globals :=
  mkGlobals (pbo g) (displayImage g) (window g) (width g) (height g) v
    (glewExperimental g).
Definition set_glewExperimental (v : Z) (g : Globals) : Globals :=
  mkGlobals (pbo g) (displayImage g) (window g) (width g) (height g)
    (iteration g) v.

Definition on_globals (f : Globals -> Globals) (w : World) : World :=
  mkWorld (f (globals w)) (gl w) (cuda_registered w) (atexit_list w)
    (close_queries w) (cuda_runs w) (trace w).
Definition on_gl (f : GLState -> GLState) (w : World) : World :=
  mkWorld (globals w) (f (gl w)) (cuda_registered w) (atexit_list w)
    (close_queries w) (cuda_runs w) (trace w).
Definition on_cuda_registered (f : gset Z -> gset Z) (w : World) : World :=
  mkWorld (globals w) (gl w) (f (cuda_registered w)) (atexit_list w)
    (close_queries w) (cuda_runs w) (trace w).
Definition on_atexit_list (f : list ExitFn -> list ExitFn) (w : World)
  : World :=
  mkWorld (globals w) (gl w) (cuda_registered w) (f (atexit_list w))
    (close_queries w) (cuda_runs w) (trace w).
Definition tick_close_queries (w : World) : World :=
  mkWorld (globals w) (gl w) (cuda_registered w) (atexit_list w)
    (S (close_queries w)) (cuda_runs w) (trace w).
Definition tick_cuda_runs (w : World) : World :=
  mkWorld (globals w) (gl w) (cuda_registered w) (atexit_list w)
    (close_queries w) (S (cuda_runs w)) (trace w).
Definition log (c : Call) (w : World) : World :=
  mkWorld (globals w) (gl w) (cuda_registered w) (atexit_list w)
    (close_queries w) (cuda_runs w) (trace w ++ [c]).

(** ** What the OpenGL calls do to the state *)

Module GL.

(** [glGen*] and program creation hand out the next name of a counter,
    so a name is never zero and never handed out twice. *)
Definition gen_buffer (s : GLState) : Z * GLState :=
  (Z.pos (next_buffer s),
   mkGLState ({[ Z.pos (next_buffer s) ]} ∪ buffer_names s) (buffer_store s)
     (texture_names s) (texture_image s) (program_names s)
     (array_buffer_binding s) (element_array_buffer_binding s)
     (pixel_unpack_buffer_binding s) (texture_binding_2d s)
     (current_program s) (vertex_attrib s)
     (Pos.succ (next_buffer s)) (next_texture s) (next_program s)).

Definition gen_texture (s : GLState) : Z * GLState :=
  (Z.pos (next_texture s),
   mkGLState (buffer_names s) (buffer_store s)
     ({[ Z.pos (next_texture s) ]} ∪ texture_names s) (texture_image s)
     (program_names s)
     (array_buffer_binding s) (element_array_buffer_binding s)
     (pixel_unpack_buffer_binding s) (texture_binding_2d s)
     (current_program s) (vertex_attrib s)
     (next_buffer s) (Pos.succ (next_texture s)) (next_program s)).

Definition create_program (s : GLState) : Z * GLState :=
  (Z.pos (next_program s),
   mkGLState (buffer_names s) (buffer_store s)
     (texture_names s) (texture_image s)
     ({[ Z.pos (next_program s) ]} ∪ program_names s)
     (array_buffer_binding s) (element_array_buffer_binding s)
     (pixel_unpack_buffer_binding s) (texture_binding_2d s)
     (current_program s) (vertex_attrib s)
     (next_buffer s) (next_texture s) (Pos.succ (next_program s))).

(** The buffer bound to a target; 0 for a target the file never binds. *)
Definition binding (target : GLenum) (s : GLState) : Z :=
  match target with
  | GL_ARRAY_BUFFER => array_buffer_binding s
  | GL_ELEMENT_ARRAY_BUFFER => element_array_buffer_binding s
  | GL_PIXEL_UNPACK_BUFFER => pixel_unpack_buffer_binding s
  | _ => 0
  end.

Definition bind_buffer (target : GLenum) (b : Z) (s : GLState) : GLState :=
  mkGLState (buffer_names s) (buffer_store s)
    (texture_names s) (texture_image s) (program_names s)
    (match target with GL_ARRAY_BUFFER => b
                     | _ => array_buffer_binding s end)
    (match target with GL_ELEMENT_ARRAY_BUFFER => b
                     | _ => element_array_buffer_binding s end)
    (match target with GL_PIXEL_UNPACK_BUFFER => b
                     | _ => pixel_unpack_buffer_binding s end)
    (texture_binding_2d s) (current_program s) (vertex_attrib s)
    (next_buffer s) (next_texture s) (next_program s).

Definition set_buffer_store (m : gmap Z BufferObject) (s : GLState)
  : GLState :=
  mkGLState (buffer_names s) m
    (texture_names s) (texture_image s) (program_names s)
    (array_buffer_binding s) (element_array_buffer_binding s)
    (pixel_unpack_buffer_binding s) (texture_binding_2d s)
    (current_program s) (vertex_attrib s)
    (next_buffer s) (next_texture s) (next_program s).

(** [glBufferData] replaces the store of the buffer bound to [target];
    with no buffer bound it is an error and changes nothing.  The other
    errors of the call are not modelled: OpenGL rejects a negative [size]
    ([GL_INVALID_VALUE]) and may run out of memory, and then creates no
    store, whereas here the store is replaced whatever the size.  The
    theorem about the size of the pixel buffer takes the image dimensions
    to be non-negative. *)
Definition buffer_data (target : GLenum) (size : Z) (d : ClientData)
    (usage : GLenum) (s : GLState) : GLState :=
  match binding target s with
  | 0 => s
  | b => set_buffer_store
           (<[ b := mkBufferObject size d usage ]> (buffer_store s)) s
  end.

Definition bind_texture (t : Z) (s : GLState) : GLState :=
  mkGLState (buffer_names s) (buffer_store s)
    (texture_names s) (texture_image s) (program_names s)
    (array_buffer_binding s) (element_array_buffer_binding s)
    (pixel_unpack_buffer_binding s) t
    (current_program s) (vertex_attrib s)
    (next_buffer s) (next_texture s) (next_program s).

(** [glTexImage2D] specifies the level-0 image of the bound texture.  As
    for [glBufferData], the errors of the call are not modelled: OpenGL
    rejects a negative width or height, or one beyond what the
    implementation supports ([GL_INVALID_VALUE]), and then specifies no
    image. *)
Definition tex_image (fmt : GLenum) (w h : Z) (s : GLState) : GLState :=
  mkGLState (buffer_names s) (buffer_store s)
    (texture_names s)
    (<[ texture_binding_2d s := mkTexImage fmt w h ]> (texture_image s))
    (program_names s)
    (array_buffer_binding s) (element_array_buffer_binding s)
    (pixel_unpack_buffer_binding s) (texture_binding_2d s)
    (current_program s) (vertex_attrib s)
    (next_buffer s) (next_texture s) (next_program s).

Definition vertex_attrib_pointer (index size : Z) (type : GLenum)
    (s : GLState) : GLState :=
  mkGLState (buffer_names s) (buffer_store s)
    (texture_names s) (texture_image s) (program_names s)
    (array_buffer_binding s) (element_array_buffer_binding s)
    (pixel_unpack_buffer_binding s) (texture_binding_2d s)
    (current_program s)
    (<[ index := mkAttribPointer (array_buffer_binding s) size type ]>
       (vertex_attrib s))
    (next_buffer s) (next_texture s) (next_program s).

Definition use_program (p : Z) (s : GLState) : GLState :=
  mkGLState (buffer_names s) (buffer_store s)
    (texture_names s) (texture_image s) (program_names s)
    (array_buffer_binding s) (element_array_buffer_binding s)
    (pixel_unpack_buffer_binding s) (texture_binding_2d s)
    p (vertex_attrib s)
    (next_buffer s) (next_texture s) (next_program s).

Definition unbind (b x : Z) : Z := if x =? b then 0 else x.

(** [glDeleteBuffers] on one name: the name is no longer in use, its store
    is gone, and a binding to it reverts to 0. *)
Definition delete_buffer (b : Z) (s : GLState) : GLState :=
  mkGLState (buffer_names s ∖ {[ b ]}) (delete b (buffer_store s))
    (texture_names s) (texture_image s) (program_names s)
    (unbind b (array_buffer_binding s))
    (unbind b (element_array_buffer_binding s))
    (unbind b (pixel_unpack_buffer_binding s))
    (texture_binding_2d s) (current_program s) (vertex_attrib s)
    (next_buffer s) (next_texture s) (next_program s).

Definition delete_texture (t : Z) (s : GLState) : GLState :=
  mkGLState (buffer_names s) (buffer_store s)
    (texture_names s ∖ {[ t ]}) (delete t (texture_image s))
    (program_names s)
    (array_buffer_binding s) (element_array_buffer_binding s)
    (pixel_unpack_buffer_binding s)
    (unbind t (texture_binding_2d s))
    (current_program s) (vertex_attrib s)
    (next_buffer s) (next_texture s) (next_program s).

(** The render step writes frame [k] into the store of buffer [b], if the
    buffer is shared with it. *)
Definition write_rendered (shared : bool) (b : Z) (k : nat) (s : GLState)
  : GLState :=
  set_buffer_store
    (if shared
     then alter (fun o => mkBufferObject (buf_size o) (data_rendered k)
                            (buf_usage o)) b (buffer_store s)
     else buffer_store s) s.

End GL.

(** ** Outcomes and the monad of the program *)

(** A computation returns a value, or leaves through [exit] (the process is
    over once the [atexit] functions have run), or is cut off when the fuel
    given to the render loop is spent. *)
Inductive Outcome (A : Type) : Type :=
| Returns (a : A) (w : World)
| Exits (status : Z) (w : World)
| Unfinished (w : World).

Arguments Returns {A} a w.
Arguments Exits {A} status w.
Arguments Unfinished {A} w.

Definition M (A : Type) : Type := World -> Outcome A.

Definition ret {A} (a : A) : M A := fun w => Returns a w.

Definition bind {A B} (c : M A) (k : A -> M B) : M B :=
  fun w =>
    match c w with
    | Returns a w' => k a w'
    | Exits s w' => Exits s w'
    | Unfinished w' => Unfinished w'
    end.

Declare Scope prog_scope.
Delimit Scope prog_scope with prog.
Notation "x <- c ;; k" := (bind c (fun x => k))
  (at level 100, c at next level, right associativity) : prog_scope.
Notation "c ;; k" := (bind c (fun _ => k))
  (at level 100, right associativity) : prog_scope.
Local Open Scope prog_scope.

(** The world an outcome ends in. *)
Definition final {A} (o : Outcome A) : World :=
  match o with
  | Returns _ w => w
  | Exits _ w => w
  | Unfinished w => w
  end.

Definition modify (f : World -> World) : M unit :=
  fun w => Returns tt (f w).
Definition read {A} (f : World -> A) : M A :=
  fun w => Returns (f w) w.
Definition call (c : Call) : M unit := modify (log c).
Definition when (b : bool) (c : M unit) : M unit :=
  if b then c else ret tt.
Definition global (f : Globals -> Z) : M Z := read (fun w => f (globals w)).
Definition assign (set : Z -> Globals -> Globals) (v : Z) : M unit :=
  modify (on_globals (set v)).

(** Pointers to [GLuint] that the file passes around: null, or the address
    of one of its two globals.  Reading or writing through the null pointer
    is undefined in C++; [load] and [store] give it no effect, and nothing
    below applies them to [null_ptr]: [deletePBO] tests its pointer first,
    and what is said about [deleteTexture] is said for a pointer that is not
    null. *)
Inductive GLuintPtr : Set :=
| null_ptr
| addr_pbo
| addr_displayImage.

Definition is_null (p : GLuintPtr) : bool :=
  match p with null_ptr => true | _ => false end.

Definition load (p : GLuintPtr) : M Z :=
  match p with
  | null_ptr => ret 0
  | addr_pbo => read (fun w => pbo (globals w))
  | addr_displayImage => read (fun w => displayImage (globals w))
  end.

Definition store (p : GLuintPtr) (v : Z) : M unit :=
  match p with
  | null_ptr => ret tt
  | addr_pbo => modify (on_globals (set_pbo v))
  | addr_displayImage => modify (on_globals (set_displayImage v))
  end.

(** ** The environment

    What the libraries answer.  [glfwWindowShouldClose_result k] is the
    answer to the [k]-th query (from 0), which covers whatever the event
    poll, the key callback or the window system did to the flag in between;
    [runCuda_iteration k] is the value the [k]-th render step leaves in the
    global [iteration]. *)
Record Env : Type := mkEnv {
  glfwInit_result : Z;
  glfwCreateWindow_result : Z;
  glewInit_result : Z;
  glGetUniformLocation_result : Z;
  glfwWindowShouldClose_result : nat -> Z;
  runCuda_iteration : nat -> Z
}.

Section Program.

Variable E : Env.

(** [utilityCore::convertIntToString] is declared in a header that is not
    part of the file; it is taken as given. *)
Variable convertIntToString : Z -> string.

(** [PacketManager] is declared elsewhere; [mainLoop] receives a pointer
    to one. *)
Variable PacketManager : Type.

(** *** Library functions *)

Definition glGenTextures_1 (p : GLuintPtr) : M unit :=
  name <- (fun w => let '(n, s) := GL.gen_texture (gl w) in
                    Returns n (on_gl (fun _ => s) w)) ;;
  call (call_glGenTextures 1 [name]) ;;
  store p name.

Definition glBindTexture (target : GLenum) (t : Z) : M unit :=
  call (call_glBindTexture target t) ;;
  modify (on_gl (GL.bind_texture t)).

Definition glTexParameteri (target pname param : GLenum) : M unit :=
  call (call_glTexParameteri target pname param).

Definition glTexImage2D (target : GLenum) (level : Z) (fmt : GLenum)
    (w h border : Z) (format type : GLenum) (data : ClientData) : M unit :=
  call (call_glTexImage2D target level fmt w h border format type data) ;;
  modify (on_gl (GL.tex_image fmt w h)).

(** [glGenBuffers(n, ids)]: [n] fresh names, in order. *)
Fixpoint gen_buffers (n : nat) : M (list Z) :=
  match n with
  | O => ret []
  | S n' =>
      name <- (fun w => let '(b, s) := GL.gen_buffer (gl w) in
                        Returns b (on_gl (fun _ => s) w)) ;;
      rest <- gen_buffers n' ;;
      ret (name :: rest)
  end.

Definition glGenBuffers (n : nat) : M (list Z) :=
  names <- gen_buffers n ;;
  call (call_glGenBuffers (Z.of_nat n) names) ;;
  ret names.

(** [glGenBuffers(1, p)]: the name is written through [p]. *)
Definition glGenBuffers_1 (p : GLuintPtr) : M unit :=
  names <- glGenBuffers 1 ;;
  store p (nth 0 names 0).

Definition glBindBuffer (target : GLenum) (b : Z) : M unit :=
  call (call_glBindBuffer target b) ;;
  modify (on_gl (GL.bind_buffer target b)).

Definition glBufferData (target : GLenum) (size : Z) (data : ClientData)
    (usage : GLenum) : M unit :=
  call (call_glBufferData target size data usage) ;;
  modify (on_gl (GL.buffer_data target size data usage)).

Definition glVertexAttribPointer (index size : Z) (type : GLenum)
    (normalized stride pointer : Z) : M unit :=
  call (call_glVertexAttribPointer index size type normalized stride
          pointer) ;;
  modify (on_gl (GL.vertex_attrib_pointer index size type)).

Definition glEnableVertexAttribArray (index : Z) : M unit :=
  call (call_glEnableVertexAttribArray index).

(** Modelled from the spec: [glslUtility::createDefaultProgram] is not in
    the file; the spec only says that it yields the shader program handle.
    It is taken to create one program object and return its name. *)
Definition createDefaultProgram (attribLocations : list string) (n : Z)
  : M Z :=
  p <- (fun w => let '(p, s) := GL.create_program (gl w) in
                 Returns p (on_gl (fun _ => s) w)) ;;
  call (call_createDefaultProgram attribLocations n p) ;;
  ret p.

Definition glGetUniformLocation (program : Z) (name : string) : M Z :=
  call (call_glGetUniformLocation program name
          (glGetUniformLocation_result E)) ;;
  ret (glGetUniformLocation_result E).

Definition glUniform1i (location v0 : Z) : M unit :=
  call (call_glUniform1i location v0).

Definition cudaGLUnregisterBufferObject (b : Z) : M unit :=
  call (call_cudaGLUnregisterBufferObject b) ;;
  modify (on_cuda_registered (fun r => r ∖ {[ b ]})).

(** [cudaGLRegisterBufferObject] returns an error code, which the file
    discards (line 129).  The model has the registration granted; the case
    in which CUDA refuses it is not modelled, so what is said below about a
    registered pixel buffer holds when the registration was granted. *)
Definition cudaGLRegisterBufferObject (b : Z) : M unit :=
  call (call_cudaGLRegisterBufferObject b) ;;
  modify (on_cuda_registered (fun r => {[ b ]} ∪ r)).

Definition glDeleteBuffers_1 (p : GLuintPtr) : M unit :=
  name <- load p ;;
  call (call_glDeleteBuffers 1 [name]) ;;
  modify (on_gl (GL.delete_buffer name)).

Definition glDeleteTextures_1 (p : GLuintPtr) : M unit :=
  name <- load p ;;
  call (call_glDeleteTextures 1 [name]) ;;
  modify (on_gl (GL.delete_texture name)).

Definition cudaGLSetGLDevice (device : Z) : M unit :=
  call (call_cudaGLSetGLDevice device).

(** [atexit] returns non-zero when it cannot register the function; the
    file discards the result (line 112).  The C standard has an
    implementation support at least 32 registrations, and the model has
    every registration succeed. *)
Definition atexit (f : ExitFn) : M unit :=
  call (call_atexit f) ;;
  modify (on_atexit_list (cons f)).

Definition glfwSetErrorCallback (f : Callback) : M unit :=
  call (call_glfwSetErrorCallback f).

Definition glfwInit : M Z :=
  call (call_glfwInit (glfwInit_result E)) ;;
  ret (glfwInit_result E).

Definition glfwCreateWindow (w h : Z) (title : string) (monitor share : Z)
  : M Z :=
  call (call_glfwCreateWindow w h title monitor share
          (glfwCreateWindow_result E)) ;;
  ret (glfwCreateWindow_result E).

Definition glfwTerminate : M unit := call call_glfwTerminate.

Definition glfwMakeContextCurrent (win : Z) : M unit :=
  call (call_glfwMakeContextCurrent win).

Definition glfwSetKeyCallback (win : Z) (f : Callback) : M unit :=
  call (call_glfwSetKeyCallback win f).

Definition glewInit : M Z :=
  call (call_glewInit (glewInit_result E)) ;;
  ret (glewInit_result E).

Definition glUseProgram (p : Z) : M unit :=
  call (call_glUseProgram p) ;;
  modify (on_gl (GL.use_program p)).

Definition glActiveTexture (t : GLenum) : M unit :=
  call (call_glActiveTexture t).

Definition glfwWindowShouldClose (win : Z) : M Z :=
  k <- read close_queries ;;
  call (call_glfwWindowShouldClose win (glfwWindowShouldClose_result E k)) ;;
  modify tick_close_queries ;;
  ret (glfwWindowShouldClose_result E k).

Definition glfwPollEvents : M unit := call call_glfwPollEvents.

(** Modelled from the spec: [runCuda] is an external collaborator "that
    writes ray-traced pixel data directly into GPU memory shared with
    OpenGL via interop"; the memory it shares is the buffer named by the
    global [pbo], once registered.  It also advances the global
    [iteration]. *)
Definition runCuda : M unit :=
  k <- read cuda_runs ;;
  call call_runCuda ;;
  b <- read (fun w => pbo (globals w)) ;;
  shared <- read (fun w => bool_decide (b ∈ cuda_registered w)) ;;
  modify (on_gl (GL.write_rendered shared b k)) ;;
  modify (on_globals (set_iteration (runCuda_iteration E k))) ;;
  modify tick_cuda_runs.

Definition glfwSetWindowTitle (win : Z) (title : string) : M unit :=
  call (call_glfwSetWindowTitle win title).

Definition glTexSubImage2D (target : GLenum) (level xoffset yoffset w h : Z)
    (format type : GLenum) (pixels : Z) : M unit :=
  call (call_glTexSubImage2D target level xoffset yoffset w h format type
          pixels).

Definition glClear (mask : GLenum) : M unit := call (call_glClear mask).

Definition glDrawElements (mode : GLenum) (count : Z) (type : GLenum)
    (indices : Z) : M unit :=
  call (call_glDrawElements mode count type indices).

Definition glfwSwapBuffers (win : Z) : M unit :=
  call (call_glfwSwapBuffers win).

(** [glfwDestroyWindow] destroys the window and its OpenGL context, and
    with the context the objects that live in it.  The model records the
    call only and leaves [gl] as it is: [gl] describes the objects of a
    context while it exists, and what is said below about names in use is
    said of worlds before this call. *)
Definition glfwDestroyWindow (win : Z) : M unit :=
  call (call_glfwDestroyWindow win).

(** *** The functions of preview.cpp *)

Definition initTextures : M unit :=
  glGenTextures_1 addr_displayImage ;;
  t <- global displayImage ;;
  glBindTexture GL_TEXTURE_2D t ;;
  glTexParameteri GL_TEXTURE_2D GL_TEXTURE_MAG_FILTER GL_NEAREST ;;
  glTexParameteri GL_TEXTURE_2D GL_TEXTURE_MIN_FILTER GL_NEAREST ;;
  w <- global width ;;
  h <- global height ;;
  glTexImage2D GL_TEXTURE_2D 0 GL_RGBA8 w h 0 GL_BGRA GL_UNSIGNED_BYTE
    data_NULL.

Definition vertices : list Q :=
  [ -1;  -1;
     1;  -1;
     1;   1;
    -1;   1 ]%Q.

Definition texcoords : list Q :=
  [ 1; 1;
    0; 1;
    0; 0;
    1; 0 ]%Q.

Definition indices : list Z := [ 0; 1; 3; 3; 1; 2 ].

(** [sizeof] of an array: element size times element count. *)
Definition sizeof_array {A} (elem : Z) (a : list A) : Z :=
  elem * Z.of_nat (length a).

Definition initVAO : M unit :=
  vertexBufferObjID <- glGenBuffers 3 ;;
  glBindBuffer GL_ARRAY_BUFFER (nth 0 vertexBufferObjID 0) ;;
  glBufferData GL_ARRAY_BUFFER (sizeof_array sizeof_GLfloat vertices)
    (data_GLfloat vertices) GL_STATIC_DRAW ;;
  glVertexAttribPointer positionLocation 2 GL_FLOAT GL_FALSE 0 0 ;;
  glEnableVertexAttribArray positionLocation ;;
  glBindBuffer GL_ARRAY_BUFFER (nth 1 vertexBufferObjID 0) ;;
  glBufferData GL_ARRAY_BUFFER (sizeof_array sizeof_GLfloat texcoords)
    (data_GLfloat texcoords) GL_STATIC_DRAW ;;
  glVertexAttribPointer texcoordsLocation 2 GL_FLOAT GL_FALSE 0 0 ;;
  glEnableVertexAttribArray texcoordsLocation ;;
  glBindBuffer GL_ELEMENT_ARRAY_BUFFER (nth 2 vertexBufferObjID 0) ;;
  glBufferData GL_ELEMENT_ARRAY_BUFFER (sizeof_array sizeof_GLushort indices)
    (data_GLushort indices) GL_STATIC_DRAW.

Definition initShader : M Z :=
  program <- createDefaultProgram [ "Position"; "Texcoords" ]%string 2 ;;
  location <- glGetUniformLocation program "u_image" ;;
  when (negb (location =? -1)) (glUniform1i location 0) ;;
  ret program.

Definition deletePBO (pbo : GLuintPtr) : M unit :=
  when (negb (is_null pbo))
    (b <- load pbo ;;
     cudaGLUnregisterBufferObject b ;;
     b <- load pbo ;;
     glBindBuffer GL_ARRAY_BUFFER b ;;
     glDeleteBuffers_1 pbo ;;
     store pbo NULL).

Definition deleteTexture (tex : GLuintPtr) : M unit :=
  glDeleteTextures_1 tex ;;
  store tex NULL.

Definition cleanupCuda : M unit :=
  b <- global pbo ;;
  when (negb (b =? 0)) (deletePBO addr_pbo) ;;
  t <- global displayImage ;;
  when (negb (t =? 0)) (deleteTexture addr_displayImage).

Definition initCuda : M unit :=
  cudaGLSetGLDevice 0 ;;
  atexit fn_cleanupCuda.

Definition initPBO : M unit :=
  w <- global width ;;
  h <- global height ;;
  let num_texels := int_mul w h in
  let num_values := int_mul num_texels 4 in
  let size_tex_data :=
    to_int (size_t_mul sizeof_GLubyte (to_size_t num_values)) in
  glGenBuffers_1 addr_pbo ;;
  b <- global pbo ;;
  glBindBuffer GL_PIXEL_UNPACK_BUFFER b ;;
  glBufferData GL_PIXEL_UNPACK_BUFFER size_tex_data data_NULL
    GL_DYNAMIC_COPY ;;
  b <- global pbo ;;
  cudaGLRegisterBufferObject b.

(** [exit]: the functions registered with [atexit] run, most recently
    registered first, and the process is over. *)
Definition run_exit_fn (f : ExitFn) : M unit :=
  match f with
  | fn_cleanupCuda => cleanupCuda
  end.

Fixpoint run_exit_fns (fs : list ExitFn) : M unit :=
  match fs with
  | [] => ret tt
  | f :: fs' => run_exit_fn f ;; run_exit_fns fs'
  end.

Definition exit (status : Z) : M unit :=
  call (call_exit status) ;;
  fs <- read atexit_list ;;
  run_exit_fns fs ;;
  (fun w => Exits status w).

Definition init : M bool :=
  glfwSetErrorCallback errorCallback ;;
  ok <- glfwInit ;;
  when (ok =? 0) (exit EXIT_FAILURE) ;;
  w <- global width ;;
  h <- global height ;;
  win <- glfwCreateWindow w h "CIS 565 Path Tracer" NULL NULL ;;
  assign set_window win ;;
  win <- global window ;;
  if win =? NULL then
    glfwTerminate ;;
    ret false
  else
    win <- global window ;;
    glfwMakeContextCurrent win ;;
    win <- global window ;;
    glfwSetKeyCallback win keyCallback ;;
    assign set_glewExperimental GL_TRUE ;;
    status <- glewInit ;;
    if negb (status =? GLEW_OK) then
      ret false
    else
      initVAO ;;
      initTextures ;;
      initCuda ;;
      initPBO ;;
      passthroughProgram <- initShader ;;
      glUseProgram passthroughProgram ;;
      glActiveTexture GL_TEXTURE0 ;;
      ret true.

(** One pass through the body of the [while] loop of [mainLoop]. *)
Definition mainLoop_body : M unit :=
  glfwPollEvents ;;
  runCuda ;;
  it <- global iteration ;;
  let title :=
    ("CIS565 Path Tracer | " ++ convertIntToString it ++ " Iterations")%string
  in
  win <- global window ;;
  glfwSetWindowTitle win title ;;
  b <- global pbo ;;
  glBindBuffer GL_PIXEL_UNPACK_BUFFER b ;;
  t <- global displayImage ;;
  glBindTexture GL_TEXTURE_2D t ;;
  w <- global width ;;
  h <- global height ;;
  glTexSubImage2D GL_TEXTURE_2D 0 0 0 w h GL_RGBA GL_UNSIGNED_BYTE NULL ;;
  glClear GL_COLOR_BUFFER_BIT ;;
  glDrawElements GL_TRIANGLES 6 GL_UNSIGNED_SHORT 0 ;;
  win <- global window ;;
  glfwSwapBuffers win.

(** [while (!glfwWindowShouldClose(window)) { ... }]; [fuel] bounds the
    number of times the condition is evaluated. *)
Fixpoint mainLoop_while (fuel : nat) : M unit :=
  match fuel with
  | O => fun w => Unfinished w
  | S fuel' =>
      win <- global window ;;
      close <- glfwWindowShouldClose win ;;
      if close =? 0 then
        mainLoop_body ;;
        mainLoop_while fuel'
      else
        ret tt
  end.

Definition mainLoop (fuel : nat) (pMgr : PacketManager) (client_ip : string)
  : M unit :=
  init ;;
  let iter := 0 in
  mainLoop_while fuel ;;
  win <- global window ;;
  glfwDestroyWindow win ;;
  glfwTerminate.

End Program.

(** ** Concrete worlds and environments, for evaluation *)

Module Sample.

Definition gl0 : GLState :=
  mkGLState ∅ ∅ ∅ ∅ ∅ 0 0 0 0 0 ∅ 1%positive 1%positive 1%positive.

(** A fresh process with an 800 by 600 image: the globals of the file are
    zero-initialised, nothing registered, nothing called yet. *)
Definition world0 : World :=
  mkWorld (mkGlobals 0 0 0 800 600 0 0) gl0 ∅ [] 0 0 [].

(** As [world0], with a 32768 by 32768 image. *)
Definition world_big : World :=
  mkWorld (mkGlobals 0 0 0 32768 32768 0 0) gl0 ∅ [] 0 0 [].

(** Everything succeeds; the window is closed when the [n]-th query (from
    0) is made; the [k]-th render step leaves [iteration = k + 1]. *)
Definition env_ok (n : nat) : Env :=
  mkEnv GL_TRUE 4096 GLEW_OK 0
    (fun k => if (k <? n)%nat then 0 else 1)
    (fun k => Z.of_nat (S k)).

(** [glfwInit] fails. *)
Definition env_no_glfw : Env :=
  mkEnv 0 4096 GLEW_OK 0 (fun _ => 1) (fun k => Z.of_nat (S k)).

(** [glfwCreateWindow] returns [NULL]; the window is then never reported
    closed before the [n]-th query. *)
Definition env_no_window (n : nat) : Env :=
  mkEnv GL_TRUE NULL GLEW_OK 0
    (fun k => if (k <? n)%nat then 0 else 1)
    (fun k => Z.of_nat (S k)).

(** [glewInit] fails. *)
Definition env_no_glew : Env :=
  mkEnv GL_TRUE 4096 1 0 (fun _ => 1) (fun k => Z.of_nat (S k)).

(** Everything succeeds and the window is never reported closed. *)
Definition env_open : Env :=
  mkEnv GL_TRUE 4096 GLEW_OK 0 (fun _ => 0) (fun k => Z.of_nat (S k)).

(** A stand-in for [convertIntToString]: the decimal numeral. *)
Definition show_int (z : Z) : string :=
  NilZero.string_of_int (Z.to_int z).

End Sample.

(** ** Which functions a computation calls *)

(** Number of calls to the function [name] in a piece of trace. *)
Definition calls_to (name : string) (l : list Call) : nat :=
  length (filter (fun c => String.eqb (callee c) name) l).

(** [calls_within L c]: whatever the world, [c] only appends to the trace,
    and every call it appends goes to a function named in [L]. *)
Definition calls_within (L : list string) {A} (c : M A) : Prop :=
  forall w, exists l,
    trace (final (c w)) = trace w ++ l /\
    Forall (fun x => In (callee x) L) l.

(** The functions each part of the file calls. *)
Definition cleanup_callees : list string :=
  [ "cudaGLUnregisterBufferObject"; "glBindBuffer"; "glDeleteBuffers";
    "glDeleteTextures" ]%string.

Definition init_callees : list string :=
  [ "glfwSetErrorCallback"; "glfwInit"; "exit"; "glfwCreateWindow";
    "glfwTerminate"; "glfwMakeContextCurrent"; "glfwSetKeyCallback";
    "glewInit"; "glGenBuffers"; "glBindBuffer"; "glBufferData";
    "glVertexAttribPointer"; "glEnableVertexAttribArray"; "glGenTextures";
    "glBindTexture"; "glTexParameteri"; "glTexImage2D"; "cudaGLSetGLDevice";
    "atexit"; "cudaGLRegisterBufferObject";
    "glslUtility::createDefaultProgram"; "glGetUniformLocation";
    "glUniform1i"; "glUseProgram"; "glActiveTexture" ]%string.

Definition loop_callees : list string :=
  [ "glfwWindowShouldClose"; "glfwPollEvents"; "runCuda";
    "glfwSetWindowTitle"; "glBindBuffer"; "glBindTexture"; "glTexSubImage2D";
    "glClear"; "glDrawElements"; "glfwSwapBuffers" ]%string.

Definition mainLoop_callees : list string :=
  init_callees ++ cleanup_callees ++ loop_callees ++
  [ "glfwDestroyWindow"; "glfwTerminate" ]%string.

(** ** Closed forms

    What the straight-line parts of the file amount to, written out: the
    calls of a successful [init] and the world it ends in, and the calls of
    one pass through the render loop.  The lemmas below show that the
    program computes exactly these. *)

(** The size [initPBO] asks for, from the image dimensions. *)
Definition pbo_size (w h : Z) : Z :=
  to_int (size_t_mul sizeof_GLubyte (to_size_t (int_mul (int_mul w h) 4))).

(** The [i]-th buffer name handed out from world [w] on. *)
Definition fresh_buffer (i : nat) (w : World) : Z :=
  Z.pos (Nat.iter i Pos.succ (next_buffer (gl w))).
Definition fresh_texture (w : World) : Z := Z.pos (next_texture (gl w)).
Definition fresh_program (w : World) : Z := Z.pos (next_program (gl w)).

Definition initVAO_trace (w : World) : list Call :=
  [ call_glGenBuffers 3
      [fresh_buffer 0 w; fresh_buffer 1 w; fresh_buffer 2 w];
    call_glBindBuffer GL_ARRAY_BUFFER (fresh_buffer 0 w);
    call_glBufferData GL_ARRAY_BUFFER 32 (data_GLfloat vertices)
      GL_STATIC_DRAW;
    call_glVertexAttribPointer positionLocation 2 GL_FLOAT GL_FALSE 0 0;
    call_glEnableVertexAttribArray positionLocation;
    call_glBindBuffer GL_ARRAY_BUFFER (fresh_buffer 1 w);
    call_glBufferData GL_ARRAY_BUFFER 32 (data_GLfloat texcoords)
      GL_STATIC_DRAW;
    call_glVertexAttribPointer texcoordsLocation 2 GL_FLOAT GL_FALSE 0 0;
    call_glEnableVertexAttribArray texcoordsLocation;
    call_glBindBuffer GL_ELEMENT_ARRAY_BUFFER (fresh_buffer 2 w);
    call_glBufferData GL_ELEMENT_ARRAY_BUFFER 12 (data_GLushort indices)
      GL_STATIC_DRAW ].

Definition initTextures_trace (w : World) : list Call :=
  [ call_glGenTextures 1 [fresh_texture w];
    call_glBindTexture GL_TEXTURE_2D (fresh_texture w);
    call_glTexParameteri GL_TEXTURE_2D GL_TEXTURE_MAG_FILTER GL_NEAREST;
    call_glTexParameteri GL_TEXTURE_2D GL_TEXTURE_MIN_FILTER GL_NEAREST;
    call_glTexImage2D GL_TEXTURE_2D 0 GL_RGBA8 (width (globals w))
      (height (globals w)) 0 GL_BGRA GL_UNSIGNED_BYTE data_NULL ].

(** [initPBO], run when [i] buffer names have been handed out since [w]. *)
Definition initPBO_trace (i : nat) (w : World) : list Call :=
  [ call_glGenBuffers 1 [fresh_buffer i w];
    call_glBindBuffer GL_PIXEL_UNPACK_BUFFER (fresh_buffer i w);
    call_glBufferData GL_PIXEL_UNPACK_BUFFER
      (pbo_size (width (globals w)) (height (globals w))) data_NULL
      GL_DYNAMIC_COPY;
    call_cudaGLRegisterBufferObject (fresh_buffer i w) ].

Definition initShader_trace (E : Env) (w : World) : list Call :=
  [ call_createDefaultProgram [ "Position"; "Texcoords" ]%string 2
      (fresh_program w);
    call_glGetUniformLocation (fresh_program w) "u_image"
      (glGetUniformLocation_result E) ] ++
  (if glGetUniformLocation_result E =? -1 then []
   else [ call_glUniform1i (glGetUniformLocation_result E) 0 ]).

(** The calls of an [init] in which nothing fails. *)
Definition init_trace (E : Env) (w : World) : list Call :=
  [ call_glfwSetErrorCallback errorCallback;
    call_glfwInit (glfwInit_result E);
    call_glfwCreateWindow (width (globals w)) (height (globals w))
      "CIS 565 Path Tracer" NULL NULL (glfwCreateWindow_result E);
    call_glfwMakeContextCurrent (glfwCreateWindow_result E);
    call_glfwSetKeyCallback (glfwCreateWindow_result E) keyCallback;
    call_glewInit (glewInit_result E) ] ++
  initVAO_trace w ++
  initTextures_trace w ++
  [ call_cudaGLSetGLDevice 0; call_atexit fn_cleanupCuda ] ++
  initPBO_trace 3 w ++
  initShader_trace E w ++
  [ call_glUseProgram (fresh_program w); call_glActiveTexture GL_TEXTURE0 ].

(** The world an [init] in which nothing fails ends in. *)
Definition init_world (E : Env) (w : World) : World :=
  let g := globals w in
  let s := gl w in
  mkWorld
    (mkGlobals (fresh_buffer 3 w) (fresh_texture w)
       (glfwCreateWindow_result E) (width g) (height g) (iteration g)
       GL_TRUE)
    (mkGLState
       ({[ fresh_buffer 3 w ]} ∪ ({[ fresh_buffer 2 w ]} ∪
          ({[ fresh_buffer 1 w ]} ∪ ({[ fresh_buffer 0 w ]} ∪
             buffer_names s))))
       (<[ fresh_buffer 3 w :=
             mkBufferObject (pbo_size (width g) (height g)) data_NULL
               GL_DYNAMIC_COPY ]>
          (<[ fresh_buffer 2 w :=
                mkBufferObject 12 (data_GLushort indices) GL_STATIC_DRAW ]>
             (<[ fresh_buffer 1 w :=
                   mkBufferObject 32 (data_GLfloat texcoords)
                     GL_STATIC_DRAW ]>
                (<[ fresh_buffer 0 w :=
                      mkBufferObject 32 (data_GLfloat vertices)
                        GL_STATIC_DRAW ]>
                   (buffer_store s)))))
       ({[ fresh_texture w ]} ∪ texture_names s)
       (<[ fresh_texture w := mkTexImage GL_RGBA8 (width g) (height g) ]>
          (texture_image s))
       ({[ fresh_program w ]} ∪ program_names s)
       (fresh_buffer 1 w) (fresh_buffer 2 w) (fresh_buffer 3 w)
       (fresh_texture w) (fresh_program w)
       (<[ texcoordsLocation :=
             mkAttribPointer (fresh_buffer 1 w) 2 GL_FLOAT ]>
          (<[ positionLocation :=
                mkAttribPointer (fresh_buffer 0 w) 2 GL_FLOAT ]>
             (vertex_attrib s)))
       (Nat.iter 4 Pos.succ (next_buffer s))
       (Pos.succ (next_texture s))
       (Pos.succ (next_program s)))
    ({[ fresh_buffer 3 w ]} ∪ cuda_registered w)
    (fn_cleanupCuda :: atexit_list w)
    (close_queries w) (cuda_runs w)
    (trace w ++ init_trace E w).

(** The title of the window when the global [iteration] is [it]. *)
Definition window_title (convertIntToString : Z -> string) (it : Z)
  : string :=
  ("CIS565 Path Tracer | " ++ convertIntToString it ++ " Iterations")%string.

(** The calls of one pass through the body of the render loop, started with
    globals [g], when the render step leaves [iteration = it]. *)
Definition body_trace (convertIntToString : Z -> string) (g : Globals)
    (it : Z) : list Call :=
  [ call_glfwPollEvents;
    call_runCuda;
    call_glfwSetWindowTitle (window g) (window_title convertIntToString it);
    call_glBindBuffer GL_PIXEL_UNPACK_BUFFER (pbo g);
    call_glBindTexture GL_TEXTURE_2D (displayImage g);
    call_glTexSubImage2D GL_TEXTURE_2D 0 0 0 (width g) (height g) GL_RGBA
      GL_UNSIGNED_BYTE NULL;
    call_glClear GL_COLOR_BUFFER_BIT;
    call_glDrawElements GL_TRIANGLES 6 GL_UNSIGNED_SHORT 0;
    call_glfwSwapBuffers (window g) ].

(** One turn of the loop: the test, which finds the window open, and the
    body. *)
Definition frame_trace (convertIntToString : Z -> string) (g : Globals)
    (it : Z) : list Call :=
  call_glfwWindowShouldClose (window g) 0
    :: body_trace convertIntToString g it.

(** The world one pass through the body leaves, from [w]. *)
Definition body_world (E : Env) (convertIntToString : Z -> string)
    (w : World) : World :=
  let g := globals w in
  let it := runCuda_iteration E (cuda_runs w) in
  mkWorld (set_iteration it g)
    (GL.bind_texture (displayImage g)
       (GL.bind_buffer GL_PIXEL_UNPACK_BUFFER (pbo g)
          (GL.write_rendered (bool_decide (pbo g ∈ cuda_registered w))
             (pbo g) (cuda_runs w) (gl w))))
    (cuda_registered w) (atexit_list w) (close_queries w)
    (S (cuda_runs w))
    (trace w ++ body_trace convertIntToString g it).

(** The world after the loop test, from [w]. *)
Definition query_world (E : Env) (w : World) : World :=
  mkWorld (globals w) (gl w) (cuda_registered w) (atexit_list w)
    (S (close_queries w)) (cuda_runs w)
    (trace w ++
       [ call_glfwWindowShouldClose (window (globals w))
           (glfwWindowShouldClose_result E (close_queries w)) ]).

(** The world after [n] turns of the loop (test, then body), from [w]. *)
Fixpoint turns (E : Env) (convertIntToString : Z -> string) (n : nat)
    (w : World) : World :=
  match n with
  | O => w
  | S n' =>
      turns E convertIntToString n'
        (body_world E convertIntToString (query_world E w))
  end.

(** The calls of [n] turns of the loop when [r] render steps have been made
    before: the [k]-th render step overall leaves
    [iteration = runCuda_iteration E k]. *)
Definition loop_trace (E : Env) (convertIntToString : Z -> string)
    (g : Globals) (r n : nat) : list Call :=
  flat_map (fun k => frame_trace convertIntToString g (runCuda_iteration E k))
    (seq r n).

(** The names of the calls of one turn of the loop, in order. *)
Definition frame_callees : list string :=
  [ "glfwWindowShouldClose"; "glfwPollEvents"; "runCuda";
    "glfwSetWindowTitle"; "glBindBuffer"; "glBindTexture"; "glTexSubImage2D";
    "glClear"; "glDrawElements"; "glfwSwapBuffers" ]%string.

(** What [mainLoop] does once [init] has returned. *)
Definition after_init (E : Env) (convertIntToString : Z -> string)
    (fuel : nat) : M unit :=
  (mainLoop_while E convertIntToString fuel ;;
   win <- global window ;;
   glfwDestroyWindow win ;;
   glfwTerminate)%prog.

(** Entry points that create threads or synchronise, in the C++ library,
    POSIX, Win32, CUDA and OpenGL. *)
Definition thread_or_sync_callees : list string :=
  [ "std::thread"; "std::async"; "pthread_create"; "CreateThread";
    "std::mutex::lock"; "pthread_mutex_lock"; "pthread_join";
    "std::condition_variable::wait"; "cudaDeviceSynchronize";
    "cudaThreadSynchronize"; "cudaStreamSynchronize"; "glFinish";
    "glFenceSync"; "glClientWaitSync" ]%string.

(** The handles and dimensions the loop body reads. *)
Definition same_handles (g g' : Globals) : Prop :=
  window g' = window g /\ pbo g' = pbo g /\
  displayImage g' = displayImage g /\
  width g' = width g /\ height g' = height g.

(** ** The quad

    What [glDrawElements(GL_TRIANGLES, ...)] assembles from an index list
    and a list of two-component vertex positions, and when a point lies in
    a triangle. *)

(** An array of floats read as two-component vectors. *)
Fixpoint pairs (xs : list Q) : list (Q * Q) :=
  match xs with
  | x :: y :: rest => (x, y) :: pairs rest
  | _ => []
  end.

Definition Triangle : Type := (Q * Q) * (Q * Q) * (Q * Q).

(** [GL_TRIANGLES]: every three indices make one triangle. *)
Fixpoint assemble_triangles (pos : list (Q * Q)) (idx : list Z)
  : list Triangle :=
  match idx with
  | i :: j :: k :: rest =>
      match pos !! Z.to_nat i, pos !! Z.to_nat j, pos !! Z.to_nat k with
      | Some a, Some b, Some c => (a, b, c) :: assemble_triangles pos rest
      | _, _, _ => assemble_triangles pos rest
      end
  | _ => []
  end.

(** Twice the signed area of the triangle [a], [b], [p]. *)
Definition edge (a b p : Q * Q) : Q :=
  ((fst b - fst a) * (snd p - snd a) - (snd b - snd a) * (fst p - fst a))%Q.

(** [p] lies in the closed triangle [t], whichever way [t] winds. *)
Definition inside (t : Triangle) (p : Q * Q) : Prop :=
  let '(a, b, c) := t in
  ((0 <= edge a b p /\ 0 <= edge b c p /\ 0 <= edge c a p) \/
   (edge a b p <= 0 /\ edge b c p <= 0 /\ edge c a p <= 0))%Q.

(** The data [glDrawElements] reads its indices from, and the data a vertex
    attribute array reads from. *)
Definition element_source (s : GLState) : option ClientData :=
  buf_data <$> buffer_store s !! element_array_buffer_binding s.

Definition attrib_source (index : Z) (s : GLState) : option ClientData :=
  vertex_attrib s !! index ≫= fun a =>
  buf_data <$> buffer_store s !! attr_buffer a.

(** The quad of [initVAO] is what a draw call would read. *)
Definition quad_ready (s : GLState) : Prop :=
  element_source s = Some (data_GLushort indices) /\
  attrib_source positionLocation s = Some (data_GLfloat vertices) /\
  attrib_source texcoordsLocation s = Some (data_GLfloat texcoords).

(** The quad sits in the buffers [b0], [b1], [b2], none of which is the
    pixel buffer. *)
Definition quad_buffers (b0 b1 b2 : Z) (w : World) : Prop :=
  element_array_buffer_binding (gl w) = b2 /\
  buffer_store (gl w) !! b2
  = Some (mkBufferObject 12 (data_GLushort indices) GL_STATIC_DRAW) /\
  vertex_attrib (gl w) !! positionLocation
  = Some (mkAttribPointer b0 2 GL_FLOAT) /\
  buffer_store (gl w) !! b0
  = Some (mkBufferObject 32 (data_GLfloat vertices) GL_STATIC_DRAW) /\
  vertex_attrib (gl w) !! texcoordsLocation
  = Some (mkAttribPointer b1 2 GL_FLOAT) /\
  buffer_store (gl w) !! b1
  = Some (mkBufferObject 32 (data_GLfloat texcoords) GL_STATIC_DRAW) /\
  pbo (globals w) <> b0 /\ pbo (globals w) <> b1 /\ pbo (globals w) <> b2.

(** The pixel buffer is shared with the render step and has a store. *)
Definition pbo_shared (w : World) : Prop :=
  pbo (globals w) ∈ cuda_registered w /\
  is_Some (buffer_store (gl w) !! pbo (globals w)).

(** The pixel buffer is the unpack source, holds what render step [k]
    wrote, and the display texture is the bound texture. *)
Definition pbo_backed (k : nat) (w : World) : Prop :=
  pixel_unpack_buffer_binding (gl w) = pbo (globals w) /\
  texture_binding_2d (gl w) = displayImage (globals w) /\
  buf_data <$> buffer_store (gl w) !! pbo (globals w)
  = Some (data_rendered k).

(** Keeps the render steps and the title updates of a trace. *)
Definition render_or_title (c : Call) : bool :=
  String.eqb (callee c) "runCuda" || String.eqb (callee c) "glfwSetWindowTitle".

(** ** Further closed forms *)

(** Nothing was allocated or released between [w] and [w']: the same names
    are in use, the same buffers have a store, the counters are where they
    were, and the vertex array set-up is untouched. *)
Definition no_alloc (w w' : World) : Prop :=
  buffer_names (gl w') = buffer_names (gl w) /\
  texture_names (gl w') = texture_names (gl w) /\
  program_names (gl w') = program_names (gl w) /\
  dom (buffer_store (gl w')) = dom (buffer_store (gl w)) /\
  texture_image (gl w') = texture_image (gl w) /\
  next_buffer (gl w') = next_buffer (gl w) /\
  next_texture (gl w') = next_texture (gl w) /\
  next_program (gl w') = next_program (gl w) /\
  vertex_attrib (gl w') = vertex_attrib (gl w) /\
  array_buffer_binding (gl w') = array_buffer_binding (gl w) /\
  element_array_buffer_binding (gl w') = element_array_buffer_binding (gl w) /\
  current_program (gl w') = current_program (gl w) /\
  cuda_registered w' = cuda_registered w /\
  atexit_list w' = atexit_list w.

(** The OpenGL and CUDA interop functions of the file: the calls that need a
    current context. *)
Definition gl_callees : list string :=
  [ "glGenBuffers"; "glBindBuffer"; "glBufferData"; "glVertexAttribPointer";
    "glEnableVertexAttribArray"; "glGenTextures"; "glBindTexture";
    "glTexParameteri"; "glTexImage2D"; "cudaGLSetGLDevice";
    "cudaGLRegisterBufferObject"; "cudaGLUnregisterBufferObject";
    "glslUtility::createDefaultProgram"; "glGetUniformLocation";
    "glUniform1i"; "glUseProgram"; "glActiveTexture"; "glDeleteBuffers";
    "glDeleteTextures"; "glTexSubImage2D"; "glClear"; "glDrawElements" ]%string.

(** Number of calls in a piece of trace that go to one of the functions
    named in [L]. *)
Definition calls_among (L : list string) (l : list Call) : nat :=
  length (filter (fun c => existsb (String.eqb (callee c)) L) l).

(** The [GLuint] a non-null pointer of the file points to. *)
Definition pointee (p : GLuintPtr) (w : World) : Z :=
  match p with
  | null_ptr => 0
  | addr_pbo => pbo (globals w)
  | addr_displayImage => displayImage (globals w)
  end.

(** ** [currentTimeString]

    The function reads the clock with [time], breaks the time down with
    [gmtime] and formats it with [strftime] into a buffer of
    [sizeof "0000-00-00_00-00-00z"] bytes.  The clock value is an argument
    of the model and [gmtime] a parameter; [strftime] is written out for the
    conversions the format of the file uses, as the C standard describes
    them. *)

(** The members of [struct tm] the format reads. *)
Record tm : Set := mk_tm {
  tm_sec : Z;
  tm_min : Z;
  tm_hour : Z;
  tm_mday : Z;
  tm_mon : Z;
  tm_year : Z
}.

(** The ranges the C standard gives the members ([tm_sec] allows a leap
    second). *)
Definition tm_in_range (t : tm) : Prop :=
  0 <= tm_sec t <= 60 /\ 0 <= tm_min t <= 59 /\ 0 <= tm_hour t <= 23 /\
  1 <= tm_mday t <= 31 /\ 0 <= tm_mon t <= 11.

(** The character of a decimal digit. *)
Definition digit (d : Z) : ascii := ascii_of_nat (48 + Z.to_nat d).

(** The decimal digits of a non-negative number; [fuel] bounds their
    number. *)
Fixpoint decimal_digits (fuel : nat) (n : Z) : string :=
  match fuel with
  | O => EmptyString
  | S fuel' =>
      if n <? 10 then String (digit n) EmptyString
      else (decimal_digits fuel' (n / 10)
              ++ String (digit (n mod 10)) EmptyString)%string
  end.

(** An [int] as a decimal number (an [int] has at most 10 digits). *)
Definition decimal (z : Z) : string :=
  if z <? 0 then String "-" (decimal_digits 20 (- z))
  else decimal_digits 20 z.

(** A decimal number padded with a zero to two characters. *)
Definition pad2 (z : Z) : string :=
  let s := decimal z in
  if (String.length s <? 2)%nat then String "0" s else s.

(** The conversion specifiers of the format: [%Y] the year as a decimal
    number, [%m] the month (01-12), [%d] the day of the month (01-31), [%H]
    the hour (00-23), [%M] the minute (00-59), [%S] the second (00-60).
    Other specifiers do not occur in the file and are copied as they are. *)
Definition conversion (c : ascii) (t : tm) : string :=
  if Ascii.eqb c "Y" then decimal (tm_year t + 1900)
  else if Ascii.eqb c "m" then pad2 (tm_mon t + 1)
  else if Ascii.eqb c "d" then pad2 (tm_mday t)
  else if Ascii.eqb c "H" then pad2 (tm_hour t)
  else if Ascii.eqb c "M" then pad2 (tm_min t)
  else if Ascii.eqb c "S" then pad2 (tm_sec t)
  else String "%" (String c EmptyString).

(** The characters [strftime] produces for a format. *)
Fixpoint expand (format : string) (t : tm) : string :=
  match format with
  | EmptyString => EmptyString
  | String c rest =>
      if Ascii.eqb c "%" then
        match rest with
        | EmptyString => String c EmptyString
        | String spec rest' => (conversion spec t ++ expand rest' t)%string
        end
      else String c (expand rest t)
  end.

(** [strftime(buf, maxsize, format, t)]: if the characters produced and the
    terminating null fit in [maxsize] bytes, their number and the string
    left in the buffer; otherwise 0, and the buffer is indeterminate
    ([None]). *)
Definition strftime (maxsize : Z) (format : string) (t : tm)
  : Z * option string :=
  let s := expand format t in
  if Z.of_nat (String.length s) + 1 <=? maxsize
  then (Z.of_nat (String.length s), Some s)
  else (0, None).

(** [sizeof] of a string literal: its characters and the null. *)
Definition sizeof_literal (s : string) : Z := Z.of_nat (String.length s) + 1.

Section CurrentTime.

(** [gmtime] is the C library's; it is taken as given. *)
Variable gmtime : Z -> tm.

(** [now] is what [time(&now)] stored.  The value [strftime] returns is not
    looked at; the result is the string in the buffer. *)
Definition currentTimeString (now : Z) : option string :=
  let buf_size := sizeof_literal "0000-00-00_00-00-00z" in
  snd (strftime buf_size "%Y-%m-%d_%H-%M-%Sz" (gmtime now)).

End CurrentTime.

(** The calendar fields of a broken-down time, most significant first, and
    the lexicographic order on such lists. *)
Definition tm_key (t : tm) : list Z :=
  [ tm_year t + 1900; tm_mon t + 1; tm_mday t; tm_hour t; tm_min t;
    tm_sec t ].

Fixpoint lex_compare (a b : list Z) : comparison :=
  match a, b with
  | [], [] => Eq
  | [], _ :: _ => Lt
  | _ :: _, [] => Gt
  | x :: a', y :: b' =>
      match x ?= y with
      | Eq => lex_compare a' b'
      | c => c
      end
  end.

(** A broken-down time for evaluation: 2026-10-30 09:08:07. *)
Definition sample_tm : tm := mk_tm 7 8 9 30 9 126.

(** What follows the year in a time stamp: separators and two-digit
    fields, 16 characters. *)
Definition stamp_tail (t : tm) : string :=
  String "-"
    (String (digit ((tm_mon t + 1) / 10))
    (String (digit ((tm_mon t + 1) mod 10))
    (String "-"
    (String (digit (tm_mday t / 10))
    (String (digit (tm_mday t mod 10))
    (String "_"
    (String (digit (tm_hour t / 10))
    (String (digit (tm_hour t mod 10))
    (String "-"
    (String (digit (tm_min t / 10))
    (String (digit (tm_min t mod 10))
    (String "-"
    (String (digit (tm_sec t / 10))
    (String (digit (tm_sec t mod 10))
    (String "z" EmptyString))))))))))))))).

(** The functions that release an object or shut something down: the
    OpenGL and CUDA calls that delete or unregister, and the calls that end
    the window, the library or the process. *)
Definition release_callees : list string :=
  [ "glDeleteBuffers"; "glDeleteTextures"; "glDeleteProgram";
    "cudaGLUnregisterBufferObject"; "glfwDestroyWindow"; "glfwTerminate";
    "exit" ]%string.

(** * Properties *)

(** ** Facts about the state monad *)

Section MonadFacts.

Lemma bind_Returns {A B} (c : M A) (k : A -> M B) w a w' :
  c w = Returns a w' -> bind c k w = k a w'.
Proof. intros H. unfold bind. now rewrite H. Qed.

Lemma bind_Exits {A B} (c : M A) (k : A -> M B) w s w' :
  c w = Exits s w' -> bind c k w = Exits s w'.
Proof. intros H. unfold bind. now rewrite H. Qed.

Lemma bind_Unfinished {A B} (c : M A) (k : A -> M B) w w' :
  c w = Unfinished w' -> bind c k w = Unfinished w'.
Proof. intros H. unfold bind. now rewrite H. Qed.

Lemma bind_assoc {A B C} (c : M A) (k : A -> M B) (h : B -> M C) w :
  bind (bind c k) h w = bind c (fun a => bind (k a) h) w.
Proof. unfold bind. destruct (c w); reflexivity. Qed.

End MonadFacts.

(** Unfolds the monad and the library functions, leaving the effect of a
    straight-line piece of program on the world. *)
Ltac run :=
  cbv beta iota zeta delta
    [bind ret call modify read when global assign load store is_null negb
     glGenTextures_1 glBindTexture glTexParameteri glTexImage2D gen_buffers
     glGenBuffers glGenBuffers_1 glBindBuffer glBufferData
     glVertexAttribPointer glEnableVertexAttribArray createDefaultProgram
     glGetUniformLocation glUniform1i cudaGLUnregisterBufferObject
     cudaGLRegisterBufferObject glDeleteBuffers_1 glDeleteTextures_1
     cudaGLSetGLDevice atexit glfwSetErrorCallback glfwInit glfwCreateWindow
     glfwTerminate glfwMakeContextCurrent glfwSetKeyCallback glewInit
     glUseProgram glActiveTexture glfwWindowShouldClose glfwPollEvents
     glfwSetWindowTitle glTexSubImage2D glClear glDrawElements
     glfwSwapBuffers glfwDestroyWindow
     GL.gen_buffer GL.gen_texture GL.create_program GL.binding
     GL.bind_buffer GL.set_buffer_store GL.buffer_data GL.bind_texture
     GL.tex_image GL.vertex_attrib_pointer GL.use_program GL.delete_buffer
     GL.delete_texture GL.write_rendered
     buffer_names buffer_store texture_names texture_image program_names
     array_buffer_binding element_array_buffer_binding
     pixel_unpack_buffer_binding texture_binding_2d current_program
     vertex_attrib next_buffer next_texture next_program
     on_globals on_gl on_cuda_registered on_atexit_list log
     tick_close_queries tick_cuda_runs
     set_pbo set_displayImage set_window set_iteration set_glewExperimental
     globals gl cuda_registered atexit_list close_queries cuda_runs trace
     pbo displayImage window width height iteration glewExperimental
     final nth].

(** ** The cleanup hook *)

Section Cleanup.

(** After [cleanupCuda] both handles are zero. *)
Lemma cleanupCuda_returns (w : World) :
  exists w', cleanupCuda w = Returns tt w' /\
             pbo (globals w') = 0 /\ displayImage (globals w') = 0.
Proof.
  destruct w as [[b t win wd ht it ge] s reg fs q r tr].
  unfold cleanupCuda, deletePBO, deleteTexture. run.
  destruct (Z.eqb_spec b 0) as [-> | Hb];
    destruct (Z.eqb_spec t 0) as [-> | Ht]; run;
    eexists; (split; [reflexivity | split; reflexivity]).
Qed.

(** With both handles zero, [cleanupCuda] does nothing at all. *)
Lemma cleanupCuda_skip (w : World) :
  pbo (globals w) = 0 -> displayImage (globals w) = 0 ->
  cleanupCuda w = Returns tt w.
Proof.
  destruct w as [[b t win wd ht it ge] s reg fs q r tr]. simpl.
  intros -> ->. reflexivity.
Qed.

End Cleanup.

(** C9. [cleanupCuda] is idempotent: a call returns with the globals [pbo]
    and [displayImage] both zero, and a second call, started where the first
    one ended, makes no library call (so deletes nothing) and returns in the
    very same world. *)
Theorem cleanupCuda_idempotent (w : World) :
  exists w1,
    cleanupCuda w = Returns tt w1 /\
    pbo (globals w1) = 0 /\ displayImage (globals w1) = 0 /\
    cleanupCuda w1 = Returns tt w1 /\
    (cleanupCuda ;; cleanupCuda)%prog w = cleanupCuda w.
Proof.
  destruct (cleanupCuda_returns w) as (w1 & Hrun & Hb & Ht).
  exists w1. repeat split; trivial.
  - now apply cleanupCuda_skip.
  - rewrite (bind_Returns _ _ _ _ _ Hrun), Hrun. now apply cleanupCuda_skip.
Qed.

(** ** Reasoning about the calls of a computation *)

Section CallsWithin.

Variable L : list string.

Lemma calls_within_ret {A} (a : A) : calls_within L (ret a).
Proof. intros w. exists []. simpl. now rewrite app_nil_r. Qed.

Lemma calls_within_bind {A B} (c : M A) (k : A -> M B) :
  calls_within L c -> (forall a, calls_within L (k a)) ->
  calls_within L (bind c k).
Proof.
  intros Hc Hk w. destruct (Hc w) as (l1 & H1 & F1).
  unfold bind. destruct (c w) as [a w1 | s w1 | w1]; simpl in *.
  - destruct (Hk a w1) as (l2 & H2 & F2).
    exists (l1 ++ l2). rewrite H2, H1, app_assoc. split; trivial.
    now apply Forall_app.
  - now exists l1.
  - now exists l1.
Qed.

Lemma calls_within_call (c : Call) :
  In (callee c) L -> calls_within L (call c).
Proof.
  intros Hc w. exists [c]. split; [reflexivity | now constructor].
Qed.

Lemma calls_within_modify (f : World -> World) :
  (forall w, trace (f w) = trace w) -> calls_within L (modify f).
Proof.
  intros Hf w. exists []. simpl. now rewrite Hf, app_nil_r.
Qed.

Lemma calls_within_read {A} (f : World -> A) : calls_within L (read f).
Proof. intros w. exists []. simpl. now rewrite app_nil_r. Qed.

Lemma calls_within_when (b : bool) (c : M unit) :
  calls_within L c -> calls_within L (when b c).
Proof. destruct b; simpl; trivial. intros _. apply calls_within_ret. Qed.

Lemma calls_within_stop {A} (f : World -> Outcome A) :
  (forall w, final (f w) = w) -> calls_within L f.
Proof. intros Hf w. exists []. now rewrite Hf, app_nil_r. Qed.

End CallsWithin.

Lemma calls_within_weaken (L L' : list string) {A} (c : M A) :
  incl L L' -> calls_within L c -> calls_within L' c.
Proof.
  intros Hi Hc w. destruct (Hc w) as (l & H & F). exists l. split; trivial.
  eapply Forall_impl; [exact F |]. intros x Hx. now apply Hi.
Qed.

(** Breaks a computation into its calls and state updates. *)
Ltac within :=
  repeat first
    [ apply calls_within_bind; [| intros ? ]
    | apply calls_within_ret
    | apply calls_within_read
    | apply calls_within_when
    | apply calls_within_call; simpl; tauto
    | apply calls_within_modify; intros [? ? ? ? ? ? ?]; reflexivity
    | match goal with
      | |- calls_within _ (load ?p) => destruct p; unfold load
      | |- calls_within _ (store ?p _) => destruct p; unfold store
      | |- calls_within _ (if ?b then _ else _) => destruct b
      end
    | progress unfold global, assign ].

Section CleanupCalls.

Lemma cleanupCuda_calls : calls_within cleanup_callees cleanupCuda.
Proof.
  unfold cleanupCuda, deletePBO, deleteTexture, cleanup_callees,
    cudaGLUnregisterBufferObject, glBindBuffer, glDeleteBuffers_1,
    glDeleteTextures_1.
  within.
Qed.

Lemma run_exit_fns_calls (fs : list ExitFn) :
  calls_within cleanup_callees (run_exit_fns fs).
Proof.
  induction fs as [| [] fs IH]; simpl.
  - apply calls_within_ret.
  - apply calls_within_bind; [apply cleanupCuda_calls | intros _; exact IH].
Qed.

Lemma exit_calls (status : Z) :
  calls_within ("exit"%string :: cleanup_callees) (exit status).
Proof.
  unfold exit.
  apply calls_within_bind; [within | intros _].
  apply calls_within_bind; [within | intros fs].
  apply calls_within_bind.
  - eapply calls_within_weaken; [| apply run_exit_fns_calls].
    now apply incl_tl.
  - intros _. now apply calls_within_stop.
Qed.

Lemma gen_buffers_calls (L : list string) (n : nat) :
  calls_within L (gen_buffers n).
Proof.
  induction n as [| n IH]; simpl; [apply calls_within_ret |].
  apply calls_within_bind.
  - intros [g s reg fs q r tr]. exists []. simpl. now rewrite app_nil_r.
  - intros b. apply calls_within_bind; [exact IH | intros; within].
Qed.

End CleanupCalls.

Section Callees.

Variable E : Env.
Variable convertIntToString : Z -> string.
Variable PacketManager : Type.

Lemma init_calls : calls_within (init_callees ++ cleanup_callees) (init E).
Proof.
  unfold init.
  apply calls_within_bind; [unfold glfwSetErrorCallback; within | intros _].
  apply calls_within_bind; [unfold glfwInit; within | intros ok].
  apply calls_within_bind.
  { apply calls_within_when.
    eapply calls_within_weaken; [| apply exit_calls].
    intros x [<- | Hx]; [simpl; tauto |].
    apply in_or_app. now right. }
  intros _.
  eapply calls_within_weaken; [apply incl_appl, incl_refl |].
  unfold initVAO, initTextures, initCuda, initPBO, initShader,
    glfwCreateWindow, glfwTerminate, glfwMakeContextCurrent,
    glfwSetKeyCallback, glewInit, glGenBuffers_1, glGenBuffers,
    glGenTextures_1, glBindBuffer, glBufferData, glVertexAttribPointer,
    glEnableVertexAttribArray, glBindTexture, glTexParameteri, glTexImage2D,
    cudaGLSetGLDevice, atexit, cudaGLRegisterBufferObject,
    createDefaultProgram, glGetUniformLocation, glUniform1i, glUseProgram,
    glActiveTexture, init_callees.
  repeat first
    [ apply gen_buffers_calls
    | match goal with
      | |- calls_within _ (fun w => let '(_, _) := _ in _) =>
          intros [g s reg fs q r tr]; exists []; simpl;
          now rewrite app_nil_r
      end
    | progress within ].
Qed.

Lemma mainLoop_body_calls :
  calls_within loop_callees (mainLoop_body E convertIntToString).
Proof.
  unfold mainLoop_body, runCuda, glfwPollEvents, glfwSetWindowTitle,
    glBindBuffer, glBindTexture, glTexSubImage2D, glClear, glDrawElements,
    glfwSwapBuffers, loop_callees.
  within.
Qed.

Lemma mainLoop_while_calls (fuel : nat) :
  calls_within loop_callees (mainLoop_while E convertIntToString fuel).
Proof.
  induction fuel as [| fuel IH]; simpl.
  - now apply calls_within_stop.
  - apply calls_within_bind; [within | intros win].
    apply calls_within_bind;
      [unfold glfwWindowShouldClose, loop_callees; within | intros close].
    destruct (close =? 0); [| apply calls_within_ret].
    apply calls_within_bind; [apply mainLoop_body_calls | intros _; exact IH].
Qed.

Lemma mainLoop_calls (fuel : nat) (pMgr : PacketManager) (ip : string) :
  calls_within mainLoop_callees
    (mainLoop E convertIntToString PacketManager fuel pMgr ip).
Proof.
  unfold mainLoop, mainLoop_callees.
  apply calls_within_bind; [| intros _].
  { eapply calls_within_weaken; [| apply init_calls].
    rewrite app_assoc. apply incl_appl, incl_refl. }
  apply calls_within_bind; [| intros _].
  { eapply calls_within_weaken; [| apply mainLoop_while_calls].
    apply incl_appr, incl_appr, incl_appl, incl_refl. }
  eapply calls_within_weaken;
    [apply incl_appr, incl_appr, incl_appr, incl_refl |].
  unfold glfwDestroyWindow, glfwTerminate. within.
Qed.

End Callees.

Lemma calls_to_app (name : string) (l1 l2 : list Call) :
  calls_to name (l1 ++ l2) = (calls_to name l1 + calls_to name l2)%nat.
Proof. unfold calls_to. now rewrite filter_app, length_app. Qed.

Lemma calls_to_outside (name : string) (L : list string) (l : list Call) :
  Forall (fun x => In (callee x) L) l -> ~ In name L -> calls_to name l = 0%nat.
Proof.
  intros F Hn. unfold calls_to.
  induction F as [| x l Hx F IH]; [reflexivity |].
  rewrite filter_cons. destruct (decide _) as [Heq | _]; [| exact IH].
  exfalso. apply Hn.
  apply Is_true_true, String.eqb_eq in Heq. now rewrite <- Heq.
Qed.

(** ** Initialisation *)

Section Init.

Variable E : Env.

Lemma run_exit_fns_returns (fs : list ExitFn) (w : World) :
  exists w', run_exit_fns fs w = Returns tt w'.
Proof.
  revert w. induction fs as [| [] fs IH]; intros w; simpl.
  - now exists w.
  - destruct (cleanupCuda_returns w) as (w1 & H1 & _).
    rewrite (bind_Returns _ _ _ _ _ H1). apply IH.
Qed.

(** [glfwInit] fails: the process exits with [EXIT_FAILURE]. *)
Lemma init_exits (w : World) :
  glfwInit_result E = 0 ->
  exists w' l,
    init E w = Exits EXIT_FAILURE w' /\
    trace w' =
      trace w ++ [call_glfwSetErrorCallback errorCallback; call_glfwInit 0;
                  call_exit EXIT_FAILURE] ++ l /\
    Forall (fun x => In (callee x) cleanup_callees) l.
Proof.
  intros H0. destruct w as [g s reg fs q r tr].
  unfold init, exit. run. rewrite H0. change (0 =? 0) with true. run.
  match goal with
  | |- context [run_exit_fns fs ?w] => set (w1 := w)
  end.
  destruct (run_exit_fns_returns fs w1) as (w2 & H2).
  destruct (run_exit_fns_calls fs w1) as (l & Hl & Fl).
  rewrite H2 in *. simpl in Hl.
  exists w2, l. split; [reflexivity |]. split; [| exact Fl].
  rewrite <- !app_assoc in Hl. exact Hl.
Qed.

(** The window cannot be created: GLFW is shut down, [init] is false. *)
Lemma init_no_window (w : World) :
  glfwInit_result E <> 0 -> glfwCreateWindow_result E = NULL ->
  init E w =
    Returns false
      (mkWorld (set_window NULL (globals w)) (gl w) (cuda_registered w)
         (atexit_list w) (close_queries w) (cuda_runs w)
         (trace w ++
            [call_glfwSetErrorCallback errorCallback;
             call_glfwInit (glfwInit_result E);
             call_glfwCreateWindow (width (globals w)) (height (globals w))
               "CIS 565 Path Tracer" NULL NULL NULL;
             call_glfwTerminate])).
Proof.
  intros H0 H1. destruct w as [[b t win wd ht it ge] s reg fs q r tr].
  unfold init. run.
  destruct (Z.eqb_spec (glfwInit_result E) 0) as [| _]; [contradiction |].
  rewrite H1. simpl. now rewrite <- !app_assoc.
Qed.

(** The extension loader fails: [init] is false, the window stays. *)
Lemma init_no_glew (w : World) :
  glfwInit_result E <> 0 -> glfwCreateWindow_result E <> NULL ->
  glewInit_result E <> GLEW_OK ->
  init E w =
    Returns false
      (mkWorld
         (set_glewExperimental GL_TRUE
            (set_window (glfwCreateWindow_result E) (globals w)))
         (gl w) (cuda_registered w)
         (atexit_list w) (close_queries w) (cuda_runs w)
         (trace w ++
            [call_glfwSetErrorCallback errorCallback;
             call_glfwInit (glfwInit_result E);
             call_glfwCreateWindow (width (globals w)) (height (globals w))
               "CIS 565 Path Tracer" NULL NULL (glfwCreateWindow_result E);
             call_glfwMakeContextCurrent (glfwCreateWindow_result E);
             call_glfwSetKeyCallback (glfwCreateWindow_result E) keyCallback;
             call_glewInit (glewInit_result E)])).
Proof.
  intros H0 H1 H2. destruct w as [[b t win wd ht it ge] s reg fs q r tr].
  unfold init. run.
  destruct (Z.eqb_spec (glfwInit_result E) 0) as [| _]; [contradiction |].
  cbv iota.
  destruct (Z.eqb_spec (glfwCreateWindow_result E) NULL) as [| _];
    [contradiction |].
  destruct (Z.eqb_spec (glewInit_result E) GLEW_OK) as [| _];
    [contradiction |].
  simpl. now rewrite <- !app_assoc.
Qed.

(** Nothing fails: [init] is true, and its calls and final world are the
    ones written out above. *)
Lemma init_succeeds (w : World) :
  glfwInit_result E <> 0 -> glfwCreateWindow_result E <> NULL ->
  glewInit_result E = GLEW_OK ->
  init E w = Returns true (init_world E w).
Proof.
  intros H0 H1 H2.
  destruct w as [[b t win wd ht it ge]
                   [bn bs tn ti pn ab eb pb tb cp va nb nt np] reg fs q r tr].
  unfold init, initVAO, initTextures, initCuda, initPBO, initShader. run.
  destruct (Z.eqb_spec (glfwInit_result E) 0) as [| _]; [contradiction |].
  cbv iota.
  destruct (Z.eqb_spec (glfwCreateWindow_result E) NULL) as [| _];
    [contradiction |].
  destruct (Z.eqb_spec (glewInit_result E) GLEW_OK) as [_ |];
    [| contradiction].
  cbv iota.
  cbv beta iota zeta delta
    [init_world init_trace initVAO_trace initTextures_trace initPBO_trace
     initShader_trace fresh_buffer fresh_texture fresh_program pbo_size
     Nat.iter nat_rect globals gl cuda_registered atexit_list close_queries
     cuda_runs trace width height iteration buffer_names buffer_store
     texture_names texture_image program_names vertex_attrib next_buffer
     next_texture next_program].
  change (sizeof_array sizeof_GLfloat vertices) with 32.
  change (sizeof_array sizeof_GLfloat texcoords) with 32.
  change (sizeof_array sizeof_GLushort indices) with 12.
  change (Z.of_nat 3) with 3. change (Z.of_nat 1) with 1.
  destruct (glGetUniformLocation_result E =? -1); cbv beta iota;
    rewrite <- ?app_assoc; cbn [app]; reflexivity.
Qed.

End Init.

(** C1 (as amended). [init] has three failure points.  If [glfwInit] fails
    the process is terminated through [exit(EXIT_FAILURE)] and [init] does
    not return.  If [glfwInit] succeeds, [init] returns false when window
    creation fails or the GL extension loader fails, and true otherwise.
    Nothing is retried: in every execution [glfwInit] is called once and
    [glfwCreateWindow] and [glewInit] at most once each. *)
Theorem init_failure_points (E : Env) (w : World) :
  (glfwInit_result E = 0 ->
   exists w', init E w = Exits EXIT_FAILURE w') /\
  (glfwInit_result E <> 0 ->
   glfwCreateWindow_result E = NULL \/ glewInit_result E <> GLEW_OK ->
   exists w', init E w = Returns false w') /\
  (glfwInit_result E <> 0 ->
   ~ (glfwCreateWindow_result E = NULL \/ glewInit_result E <> GLEW_OK) ->
   exists w', init E w = Returns true w') /\
  (exists l,
     trace (final (init E w)) = trace w ++ l /\
     calls_to "glfwInit" l = 1%nat /\
     (calls_to "glfwCreateWindow" l <= 1)%nat /\
     (calls_to "glewInit" l <= 1)%nat).
Proof.
  destruct (Z.eq_dec (glfwInit_result E) 0) as [H0 | H0].
  { destruct (init_exits E w H0) as (w' & l & Hrun & Htr & Fl).
    repeat split; try contradiction.
    - intros _. now exists w'.
    - rewrite Hrun. simpl. eexists. split; [exact Htr |].
      rewrite !calls_to_app.
      rewrite !(calls_to_outside _ cleanup_callees l Fl);
        [vm_compute; repeat split; lia | | |]; unfold cleanup_callees; simpl;
        intuition discriminate. }
  destruct (Z.eq_dec (glfwCreateWindow_result E) NULL) as [H1 | H1].
  { pose proof (init_no_window E w H0 H1) as Hrun.
    repeat split; try contradiction.
    - intros _ _. eexists. exact Hrun.
    - intros _ Hn. exfalso. apply Hn. now left.
    - rewrite Hrun. simpl. eexists. split; [reflexivity |].
      vm_compute; repeat split; lia. }
  destruct (Z.eq_dec (glewInit_result E) GLEW_OK) as [H2 | H2].
  - pose proof (init_succeeds E w H0 H1 H2) as Hrun.
    repeat split; try contradiction.
    + intros _ [Hc | Hc]; contradiction.
    + intros _ _. eexists. exact Hrun.
    + rewrite Hrun. simpl. eexists. split; [reflexivity |].
      unfold init_trace, initShader_trace.
      destruct (glGetUniformLocation_result E =? -1);
        vm_compute; repeat split; lia.
  - pose proof (init_no_glew E w H0 H1 H2) as Hrun.
    repeat split; try contradiction.
    + intros _ _. eexists. exact Hrun.
    + intros _ Hn. exfalso. apply Hn. now right.
    + rewrite Hrun. simpl. eexists. split; [reflexivity |].
      vm_compute; repeat split; lia.
Qed.

Lemma init_failure_points_witness :
  (exists w', init Sample.env_no_glfw Sample.world0
              = Exits EXIT_FAILURE w') /\
  (exists w', init (Sample.env_no_window 0) Sample.world0
              = Returns false w') /\
  (exists w', init Sample.env_no_glew Sample.world0 = Returns false w') /\
  (exists w', init (Sample.env_ok 0) Sample.world0 = Returns true w').
Proof.
  split; [| split; [| split]].
  - apply (proj1 (init_failure_points Sample.env_no_glfw Sample.world0)).
    reflexivity.
  - apply (proj1 (proj2 (init_failure_points (Sample.env_no_window 0)
                           Sample.world0))).
    + vm_compute. lia.
    + left. reflexivity.
  - apply (proj1 (proj2 (init_failure_points Sample.env_no_glew
                           Sample.world0))).
    + vm_compute. lia.
    + right. vm_compute. lia.
  - apply (proj1 (proj2 (proj2 (init_failure_points (Sample.env_ok 0)
                                  Sample.world0)))).
    + vm_compute. lia.
    + vm_compute. lia.
Defined.

(** Counterexample to C1 as stated: with a [glfwInit] that fails, neither
    window creation nor the extension loader fails (they are never reached),
    yet [init] does not return true; the process exits instead. *)
Lemma init_two_failure_points_counterexample :
  ~ (glfwCreateWindow_result Sample.env_no_glfw = NULL \/
     glewInit_result Sample.env_no_glfw <> GLEW_OK) /\
  init Sample.env_no_glfw Sample.world0
  = Exits EXIT_FAILURE
      (mkWorld (mkGlobals 0 0 0 800 600 0 0) Sample.gl0 ∅ [] 0 0
         [ call_glfwSetErrorCallback errorCallback; call_glfwInit 0;
           call_exit EXIT_FAILURE ]) /\
  ~ (exists w', init Sample.env_no_glfw Sample.world0 = Returns true w').
Proof.
  split; [| split].
  - vm_compute. lia.
  - reflexivity.
  - intros [w' H]. discriminate H.
Qed.

(** ** The render loop *)

Section Loop.

Variable E : Env.
Variable convertIntToString : Z -> string.

Abbreviation body := (mainLoop_body E convertIntToString).
Abbreviation loop := (mainLoop_while E convertIntToString).
Abbreviation close_at := (glfwWindowShouldClose_result E).

Lemma mainLoop_body_run (w : World) :
  body w = Returns tt (body_world E convertIntToString w).
Proof.
  destruct w as [[b t win wd ht it ge]
                   [bn bs tn ti pn ab eb pb tb cp va nb nt np] reg fs q r tr].
  unfold mainLoop_body, runCuda, body_world, body_trace, window_title. run.
  rewrite <- !app_assoc. reflexivity.
Qed.

Lemma loop_O (w : World) : loop 0 w = Unfinished w.
Proof. reflexivity. Qed.

(** The test finds the window open: one turn, then the loop again. *)
Lemma loop_open (fuel : nat) (w : World) :
  close_at (close_queries w) = 0 ->
  loop (S fuel) w
  = loop fuel (body_world E convertIntToString (query_world E w)).
Proof.
  intros H0. destruct w as [g s reg fs q r tr].
  simpl mainLoop_while. unfold glfwWindowShouldClose. run. simpl in H0.
  rewrite H0. change (0 =? 0) with true. cbv beta iota.
  rewrite mainLoop_body_run. unfold query_world. simpl.
  rewrite H0. reflexivity.
Qed.

(** The test finds the window closed: the loop is over. *)
Lemma loop_closed (fuel : nat) (w : World) :
  close_at (close_queries w) <> 0 ->
  loop (S fuel) w = Returns tt (query_world E w).
Proof.
  intros H0. destruct w as [g s reg fs q r tr].
  simpl mainLoop_while. unfold glfwWindowShouldClose. run. simpl in H0.
  destruct (Z.eqb_spec (close_at q) 0) as [| _]; [contradiction |].
  reflexivity.
Qed.

Lemma same_handles_trans (g1 g2 g3 : Globals) :
  same_handles g1 g2 -> same_handles g2 g3 -> same_handles g1 g3.
Proof.
  unfold same_handles. intros (? & ? & ? & ? & ?) (? & ? & ? & ? & ?).
  repeat split; congruence.
Qed.

Lemma frame_trace_same_handles (g g' : Globals) (it : Z) :
  same_handles g g' ->
  frame_trace convertIntToString g' it = frame_trace convertIntToString g it.
Proof.
  intros (Hw & Hb & Ht & Hx & Hy).
  unfold frame_trace, body_trace. now rewrite Hw, Hb, Ht, Hx, Hy.
Qed.

Lemma loop_trace_same_handles (g g' : Globals) (r n : nat) :
  same_handles g g' ->
  loop_trace E convertIntToString g' r n
  = loop_trace E convertIntToString g r n.
Proof.
  intros H. unfold loop_trace. apply flat_map_ext. intros k.
  now apply frame_trace_same_handles.
Qed.

Lemma loop_trace_S (g : Globals) (r n : nat) :
  loop_trace E convertIntToString g r (S n)
  = frame_trace convertIntToString g (runCuda_iteration E r)
      ++ loop_trace E convertIntToString g (S r) n.
Proof. reflexivity. Qed.

(** What [n] turns of the loop leave, as long as the window stays open. *)
Lemma turns_spec (n : nat) : forall w : World,
  (forall k, (k < n)%nat -> close_at (close_queries w + k) = 0) ->
  close_queries (turns E convertIntToString n w) = (close_queries w + n)%nat /\
  cuda_runs (turns E convertIntToString n w) = (cuda_runs w + n)%nat /\
  same_handles (globals w) (globals (turns E convertIntToString n w)) /\
  (atexit_list (turns E convertIntToString n w) = atexit_list w /\
   cuda_registered (turns E convertIntToString n w) = cuda_registered w) /\
  trace (turns E convertIntToString n w)
  = trace w ++ loop_trace E convertIntToString (globals w) (cuda_runs w) n.
Proof.
  induction n as [| n IH]; intros w Hopen.
  - simpl. rewrite !Nat.add_0_r, app_nil_r. unfold same_handles.
    repeat split; reflexivity.
  - simpl turns.
    set (w1 := body_world E convertIntToString (query_world E w)).
    assert (H0 : close_at (close_queries w) = 0).
    { rewrite <- (Nat.add_0_r (close_queries w)). apply Hopen. lia. }
    assert (Hq1 : close_queries w1 = S (close_queries w))
      by (destruct w; reflexivity).
    assert (Hr1 : cuda_runs w1 = S (cuda_runs w))
      by (destruct w; reflexivity).
    assert (Ha1 : atexit_list w1 = atexit_list w)
      by (destruct w; reflexivity).
    assert (Hc1 : cuda_registered w1 = cuda_registered w)
      by (destruct w; reflexivity).
    assert (Hg1 : same_handles (globals w) (globals w1)).
    { unfold w1. destruct w as [[b t win wd ht it ge] s reg fs q r tr].
      unfold same_handles. simpl. repeat split; reflexivity. }
    destruct (IH w1) as (Hq & Hr & Hg & (Ha & Hc) & Htr).
    { intros k Hk. rewrite Hq1.
      replace (S (close_queries w) + k)%nat with (close_queries w + S k)%nat
        by lia.
      apply Hopen. lia. }
    split; [rewrite Hq, Hq1; lia |].
    split; [rewrite Hr, Hr1; lia |].
    split; [now apply (same_handles_trans _ (globals w1)) |].
    split; [split; congruence |].
    rewrite Htr, loop_trace_S, (loop_trace_same_handles _ _ _ _ Hg1), Hr1.
    unfold w1. destruct w as [g s reg fs q r tr]. simpl. simpl in H0.
    rewrite H0, <- !app_assoc. reflexivity.
Qed.

(** As long as the window stays open the loop keeps turning. *)
Lemma loop_turns (n : nat) : forall (fuel : nat) (w : World),
  (forall k, (k < n)%nat -> close_at (close_queries w + k) = 0) ->
  loop (n + fuel) w = loop fuel (turns E convertIntToString n w).
Proof.
  induction n as [| n IH]; intros fuel w Hopen; [reflexivity |].
  change (S n + fuel)%nat with (S (n + fuel)).
  rewrite loop_open.
  - simpl turns. apply IH. intros k Hk.
    replace (close_queries
               (body_world E convertIntToString (query_world E w)) + k)%nat
      with (close_queries w + S k)%nat by (destruct w; simpl; lia).
    apply Hopen. lia.
  - rewrite <- (Nat.add_0_r (close_queries w)). apply Hopen. lia.
Qed.

(** Either the window stays open for [fuel] tests, or there is a first test
    that finds it closed. *)
Lemma first_close (fuel q : nat) :
  (forall k, (k < fuel)%nat -> close_at (q + k) = 0) \/
  (exists n, (n < fuel)%nat /\
             (forall k, (k < n)%nat -> close_at (q + k) = 0) /\
             close_at (q + n) <> 0).
Proof.
  induction fuel as [| fuel IH].
  - left. intros k Hk. lia.
  - destruct IH as [Hopen | (n & Hn & Hopen & Hclose)].
    + destruct (Z.eq_dec (close_at (q + fuel)) 0) as [H0 | H0].
      * left. intros k Hk.
        destruct (Nat.eq_dec k fuel) as [-> | Hne]; [exact H0 |].
        apply Hopen. lia.
      * right. exists fuel. repeat split; trivial. lia.
    + right. exists n. repeat split; trivial. lia.
Qed.

(** The window is found closed at the [n]-th test and not before: the loop
    returns after [n] turns, whatever fuel is left. *)
Lemma loop_returns (n fuel : nat) (w : World) :
  (forall k, (k < n)%nat -> close_at (close_queries w + k) = 0) ->
  close_at (close_queries w + n) <> 0 ->
  (n < fuel)%nat ->
  loop fuel w = Returns tt (query_world E (turns E convertIntToString n w)).
Proof.
  intros Hopen Hclose Hfuel.
  replace fuel with (n + S (fuel - S n))%nat by lia.
  rewrite (loop_turns n _ w Hopen). apply loop_closed.
  destruct (turns_spec n w Hopen) as (-> & _). exact Hclose.
Qed.

(** The window stays open for as many tests as there is fuel: the loop is
    still running when the fuel is spent. *)
Lemma loop_unfinished (fuel : nat) (w : World) :
  (forall k, (k < fuel)%nat -> close_at (close_queries w + k) = 0) ->
  loop fuel w = Unfinished (turns E convertIntToString fuel w).
Proof.
  intros Hopen. rewrite <- (Nat.add_0_r fuel) at 1.
  rewrite (loop_turns fuel _ w Hopen). apply loop_O.
Qed.

Lemma callee_loop_trace (g : Globals) (r n : nat) :
  map callee (loop_trace E convertIntToString g r n)
  = concat (repeat frame_callees n).
Proof.
  revert r. induction n as [| n IH]; intros r; [reflexivity |].
  rewrite loop_trace_S, map_app, IH. reflexivity.
Qed.

End Loop.

Section Titles.

Variable E : Env.
Variable convertIntToString : Z -> string.

Lemma render_or_title_loop_trace (g : Globals) (r n : nat) :
  filter render_or_title (loop_trace E convertIntToString g r n)
  = flat_map
      (fun k => [ call_runCuda;
                  call_glfwSetWindowTitle (window g)
                    (window_title convertIntToString (runCuda_iteration E k)) ])
      (seq r n).
Proof.
  revert r. induction n as [| n IH]; intros r; [reflexivity |].
  rewrite loop_trace_S, filter_app, IH. reflexivity.
Qed.

Lemma polls_loop_trace (g : Globals) (r n : nat) :
  calls_to "glfwPollEvents" (loop_trace E convertIntToString g r n) = n.
Proof.
  revert r. induction n as [| n IH]; intros r; [reflexivity |].
  rewrite loop_trace_S, calls_to_app, IH. reflexivity.
Qed.

(** The calls of the loop, whatever the fuel: some number of turns, and the
    closing test if the loop got that far. *)
Lemma loop_trace_any_fuel (fuel : nat) (w : World) :
  exists n closing,
    (n <= fuel)%nat /\
    trace (final (mainLoop_while E convertIntToString fuel w))
    = trace w
        ++ loop_trace E convertIntToString (globals w) (cuda_runs w) n
        ++ closing /\
    (closing = [] \/
     exists c, closing = [ call_glfwWindowShouldClose (window (globals w)) c ]).
Proof.
  destruct (first_close E fuel (close_queries w))
    as [Hopen | (n & Hn & Hopen & Hclose)].
  - exists fuel, []. split; [lia |]. split; [| now left].
    rewrite (loop_unfinished E convertIntToString fuel w Hopen). simpl.
    destruct (turns_spec E convertIntToString fuel w Hopen)
      as (_ & _ & _ & _ & ->).
    now rewrite app_nil_r.
  - destruct (turns_spec E convertIntToString n w Hopen)
      as (Hq & _ & (Hwin & _) & _ & Htr).
    eexists n, _. split; [lia |]. split; [| right; eexists; reflexivity].
    rewrite (loop_returns E convertIntToString n fuel w Hopen Hclose Hn).
    unfold query_world. simpl. rewrite Htr, Hwin, <- app_assoc. reflexivity.
Qed.

End Titles.

(** C3. Every pass through the loop body sets the window title exactly
    once, after the render step of that pass, to
    ["CIS565 Path Tracer | " ++ convertIntToString iteration ++ " Iterations"]
    where [iteration] is the value the global has at that point, that is the
    value the render step of that pass has just left in it.  Over the whole
    loop, the render steps and title updates alternate: one [runCuda], then
    one title with the value of that render step, per turn. *)
Theorem title_shows_iteration (E : Env) (convertIntToString : Z -> string)
    (w : World) :
  (exists w',
     mainLoop_body E convertIntToString w = Returns tt w' /\
     iteration (globals w') = runCuda_iteration E (cuda_runs w) /\
     trace w'
     = trace w ++
       [ call_glfwPollEvents;
         call_runCuda;
         call_glfwSetWindowTitle (window (globals w))
           ("CIS565 Path Tracer | "
              ++ convertIntToString (iteration (globals w'))
              ++ " Iterations")%string;
         call_glBindBuffer GL_PIXEL_UNPACK_BUFFER (pbo (globals w));
         call_glBindTexture GL_TEXTURE_2D (displayImage (globals w));
         call_glTexSubImage2D GL_TEXTURE_2D 0 0 0 (width (globals w))
           (height (globals w)) GL_RGBA GL_UNSIGNED_BYTE NULL;
         call_glClear GL_COLOR_BUFFER_BIT;
         call_glDrawElements GL_TRIANGLES 6 GL_UNSIGNED_SHORT 0;
         call_glfwSwapBuffers (window (globals w)) ]) /\
  (forall fuel, exists n l,
     trace (final (mainLoop_while E convertIntToString fuel w))
     = trace w ++ l /\
     calls_to "glfwPollEvents" l = n /\
     filter render_or_title l
     = flat_map
         (fun k =>
            [ call_runCuda;
              call_glfwSetWindowTitle (window (globals w))
                ("CIS565 Path Tracer | "
                   ++ convertIntToString (runCuda_iteration E k)
                   ++ " Iterations")%string ])
         (seq (cuda_runs w) n)).
Proof.
  split.
  - exists (body_world E convertIntToString w).
    split; [apply mainLoop_body_run |].
    destruct w as [[b t win wd ht it ge] s reg fs q r tr].
    split; reflexivity.
  - intros fuel.
    destruct (loop_trace_any_fuel E convertIntToString fuel w)
      as (n & closing & _ & Htr & Hclosing).
    exists n. eexists. split; [exact Htr |].
    rewrite calls_to_app, filter_app, polls_loop_trace,
      render_or_title_loop_trace.
    destruct Hclosing as [-> | [c ->]].
    + rewrite app_nil_r. split; [apply Nat.add_0_r | reflexivity].
    + split; [apply Nat.add_0_r |]. apply app_nil_r.
Qed.

(** ** [mainLoop] as a whole *)

Section MainLoop.

Variable E : Env.
Variable convertIntToString : Z -> string.
Variable PacketManager : Type.

(** [mainLoop] drops the value [init] returns. *)
Lemma mainLoop_after_init (fuel : nat) (pMgr : PacketManager)
    (client_ip : string) (w w1 : World) (b : bool) :
  init E w = Returns b w1 ->
  mainLoop E convertIntToString PacketManager fuel pMgr client_ip w
  = after_init E convertIntToString fuel w1.
Proof.
  intros Hinit. unfold mainLoop. now rewrite (bind_Returns _ _ _ _ _ Hinit).
Qed.

Lemma after_init_calls (fuel : nat) :
  calls_within mainLoop_callees (after_init E convertIntToString fuel).
Proof.
  unfold after_init, mainLoop_callees.
  apply calls_within_bind; [| intros _].
  { eapply calls_within_weaken; [| apply mainLoop_while_calls].
    apply incl_appr, incl_appr, incl_appl, incl_refl. }
  eapply calls_within_weaken;
    [apply incl_appr, incl_appr, incl_appr, incl_refl |].
  unfold glfwDestroyWindow, glfwTerminate. within.
Qed.

(** With the window open at the first test, what follows [init] starts with
    a full turn of the loop. *)
Lemma after_init_first_turn (fuel : nat) (w1 : World) :
  glfwWindowShouldClose_result E (close_queries w1) = 0 ->
  exists rest,
    trace (final (after_init E convertIntToString (S fuel) w1))
    = trace w1
        ++ frame_trace convertIntToString (globals w1)
             (runCuda_iteration E (cuda_runs w1))
        ++ rest.
Proof.
  intros H0.
  set (w2 := body_world E convertIntToString (query_world E w1)).
  assert (Hstep : after_init E convertIntToString (S fuel) w1
                  = after_init E convertIntToString fuel w2).
  { unfold after_init, bind. now rewrite (loop_open E _ fuel w1 H0). }
  destruct (after_init_calls fuel w2) as (l & Hl & _).
  exists l. rewrite Hstep, Hl. unfold w2.
  destruct w1 as [g s reg fs q r tr]. simpl. simpl in H0.
  rewrite H0, <- !app_assoc. reflexivity.
Qed.

End MainLoop.

Lemma mainLoop_callees_no_threads :
  Forall (fun x => ~ In x thread_or_sync_callees) mainLoop_callees.
Proof.
  assert (H : forallb
                (fun x => negb (existsb (String.eqb x) thread_or_sync_callees))
                mainLoop_callees = true) by (vm_compute; reflexivity).
  rewrite forallb_forall in H. apply List.Forall_forall. intros x Hx Hin.
  specialize (H x Hx). apply negb_true_iff in H.
  assert (Hex : existsb (String.eqb x) thread_or_sync_callees = true).
  { apply existsb_exists. exists x. split; [exact Hin |].
    apply String.eqb_refl. }
  congruence.
Qed.

(** C2. Every turn of the render loop makes, in this order, the calls
    [glfwWindowShouldClose] (finding the window open), [glfwPollEvents],
    [runCuda], [glfwSetWindowTitle], [glBindBuffer], [glBindTexture],
    [glTexSubImage2D] (the copy of the rendered buffer into the display
    texture), [glClear], [glDrawElements] (the draw) and [glfwSwapBuffers].
    If the window is first reported closed at the [n]-th test, the loop
    returns after exactly [n] such turns followed by that one test, and the
    body is not run again: all [mainLoop] does afterwards is destroy the
    window and shut GLFW down. *)
Theorem render_loop_sequence (E : Env) (convertIntToString : Z -> string)
    (w : World) (n : nat) :
  (forall k, (k < n)%nat ->
             glfwWindowShouldClose_result E (close_queries w + k) = 0) ->
  glfwWindowShouldClose_result E (close_queries w + n) <> 0 ->
  exists w' l,
    (forall fuel, (n < fuel)%nat ->
                  mainLoop_while E convertIntToString fuel w = Returns tt w') /\
    trace w' = trace w ++ l /\
    l = loop_trace E convertIntToString (globals w) (cuda_runs w) n
          ++ [ call_glfwWindowShouldClose (window (globals w))
                 (glfwWindowShouldClose_result E (close_queries w + n)) ] /\
    map callee l
    = concat (repeat
                [ "glfwWindowShouldClose"; "glfwPollEvents"; "runCuda";
                  "glfwSetWindowTitle"; "glBindBuffer"; "glBindTexture";
                  "glTexSubImage2D"; "glClear"; "glDrawElements";
                  "glfwSwapBuffers" ]%string n)
        ++ [ "glfwWindowShouldClose"%string ] /\
    (forall (PacketManager : Type) (pMgr : PacketManager)
            (client_ip : string) (w0 : World) (b : bool) (fuel : nat),
       init E w0 = Returns b w -> (n < fuel)%nat ->
       exists w'',
         mainLoop E convertIntToString PacketManager fuel pMgr client_ip w0
         = Returns tt w'' /\
         trace w''
         = trace w ++ l ++
           [ call_glfwDestroyWindow (window (globals w));
             call_glfwTerminate ]).
Proof.
  intros Hopen Hclose.
  destruct (turns_spec E convertIntToString n w Hopen)
    as (Hq & Hr & (Hwin & _) & _ & Htr).
  exists (query_world E (turns E convertIntToString n w)).
  eexists. split; [| split; [| split; [reflexivity | split]]].
  - intros fuel Hfuel. apply loop_returns; assumption.
  - unfold query_world. simpl. rewrite Htr, Hq, Hwin, <- app_assoc.
    reflexivity.
  - rewrite map_app, callee_loop_trace. reflexivity.
  - intros PacketManager pMgr client_ip w0 b fuel Hinit Hfuel.
    rewrite (mainLoop_after_init _ _ _ _ _ _ _ _ _ Hinit).
    unfold after_init, bind at 1.
    rewrite (loop_returns E convertIntToString n fuel w Hopen Hclose Hfuel).
    eexists. split; [reflexivity |].
    unfold query_world. simpl. rewrite Htr, Hq, Hwin, <- !app_assoc.
    reflexivity.
Qed.

Lemma render_loop_sequence_witness :
  exists w' l,
    (forall fuel, (2 < fuel)%nat ->
                  mainLoop_while (Sample.env_ok 2) Sample.show_int fuel
                    Sample.world0 = Returns tt w') /\
    trace w' = trace Sample.world0 ++ l /\
    l = loop_trace (Sample.env_ok 2) Sample.show_int
          (globals Sample.world0) (cuda_runs Sample.world0) 2
          ++ [ call_glfwWindowShouldClose (window (globals Sample.world0))
                 (glfwWindowShouldClose_result (Sample.env_ok 2)
                    (close_queries Sample.world0 + 2)) ] /\
    map callee l
    = concat (repeat
                [ "glfwWindowShouldClose"; "glfwPollEvents"; "runCuda";
                  "glfwSetWindowTitle"; "glBindBuffer"; "glBindTexture";
                  "glTexSubImage2D"; "glClear"; "glDrawElements";
                  "glfwSwapBuffers" ]%string 2)
        ++ [ "glfwWindowShouldClose"%string ].
Proof.
  destruct (render_loop_sequence (Sample.env_ok 2) Sample.show_int
              Sample.world0 2) as (w' & l & H1 & H2 & H3 & H4 & _).
  - intros k Hk. destruct k as [| [| k]]; [reflexivity | reflexivity | lia].
  - vm_compute. lia.
  - exists w', l. repeat split; assumption.
Defined.

(** C8. [mainLoop] ignores what [init] returns.  Whatever boolean [b]
    [init] returns, false in particular, [mainLoop] goes on with the render
    loop from the world [init] left, by the same code: its next call is the
    loop test on the global [window], and if the test reports the window
    open, a full pass of the loop body follows, using the globals [window],
    [pbo] and [displayImage] as they are. *)
Theorem mainLoop_ignores_init (E : Env) (convertIntToString : Z -> string)
    (PacketManager : Type) (pMgr : PacketManager) (client_ip : string)
    (w w1 : World) (b : bool) :
  init E w = Returns b w1 ->
  (forall fuel,
     mainLoop E convertIntToString PacketManager fuel pMgr client_ip w
     = (mainLoop_while E convertIntToString fuel ;;
        win <- global window ;;
        glfwDestroyWindow win ;;
        glfwTerminate)%prog w1) /\
  (forall fuel, exists c rest,
     trace (final (mainLoop E convertIntToString PacketManager (S fuel) pMgr
                     client_ip w))
     = trace w1 ++ call_glfwWindowShouldClose (window (globals w1)) c :: rest)
  /\
  (glfwWindowShouldClose_result E (close_queries w1) = 0 ->
   forall fuel, exists rest,
     trace (final (mainLoop E convertIntToString PacketManager (S fuel) pMgr
                     client_ip w))
     = trace w1 ++
       [ call_glfwWindowShouldClose (window (globals w1)) 0;
         call_glfwPollEvents;
         call_runCuda;
         call_glfwSetWindowTitle (window (globals w1))
           (window_title convertIntToString
              (runCuda_iteration E (cuda_runs w1)));
         call_glBindBuffer GL_PIXEL_UNPACK_BUFFER (pbo (globals w1));
         call_glBindTexture GL_TEXTURE_2D (displayImage (globals w1));
         call_glTexSubImage2D GL_TEXTURE_2D 0 0 0 (width (globals w1))
           (height (globals w1)) GL_RGBA GL_UNSIGNED_BYTE NULL;
         call_glClear GL_COLOR_BUFFER_BIT;
         call_glDrawElements GL_TRIANGLES 6 GL_UNSIGNED_SHORT 0;
         call_glfwSwapBuffers (window (globals w1)) ] ++ rest).
Proof.
  intros Hinit. split; [| split].
  - intros fuel. apply (mainLoop_after_init _ _ _ _ _ _ _ _ _ Hinit).
  - intros fuel.
    rewrite (mainLoop_after_init _ _ _ _ _ _ _ _ _ Hinit).
    destruct (Z.eq_dec (glfwWindowShouldClose_result E (close_queries w1)) 0)
      as [H0 | H0].
    + destruct (after_init_first_turn E convertIntToString fuel w1 H0)
        as (rest & Hrest).
      rewrite Hrest. unfold frame_trace. simpl. eexists _, _. reflexivity.
    + unfold after_init, bind at 1.
      rewrite (loop_closed E convertIntToString fuel w1 H0).
      destruct w1 as [g s reg fs q r tr].
      unfold glfwDestroyWindow, query_world. run.
      rewrite <- !app_assoc. eexists _, _. reflexivity.
  - intros H0 fuel.
    rewrite (mainLoop_after_init _ _ _ _ _ _ _ _ _ Hinit).
    destruct (after_init_first_turn E convertIntToString fuel w1 H0)
      as (rest & Hrest).
    exists rest. rewrite Hrest. reflexivity.
Qed.

Lemma mainLoop_ignores_init_witness :
  exists w1,
    init (Sample.env_no_window 1) Sample.world0 = Returns false w1 /\
    window (globals w1) = NULL /\ pbo (globals w1) = 0 /\
    displayImage (globals w1) = 0 /\
    exists rest,
      trace (final (mainLoop (Sample.env_no_window 1) Sample.show_int unit 2
                      tt "127.0.0.1" Sample.world0))
      = trace w1 ++
        [ call_glfwWindowShouldClose NULL 0;
          call_glfwPollEvents;
          call_runCuda;
          call_glfwSetWindowTitle NULL "CIS565 Path Tracer | 1 Iterations";
          call_glBindBuffer GL_PIXEL_UNPACK_BUFFER 0;
          call_glBindTexture GL_TEXTURE_2D 0;
          call_glTexSubImage2D GL_TEXTURE_2D 0 0 0 800 600 GL_RGBA
            GL_UNSIGNED_BYTE NULL;
          call_glClear GL_COLOR_BUFFER_BIT;
          call_glDrawElements GL_TRIANGLES 6 GL_UNSIGNED_SHORT 0;
          call_glfwSwapBuffers NULL ] ++ rest.
Proof.
  eexists. split; [reflexivity |].
  split; [reflexivity |]. split; [reflexivity |]. split; [reflexivity |].
  refine (proj2 (proj2 (mainLoop_ignores_init (Sample.env_no_window 1)
                          Sample.show_int unit tt "127.0.0.1" Sample.world0
                          _ false _)) _ 1%nat).
  - reflexivity.
  - reflexivity.
Defined.

(** C5. No wire protocol: [mainLoop] does not depend on its [PacketManager]
    and client address arguments (run with any other pair, of any type, it
    does exactly the same), and every call it makes goes to one of the
    windowing, OpenGL, CUDA interop and process functions listed in
    [mainLoop_callees]; none is a packet send. *)
Theorem mainLoop_no_wire_protocol (E : Env) (convertIntToString : Z -> string)
    (PacketManager PacketManager' : Type) (pMgr : PacketManager)
    (pMgr' : PacketManager') (client_ip client_ip' : string) (fuel : nat)
    (w : World) :
  mainLoop E convertIntToString PacketManager fuel pMgr client_ip w
  = mainLoop E convertIntToString PacketManager' fuel pMgr' client_ip' w /\
  (exists l,
     trace (final (mainLoop E convertIntToString PacketManager fuel pMgr
                     client_ip w)) = trace w ++ l /\
     Forall (fun c => In (callee c) mainLoop_callees) l /\
     calls_to "sendPacket" l = 0%nat /\
     calls_to "PacketSender::sendPacket" l = 0%nat).
Proof.
  split; [reflexivity |].
  destruct (mainLoop_calls E convertIntToString PacketManager fuel pMgr
              client_ip w) as (l & Hl & Fl).
  exists l. split; [exact Hl |]. split; [exact Fl |].
  split; apply (calls_to_outside _ mainLoop_callees l Fl);
    unfold mainLoop_callees, init_callees, cleanup_callees, loop_callees;
    simpl; intuition discriminate.
Qed.

(** C7. [mainLoop] is one sequential loop.  Every call it makes goes to a
    function listed in [mainLoop_callees], none of which creates a thread or
    synchronises.  The loop is left in one way only: it returns within a
    given fuel exactly when one of the tests made at the top of a turn
    reports the window closed; the loop itself never exits the process, and
    if the window is never reported closed it never finishes.  Every pass
    through the body comes right after a test that found the window open. *)
Theorem mainLoop_single_threaded (E : Env) (convertIntToString : Z -> string)
    (PacketManager : Type) (pMgr : PacketManager) (client_ip : string)
    (fuel : nat) (w : World) :
  (exists l,
     trace (final (mainLoop E convertIntToString PacketManager fuel pMgr
                     client_ip w)) = trace w ++ l /\
     Forall (fun c => In (callee c) mainLoop_callees /\
                      ~ In (callee c) thread_or_sync_callees) l) /\
  ((exists w', mainLoop_while E convertIntToString fuel w = Returns tt w') <->
   (exists n, (n < fuel)%nat /\
              glfwWindowShouldClose_result E (close_queries w + n) <> 0)) /\
  (forall s w', mainLoop_while E convertIntToString fuel w <> Exits s w') /\
  ((forall k, glfwWindowShouldClose_result E (close_queries w + k) = 0) ->
   forall fuel', exists w',
     mainLoop_while E convertIntToString fuel' w = Unfinished w') /\
  (exists n closing,
     map callee
       (drop (length (trace w))
          (trace (final (mainLoop_while E convertIntToString fuel w))))
     = concat (repeat frame_callees n) ++ closing /\
     (closing = [] \/ closing = [ "glfwWindowShouldClose"%string ])).
Proof.
  split; [| split; [| split; [| split]]].
  - destruct (mainLoop_calls E convertIntToString PacketManager fuel pMgr
                client_ip w) as (l & Hl & Fl).
    exists l. split; [exact Hl |].
    pose proof mainLoop_callees_no_threads as Hn.
    rewrite List.Forall_forall in Hn.
    eapply Forall_impl; [exact Fl |]. intros c Hc. split; [exact Hc |].
    now apply Hn.
  - destruct (first_close E fuel (close_queries w))
      as [Hopen | (n & Hn & Hopen & Hclose)].
    + rewrite (loop_unfinished E convertIntToString fuel w Hopen). split.
      * intros [w' Hw']. discriminate Hw'.
      * intros (n & Hn & Hclose). exfalso. apply Hclose. now apply Hopen.
    + rewrite (loop_returns E convertIntToString n fuel w Hopen Hclose Hn).
      split; [intros _; now exists n | intros _; now eexists].
  - intros s w'.
    destruct (first_close E fuel (close_queries w))
      as [Hopen | (n & Hn & Hopen & Hclose)].
    + now rewrite (loop_unfinished E convertIntToString fuel w Hopen).
    + now rewrite (loop_returns E convertIntToString n fuel w Hopen Hclose Hn).
  - intros Hopen fuel'. eexists.
    apply (loop_unfinished E convertIntToString fuel' w). intros k _.
    apply Hopen.
  - destruct (loop_trace_any_fuel E convertIntToString fuel w)
      as (n & closing & _ & Htr & Hclosing).
    exists n, (map callee closing). rewrite Htr, drop_app_length, map_app.
    rewrite callee_loop_trace. split; [reflexivity |].
    destruct Hclosing as [-> | [c ->]]; [now left | now right].
Qed.

Lemma mainLoop_single_threaded_witness :
  exists w',
    mainLoop_while Sample.env_open Sample.show_int 3 Sample.world0
    = Unfinished w'.
Proof.
  refine (proj1 (proj2 (proj2 (proj2
            (mainLoop_single_threaded Sample.env_open Sample.show_int unit tt
               "127.0.0.1" 0 Sample.world0)))) _ 3%nat).
  intros k. reflexivity.
Defined.

(** ** Handles and their release *)

Section Handles.

Variable E : Env.

(** [init] returns true only when nothing failed. *)
Lemma init_true_inv (w w1 : World) :
  init E w = Returns true w1 ->
  w1 = init_world E w /\
  glfwInit_result E <> 0 /\ glfwCreateWindow_result E <> NULL /\
  glewInit_result E = GLEW_OK.
Proof.
  intros Hinit.
  destruct (Z.eq_dec (glfwInit_result E) 0) as [H0 | H0].
  { destruct (init_exits E w H0) as (w' & l & Hrun & _).
    rewrite Hrun in Hinit. discriminate Hinit. }
  destruct (Z.eq_dec (glfwCreateWindow_result E) NULL) as [H1 | H1].
  { rewrite (init_no_window E w H0 H1) in Hinit. discriminate Hinit. }
  destruct (Z.eq_dec (glewInit_result E) GLEW_OK) as [H2 | H2].
  - rewrite (init_succeeds E w H0 H1 H2) in Hinit.
    injection Hinit as <-. now repeat split.
  - rewrite (init_no_glew E w H0 H1 H2) in Hinit. discriminate Hinit.
Qed.

(** [cleanupCuda] with both handles set: the calls it makes and the world
    it leaves. *)
Lemma cleanupCuda_run (w : World) :
  pbo (globals w) <> 0 -> displayImage (globals w) <> 0 ->
  cleanupCuda w
  = Returns tt
      (mkWorld (set_displayImage NULL (set_pbo NULL (globals w)))
         (GL.delete_texture (displayImage (globals w))
            (GL.delete_buffer (pbo (globals w))
               (GL.bind_buffer GL_ARRAY_BUFFER (pbo (globals w)) (gl w))))
         (cuda_registered w ∖ {[ pbo (globals w) ]})
         (atexit_list w) (close_queries w) (cuda_runs w)
         (trace w ++
            [ call_cudaGLUnregisterBufferObject (pbo (globals w));
              call_glBindBuffer GL_ARRAY_BUFFER (pbo (globals w));
              call_glDeleteBuffers 1 [ pbo (globals w) ];
              call_glDeleteTextures 1 [ displayImage (globals w) ] ])).
Proof.
  destruct w as [[b t win wd ht it ge]
                   [bn bs tn ti pn ab eb pb tb cp va nb nt np] reg fs q r tr].
  simpl. intros Hb Ht.
  unfold cleanupCuda, deletePBO, deleteTexture. run.
  destruct (Z.eqb_spec b 0) as [| _]; [contradiction |].
  destruct (Z.eqb_spec t 0) as [| _]; [contradiction |].
  run. rewrite <- !app_assoc. reflexivity.
Qed.

End Handles.

(** C4 (as amended). After a successful [init], the hook [cleanupCuda] is
    registered with [atexit], and the pixel buffer name in [pbo], the
    texture name in [displayImage] and the shader program in use are all
    names in use.  Running the hook releases the pixel buffer (unregistered
    from CUDA, deleted) and the texture (deleted), and zeroes both globals.
    It does not release the shader program: the four calls it makes are the
    ones listed, and the program is still in use afterwards. *)
Theorem cleanup_hook_releases (E : Env) (w w1 : World) :
  init E w = Returns true w1 ->
  In fn_cleanupCuda (atexit_list w1) /\
  (pbo (globals w1) ∈ buffer_names (gl w1)) /\
  (displayImage (globals w1) ∈ texture_names (gl w1)) /\
  (current_program (gl w1) ∈ program_names (gl w1)) /\
  exists w2,
    run_exit_fn fn_cleanupCuda w1 = Returns tt w2 /\
    (pbo (globals w1) ∉ buffer_names (gl w2)) /\
    (pbo (globals w1) ∉ cuda_registered w2) /\
    (displayImage (globals w1) ∉ texture_names (gl w2)) /\
    (current_program (gl w1) ∈ program_names (gl w2)) /\
    pbo (globals w2) = 0 /\ displayImage (globals w2) = 0 /\
    trace w2
    = trace w1 ++
      [ call_cudaGLUnregisterBufferObject (pbo (globals w1));
        call_glBindBuffer GL_ARRAY_BUFFER (pbo (globals w1));
        call_glDeleteBuffers 1 [ pbo (globals w1) ];
        call_glDeleteTextures 1 [ displayImage (globals w1) ] ].
Proof.
  intros Hinit. destruct (init_true_inv E w w1 Hinit) as (-> & _).
  split; [now left |].
  split; [apply elem_of_union; left; now apply elem_of_singleton |].
  split; [apply elem_of_union; left; now apply elem_of_singleton |].
  split; [apply elem_of_union; left; now apply elem_of_singleton |].
  eexists. split.
  - simpl run_exit_fn. apply cleanupCuda_run; unfold init_world; simpl;
      discriminate.
  - unfold init_world. simpl.
    split; [apply not_elem_of_difference; right; now apply elem_of_singleton |].
    split; [apply not_elem_of_difference; right; now apply elem_of_singleton |].
    split; [apply not_elem_of_difference; right; now apply elem_of_singleton |].
    split; [apply elem_of_union; left; now apply elem_of_singleton |].
    repeat split; reflexivity.
Qed.

Lemma init_sample_ok :
  init (Sample.env_ok 0) Sample.world0
  = Returns true (init_world (Sample.env_ok 0) Sample.world0).
Proof. vm_compute. reflexivity. Defined.

Lemma cleanup_hook_releases_witness :
  let w1 := init_world (Sample.env_ok 0) Sample.world0 in
  In fn_cleanupCuda (atexit_list w1) /\
  (pbo (globals w1) ∈ buffer_names (gl w1)) /\
  (displayImage (globals w1) ∈ texture_names (gl w1)) /\
  (current_program (gl w1) ∈ program_names (gl w1)) /\
  exists w2,
    run_exit_fn fn_cleanupCuda w1 = Returns tt w2 /\
    (pbo (globals w1) ∉ buffer_names (gl w2)) /\
    (pbo (globals w1) ∉ cuda_registered w2) /\
    (displayImage (globals w1) ∉ texture_names (gl w2)) /\
    (current_program (gl w1) ∈ program_names (gl w2)) /\
    pbo (globals w2) = 0 /\ displayImage (globals w2) = 0 /\
    trace w2
    = trace w1 ++
      [ call_cudaGLUnregisterBufferObject (pbo (globals w1));
        call_glBindBuffer GL_ARRAY_BUFFER (pbo (globals w1));
        call_glDeleteBuffers 1 [ pbo (globals w1) ];
        call_glDeleteTextures 1 [ displayImage (globals w1) ] ].
Proof.
  exact (cleanup_hook_releases (Sample.env_ok 0) Sample.world0
           (init_world (Sample.env_ok 0) Sample.world0) init_sample_ok).
Defined.

(** Counterexample to C4 as stated: after a successful [init] in a fresh
    process the shader program in use is program 1, the registered hook is
    [cleanupCuda], and once the hook has run the pixel buffer and the
    texture are gone but program 1 is still in use; the hook makes no call
    that could release it. *)
Lemma cleanup_hook_keeps_program :
  exists w1 w2,
    init (Sample.env_ok 0) Sample.world0 = Returns true w1 /\
    atexit_list w1 = [ fn_cleanupCuda ] /\
    pbo (globals w1) = 4 /\ displayImage (globals w1) = 1 /\
    current_program (gl w1) = 1 /\
    run_exit_fns (atexit_list w1) w1 = Returns tt w2 /\
    elements (buffer_names (gl w2)) = [ 3; 2; 1 ] /\
    elements (texture_names (gl w2)) = [] /\
    elements (program_names (gl w2)) = [ 1 ] /\
    drop (length (trace w1)) (trace w2)
    = [ call_cudaGLUnregisterBufferObject 4;
        call_glBindBuffer GL_ARRAY_BUFFER 4;
        call_glDeleteBuffers 1 [ 4 ];
        call_glDeleteTextures 1 [ 1 ] ] /\
    ~ (1 ∉ program_names (gl w2)).
Proof.
  exists (init_world (Sample.env_ok 0) Sample.world0).
  exists (final (cleanupCuda (init_world (Sample.env_ok 0) Sample.world0))).
  split; [apply init_sample_ok |].
  split; [vm_compute; reflexivity |].
  split; [vm_compute; reflexivity |].
  split; [vm_compute; reflexivity |].
  split; [vm_compute; reflexivity |].
  split; [vm_compute; reflexivity |].
  split; [vm_compute; reflexivity |].
  split; [vm_compute; reflexivity |].
  split; [vm_compute; reflexivity |].
  split; [vm_compute; reflexivity |].
  intros H. apply H. apply elem_of_elements.
  match goal with
  | |- _ ∈ elements ?s =>
      replace (elements s) with [ 1 ] by (vm_compute; reflexivity)
  end.
  now left.
Qed.

(** ** The size of the pixel buffer *)

Section PboSize.

Lemma to_int_in_range (z : Z) : in_int z -> to_int z = z.
Proof.
  unfold in_int, INT_MIN, INT_MAX, to_int. intros H.
  rewrite Z.mod_small; lia.
Qed.

Lemma to_int_shift (z : Z) : to_int (z + 2 ^ 64) = to_int z.
Proof.
  unfold to_int.
  replace (z + 2 ^ 64 + 2 ^ 31) with (z + 2 ^ 31 + 2 ^ 32 * 2 ^ 32) by lia.
  now rewrite Z_mod_plus_full.
Qed.

(** Through [size_t] and back, an [int] is unchanged. *)
Lemma to_int_size_t (z : Z) :
  in_int z -> to_int (size_t_mul sizeof_GLubyte (to_size_t z)) = z.
Proof.
  intros H. unfold size_t_mul, sizeof_GLubyte.
  rewrite Z.mul_1_l. unfold to_size_t. rewrite Z.mod_mod by lia.
  unfold in_int, INT_MIN, INT_MAX in H.
  destruct (Z_lt_le_dec z 0) as [Hneg | Hpos].
  - replace (z mod 2 ^ 64) with (z + 2 ^ 64).
    + rewrite to_int_shift. apply to_int_in_range.
      unfold in_int, INT_MIN, INT_MAX. lia.
    + apply Z.mod_unique with (q := -1); lia.
  - rewrite Z.mod_small by lia. apply to_int_in_range.
    unfold in_int, INT_MIN, INT_MAX. lia.
Qed.

(** As long as [w * h * 4] fits an [int], the size asked for is exactly
    that. *)
Lemma pbo_size_exact (w h : Z) :
  in_int (w * h * 4) -> pbo_size w h = w * h * 4.
Proof.
  intros H. unfold pbo_size, int_mul.
  assert (Hwh : in_int (w * h)).
  { unfold in_int, INT_MIN, INT_MAX in *. lia. }
  rewrite (to_int_in_range _ Hwh), (to_int_in_range _ H).
  now apply to_int_size_t.
Qed.

Lemma initPBO_run (w : World) :
  trace (final (initPBO w)) = trace w ++ initPBO_trace 0 w /\
  buffer_store (gl (final (initPBO w))) !! pbo (globals (final (initPBO w)))
  = Some (mkBufferObject
            (pbo_size (width (globals w)) (height (globals w)))
            data_NULL GL_DYNAMIC_COPY).
Proof.
  destruct w as [[b t win wd ht it ge]
                   [bn bs tn ti pn ab eb pb tb cp va nb nt np] reg fs q r tr].
  unfold initPBO. run. split.
  - rewrite <- !app_assoc. reflexivity.
  - apply lookup_insert_eq.
Qed.

Lemma initTextures_run (w : World) :
  trace (final (initTextures w)) = trace w ++ initTextures_trace w /\
  texture_image (gl (final (initTextures w)))
    !! displayImage (globals (final (initTextures w)))
  = Some (mkTexImage GL_RGBA8 (width (globals w)) (height (globals w))).
Proof.
  destruct w as [[b t win wd ht it ge]
                   [bn bs tn ti pn ab eb pb tb cp va nb nt np] reg fs q r tr].
  unfold initTextures. run. split.
  - rewrite <- !app_assoc. reflexivity.
  - apply lookup_insert_eq.
Qed.

End PboSize.

(** C10 (as amended). The size is computed in [int] arithmetic, which is
    exact only while the product fits, and [width] and [height] are [int]s
    that nothing in the file checks: a negative dimension or size is an
    error in OpenGL ([GL_INVALID_VALUE]), and then no image is specified and
    no store is created.  Provided [width] and [height] are not negative and
    [width * height * 4] is representable as an [int], the pixel buffer
    [initPBO] allocates has size exactly [width * height * 4] bytes, one
    4-byte texel per pixel, which is the size of the [width] by [height]
    [GL_RGBA8] image [initTextures] specifies for the display texture; all
    the sizes passed to OpenGL are then valid ones. *)
Theorem pbo_size_matches_texture (w : World) :
  0 <= width (globals w) -> 0 <= height (globals w) ->
  in_int (width (globals w) * height (globals w) * 4) ->
  (exists b,
     trace (final (initPBO w))
     = trace w ++
       [ call_glGenBuffers 1 [ b ];
         call_glBindBuffer GL_PIXEL_UNPACK_BUFFER b;
         call_glBufferData GL_PIXEL_UNPACK_BUFFER
           (width (globals w) * height (globals w) * 4) data_NULL
           GL_DYNAMIC_COPY;
         call_cudaGLRegisterBufferObject b ] /\
     pbo (globals (final (initPBO w))) = b) /\
  (exists buf img,
     buffer_store (gl (final (initPBO w)))
       !! pbo (globals (final (initPBO w))) = Some buf /\
     texture_image (gl (final (initTextures w)))
       !! displayImage (globals (final (initTextures w))) = Some img /\
     tex_internalformat img = GL_RGBA8 /\
     tex_width img = width (globals w) /\
     tex_height img = height (globals w) /\
     0 <= tex_width img /\ 0 <= tex_height img /\ 0 <= buf_size buf /\
     buf_size buf = width (globals w) * height (globals w) * 4 /\
     buf_size buf
     = tex_width img * tex_height img
       * bytes_per_texel (tex_internalformat img)) /\
  (forall E w1,
     init E w = Returns true w1 ->
     exists buf img,
       buffer_store (gl w1) !! pbo (globals w1) = Some buf /\
       texture_image (gl w1) !! displayImage (globals w1) = Some img /\
       0 <= tex_width img /\ 0 <= tex_height img /\ 0 <= buf_size buf /\
       buf_size buf = width (globals w1) * height (globals w1) * 4 /\
       buf_size buf
       = tex_width img * tex_height img
         * bytes_per_texel (tex_internalformat img)).
Proof.
  intros Hwd Hht Hfit.
  destruct (initPBO_run w) as (Htr & Hbuf).
  destruct (initTextures_run w) as (_ & Himg).
  pose proof (pbo_size_exact _ _ Hfit) as Hsize.
  split; [| split].
  - exists (fresh_buffer 0 w). split.
    + rewrite Htr. unfold initPBO_trace. now rewrite Hsize.
    + destruct w as [[b t win wd ht it ge]
                       [bn bs tn ti pn ab eb pb tb cp va nb nt np]
                       reg fs q r tr].
      reflexivity.
  - eexists _, _. split; [exact Hbuf |]. split; [exact Himg |].
    simpl. rewrite Hsize. repeat split; trivial; lia.
  - intros E w1 Hinit. destruct (init_true_inv E w w1 Hinit) as (-> & _).
    eexists _, _. unfold init_world. simpl.
    split; [apply lookup_insert_eq |]. split; [apply lookup_insert_eq |].
    simpl. rewrite Hsize. repeat split; trivial; lia.
Qed.

Lemma pbo_size_matches_texture_witness :
  exists b,
    trace (final (initPBO Sample.world0))
    = trace Sample.world0 ++
      [ call_glGenBuffers 1 [ b ];
        call_glBindBuffer GL_PIXEL_UNPACK_BUFFER b;
        call_glBufferData GL_PIXEL_UNPACK_BUFFER
          (width (globals Sample.world0) * height (globals Sample.world0) * 4)
          data_NULL GL_DYNAMIC_COPY;
        call_cudaGLRegisterBufferObject b ] /\
    pbo (globals (final (initPBO Sample.world0))) = b.
Proof.
  refine (proj1 (pbo_size_matches_texture Sample.world0 _ _ _)).
  - vm_compute. discriminate.
  - vm_compute. discriminate.
  - vm_compute. split; discriminate.
Defined.

(** Counterexample to C10 as stated: for a 32768 by 32768 image the product
    [width * height * 4] is 2^32, the [int] computation wraps, and the size
    [initPBO] passes to [glBufferData] is 0. *)
Lemma pbo_size_overflows :
  width (globals Sample.world_big) = 32768 /\
  height (globals Sample.world_big) = 32768 /\
  trace (final (initPBO Sample.world_big))
  = [ call_glGenBuffers 1 [ 1 ];
      call_glBindBuffer GL_PIXEL_UNPACK_BUFFER 1;
      call_glBufferData GL_PIXEL_UNPACK_BUFFER 0 data_NULL GL_DYNAMIC_COPY;
      call_cudaGLRegisterBufferObject 1 ] /\
  buffer_store (gl (final (initPBO Sample.world_big))) !! 1
  = Some (mkBufferObject 0 data_NULL GL_DYNAMIC_COPY) /\
  0 <> width (globals Sample.world_big) * height (globals Sample.world_big)
       * 4.
Proof.
  split; [reflexivity |]. split; [reflexivity |].
  split; [vm_compute; reflexivity |].
  split; [vm_compute; reflexivity |].
  vm_compute. discriminate.
Qed.

(** ** The full-screen quad *)

Section Quad.

Lemma quad_positions :
  pairs vertices = [ (-1, -1); (1, -1); (1, 1); (-1, 1) ]%Q.
Proof. reflexivity. Qed.

Lemma quad_triangles :
  assemble_triangles (pairs vertices) indices
  = [ ((-1, -1), (1, -1), (-1, 1)); ((-1, 1), (1, -1), (1, 1)) ]%Q.
Proof. reflexivity. Qed.

(** The two triangles are exactly the square from (-1,-1) to (1,1). *)
Lemma quad_covers (x y : Q) :
  (-1 <= x /\ x <= 1 /\ -1 <= y /\ y <= 1)%Q <->
  Exists (fun t => inside t (x, y))
    (assemble_triangles (pairs vertices) indices).
Proof.
  rewrite quad_triangles. split.
  - intros (Hx0 & Hx1 & Hy0 & Hy1).
    destruct (Qlt_le_dec 0 (x + y)) as [Hd | Hd].
    + apply Exists_cons_tl, Exists_cons_hd.
      unfold inside, edge; simpl. left. repeat split; lra.
    + apply Exists_cons_hd.
      unfold inside, edge; simpl. left. repeat split; lra.
  - intros H. apply Exists_cons in H as [H | H].
    + unfold inside, edge in H; simpl in H.
      destruct H as [(H1 & H2 & H3) | (H1 & H2 & H3)];
        repeat split; lra.
    + apply Exists_cons in H as [H | H]; [| now apply Exists_nil in H].
      unfold inside, edge in H; simpl in H.
      destruct H as [(H1 & H2 & H3) | (H1 & H2 & H3)];
        repeat split; lra.
Qed.

End Quad.

Section QuadState.

Variable E : Env.
Variable convertIntToString : Z -> string.

Lemma initVAO_run (w : World) :
  trace (final (initVAO w)) = trace w ++ initVAO_trace w.
Proof.
  destruct w as [[b t win wd ht it ge]
                   [bn bs tn ti pn ab eb pb tb cp va nb nt np] reg fs q r tr].
  unfold initVAO. run. rewrite <- !app_assoc. reflexivity.
Qed.

Lemma quad_buffers_ready (b0 b1 b2 : Z) (w : World) :
  quad_buffers b0 b1 b2 w -> quad_ready (gl w).
Proof.
  intros (He & Hs2 & Ha0 & Hs0 & Ha1 & Hs1 & _).
  unfold quad_ready, element_source, attrib_source.
  rewrite He, Hs2, Ha0, Ha1. simpl. now rewrite Hs0, Hs1.
Qed.

Lemma fresh_buffer_neq (i j : nat) (w : World) :
  (i < 4)%nat -> (j < 4)%nat -> i <> j -> fresh_buffer i w <> fresh_buffer j w.
Proof.
  intros Hi Hj Hij. unfold fresh_buffer.
  destruct i as [| [| [| [| i]]]]; destruct j as [| [| [| [| j]]]];
    simpl; try lia.
Qed.

(** A successful [init] leaves the quad in the first three fresh buffers,
    the pixel buffer being the fourth. *)
Lemma quad_buffers_init (w : World) :
  quad_buffers (fresh_buffer 0 w) (fresh_buffer 1 w) (fresh_buffer 2 w)
    (init_world E w) /\
  pbo_shared (init_world E w).
Proof.
  pose proof (fresh_buffer_neq 3 0 w) as H30.
  pose proof (fresh_buffer_neq 3 1 w) as H31.
  pose proof (fresh_buffer_neq 3 2 w) as H32.
  pose proof (fresh_buffer_neq 2 0 w) as H20.
  pose proof (fresh_buffer_neq 2 1 w) as H21.
  pose proof (fresh_buffer_neq 1 0 w) as H10.
  unfold quad_buffers, pbo_shared, init_world. simpl.
  split; [| split; [set_solver | rewrite lookup_insert_eq; eauto]].
  split; [reflexivity |].
  split.
  { rewrite lookup_insert_ne by (apply H32; lia). apply lookup_insert_eq. }
  split.
  { rewrite lookup_insert_ne by (unfold positionLocation, texcoordsLocation;
                                 lia).
    apply lookup_insert_eq. }
  split.
  { rewrite lookup_insert_ne by (apply H30; lia).
    rewrite lookup_insert_ne by (apply H20; lia).
    rewrite lookup_insert_ne by (apply H10; lia).
    apply lookup_insert_eq. }
  split; [apply lookup_insert_eq |].
  split.
  { rewrite lookup_insert_ne by (apply H31; lia).
    rewrite lookup_insert_ne by (apply H21; lia).
    apply lookup_insert_eq. }
  repeat split; [apply H30 | apply H31 | apply H32]; lia.
Qed.

(** A pass through the loop body leaves the quad alone and puts what the
    render step wrote behind the display texture. *)
Lemma quad_buffers_body (b0 b1 b2 : Z) (w : World) :
  quad_buffers b0 b1 b2 w -> pbo_shared w ->
  quad_buffers b0 b1 b2 (body_world E convertIntToString w) /\
  pbo_shared (body_world E convertIntToString w) /\
  pbo_backed (cuda_runs w) (body_world E convertIntToString w).
Proof.
  destruct w as [[b t win wd ht it ge]
                   [bn bs tn ti pn ab eb pb tb cp va nb nt np] reg fs q r tr].
  unfold quad_buffers, pbo_shared, pbo_backed, body_world. simpl.
  intros (He & Hs2 & Ha0 & Hs0 & Ha1 & Hs1 & Hn0 & Hn1 & Hn2) (Hreg & Hst).
  rewrite (bool_decide_eq_true_2 _ Hreg).
  destruct Hst as [o Ho].
  repeat split; trivial.
  - now rewrite lookup_alter_ne.
  - now rewrite lookup_alter_ne.
  - now rewrite lookup_alter_ne.
  - rewrite lookup_alter_eq, Ho. simpl. eauto.
  - rewrite lookup_alter_eq, Ho. reflexivity.
Qed.

Lemma quad_buffers_query (b0 b1 b2 : Z) (w : World) :
  quad_buffers b0 b1 b2 w -> pbo_shared w ->
  quad_buffers b0 b1 b2 (query_world E w) /\ pbo_shared (query_world E w).
Proof. destruct w. intros H1 H2. split; assumption. Qed.

(** So it is after any number of turns of the loop. *)
Lemma quad_buffers_turns (b0 b1 b2 : Z) (n : nat) : forall w : World,
  quad_buffers b0 b1 b2 w -> pbo_shared w ->
  quad_buffers b0 b1 b2 (turns E convertIntToString n w) /\
  pbo_shared (turns E convertIntToString n w).
Proof.
  induction n as [| n IH]; intros w Hq Hs; [now split |].
  simpl turns.
  destruct (quad_buffers_query b0 b1 b2 w Hq Hs) as (Hq1 & Hs1).
  destruct (quad_buffers_body b0 b1 b2 _ Hq1 Hs1) as (Hq2 & Hs2 & _).
  now apply IH.
Qed.

Lemma turns_S (n : nat) : forall w : World,
  turns E convertIntToString (S n) w
  = body_world E convertIntToString
      (query_world E (turns E convertIntToString n w)).
Proof.
  induction n as [| n IH]; intros w; [reflexivity |].
  change (turns E convertIntToString (S (S n)) w)
    with (turns E convertIntToString (S n)
            (body_world E convertIntToString (query_world E w))).
  now rewrite IH.
Qed.

End QuadState.

Lemma cuda_runs_turns (E : Env) (convertIntToString : Z -> string) (n : nat) :
  forall w : World,
    cuda_runs (turns E convertIntToString n w) = (cuda_runs w + n)%nat.
Proof.
  induction n as [| n IH]; intros w; simpl; [lia |].
  rewrite IH. destruct w. simpl. lia.
Qed.

(** C6. [initVAO] uploads four vertices, the corners (-1,-1), (1,-1), (1,1),
    (-1,1), with one texture coordinate for each, and the six indices
    0,1,3,3,1,2; as [GL_TRIANGLES] these make two triangles whose union is
    the whole square from (-1,-1) to (1,1).  Every pass through the loop body
    ends by binding the pixel buffer as unpack source, binding the display
    texture, copying into it with [glTexSubImage2D], clearing, drawing those
    six indices with [glDrawElements] and swapping buffers.  After a
    successful [init], at every turn of the loop the draw call reads the
    indices and vertex attributes [initVAO] uploaded, and the pixel buffer
    behind the texture holds what the render step of that turn wrote. *)
Theorem fullscreen_quad (E : Env) (convertIntToString : Z -> string)
    (w : World) :
  (exists b0 b1 b2,
     trace (final (initVAO w))
     = trace w ++
       [ call_glGenBuffers 3 [ b0; b1; b2 ];
         call_glBindBuffer GL_ARRAY_BUFFER b0;
         call_glBufferData GL_ARRAY_BUFFER 32
           (data_GLfloat [ -1; -1;  1; -1;  1; 1;  -1; 1 ]%Q) GL_STATIC_DRAW;
         call_glVertexAttribPointer 0 2 GL_FLOAT GL_FALSE 0 0;
         call_glEnableVertexAttribArray 0;
         call_glBindBuffer GL_ARRAY_BUFFER b1;
         call_glBufferData GL_ARRAY_BUFFER 32
           (data_GLfloat [ 1; 1;  0; 1;  0; 0;  1; 0 ]%Q) GL_STATIC_DRAW;
         call_glVertexAttribPointer 1 2 GL_FLOAT GL_FALSE 0 0;
         call_glEnableVertexAttribArray 1;
         call_glBindBuffer GL_ELEMENT_ARRAY_BUFFER b2;
         call_glBufferData GL_ELEMENT_ARRAY_BUFFER 12
           (data_GLushort [ 0; 1; 3; 3; 1; 2 ]) GL_STATIC_DRAW ]) /\
  pairs vertices = [ (-1, -1); (1, -1); (1, 1); (-1, 1) ]%Q /\
  length (pairs texcoords) = length (pairs vertices) /\
  indices = [ 0; 1; 3; 3; 1; 2 ] /\
  length (assemble_triangles (pairs vertices) indices) = 2%nat /\
  (forall x y : Q,
     (-1 <= x /\ x <= 1 /\ -1 <= y /\ y <= 1)%Q <->
     Exists (fun t => inside t (x, y))
       (assemble_triangles (pairs vertices) indices)) /\
  (exists pre,
     trace (final (mainLoop_body E convertIntToString w))
     = trace w ++ pre ++
       [ call_glBindBuffer GL_PIXEL_UNPACK_BUFFER (pbo (globals w));
         call_glBindTexture GL_TEXTURE_2D (displayImage (globals w));
         call_glTexSubImage2D GL_TEXTURE_2D 0 0 0 (width (globals w))
           (height (globals w)) GL_RGBA GL_UNSIGNED_BYTE NULL;
         call_glClear GL_COLOR_BUFFER_BIT;
         call_glDrawElements GL_TRIANGLES (Z.of_nat (length indices))
           GL_UNSIGNED_SHORT 0;
         call_glfwSwapBuffers (window (globals w)) ] /\
     calls_to "glDrawElements" pre = 0%nat) /\
  (forall w1 n,
     init E w = Returns true w1 ->
     quad_ready (gl (turns E convertIntToString n w1)) /\
     pbo_backed (cuda_runs w1 + n) (turns E convertIntToString (S n) w1)).
Proof.
  split; [| split; [| split; [| split; [| split; [| split; [| split]]]]]].
  - exists (fresh_buffer 0 w), (fresh_buffer 1 w), (fresh_buffer 2 w).
    apply initVAO_run.
  - reflexivity.
  - reflexivity.
  - reflexivity.
  - reflexivity.
  - apply quad_covers.
  - rewrite mainLoop_body_run.
    eexists [ _; _; _ ]. split; reflexivity.
  - intros w1 n Hinit.
    destruct (init_true_inv E w w1 Hinit) as (-> & _).
    destruct (quad_buffers_init E w) as (Hq & Hs).
    destruct (quad_buffers_turns E convertIntToString _ _ _ n _ Hq Hs)
      as (Hqn & Hsn).
    split; [exact (quad_buffers_ready _ _ _ _ Hqn) |].
    rewrite turns_S.
    destruct (quad_buffers_query E _ _ _ _ Hqn Hsn) as (Hq1 & Hs1).
    destruct (quad_buffers_body E convertIntToString _ _ _ _ Hq1 Hs1)
      as (_ & _ & Hb).
    rewrite <- (cuda_runs_turns E convertIntToString n).
    destruct (turns E convertIntToString n (init_world E w)). exact Hb.
Qed.

Lemma fullscreen_quad_witness :
  quad_ready
    (gl (turns (Sample.env_ok 2) Sample.show_int 1
           (init_world (Sample.env_ok 2) Sample.world0))) /\
  pbo_backed (cuda_runs (init_world (Sample.env_ok 2) Sample.world0) + 1)
    (turns (Sample.env_ok 2) Sample.show_int 2
       (init_world (Sample.env_ok 2) Sample.world0)).
Proof.
  refine (proj2 (proj2 (proj2 (proj2 (proj2 (proj2 (proj2
            (fullscreen_quad (Sample.env_ok 2) Sample.show_int
               Sample.world0)))))))
            (init_world (Sample.env_ok 2) Sample.world0) 1%nat _).
  vm_compute. reflexivity.
Defined.

(** * Further properties of the code *)

(** ** [exit] and the registered hooks *)

Section ExitHooks.

(** Once both handles are zero, any number of hooks does nothing. *)
Lemma run_exit_fns_skip (fs : list ExitFn) (w : World) :
  pbo (globals w) = 0 -> displayImage (globals w) = 0 ->
  run_exit_fns fs w = Returns tt w.
Proof.
  intros Hb Ht. induction fs as [| [] fs IH]; [reflexivity |].
  simpl. now rewrite (bind_Returns _ _ _ _ _ (cleanupCuda_skip w Hb Ht)).
Qed.

(** A non-empty list of hooks amounts to one [cleanupCuda]. *)
Lemma run_exit_fns_once (fs : list ExitFn) (w : World) :
  fs <> [] -> run_exit_fns fs w = cleanupCuda w.
Proof.
  destruct fs as [| [] fs]; [contradiction |]. intros _. simpl.
  destruct (cleanupCuda_returns w) as (w1 & Hrun & Hb & Ht).
  rewrite (bind_Returns _ _ _ _ _ Hrun), Hrun.
  now apply run_exit_fns_skip.
Qed.

End ExitHooks.

(** X1. However many times [cleanupCuda] has been registered with [atexit]
    (at least once), [exit] runs its deletions once only: [exit(status)]
    logs the call, does what a single [cleanupCuda] does, and ends the
    process with [status]; both handles are zero at that point and at most
    one [glDeleteBuffers] and one [glDeleteTextures] call were made. *)
Theorem exit_runs_cleanup_once (status : Z) (w : World) :
  atexit_list w <> [] ->
  exit status w
  = (call (call_exit status) ;; cleanupCuda ;;
     (fun w' => Exits status w'))%prog w /\
  exists w' l,
    exit status w = Exits status w' /\
    pbo (globals w') = 0 /\ displayImage (globals w') = 0 /\
    trace w' = trace w ++ call_exit status :: l /\
    (calls_to "glDeleteBuffers" l <= 1)%nat /\
    (calls_to "glDeleteTextures" l <= 1)%nat.
Proof.
  intros Hfs.
  assert (Heq : exit status w
                = (call (call_exit status) ;; cleanupCuda ;;
                   (fun w' => Exits status w'))%prog w).
  { destruct w as [g s reg fs q r tr]. simpl in Hfs.
    unfold exit, call, modify, read, bind at 1 2. simpl.
    unfold bind at 1 3. now rewrite (run_exit_fns_once fs _ Hfs). }
  split; [exact Heq |]. rewrite Heq. clear Heq Hfs.
  destruct w as [[b t win wd ht it ge] s reg fs q r tr].
  unfold cleanupCuda, deletePBO, deleteTexture. run.
  destruct (Z.eqb_spec b 0) as [-> | Hb];
    destruct (Z.eqb_spec t 0) as [-> | Ht]; run;
    eexists; eexists;
    (split; [reflexivity |]); (split; [reflexivity |]);
    (split; [reflexivity |]);
    (split; [rewrite <- ?app_assoc; reflexivity |]);
    vm_compute; split; lia.
Qed.

Lemma exit_runs_cleanup_once_witness :
  exists w' l,
    exit 1 (on_atexit_list (fun _ => [ fn_cleanupCuda; fn_cleanupCuda ])
              (init_world (Sample.env_ok 0) Sample.world0))
    = Exits 1 w' /\
    pbo (globals w') = 0 /\ displayImage (globals w') = 0 /\
    trace w'
    = trace (on_atexit_list (fun _ => [ fn_cleanupCuda; fn_cleanupCuda ])
               (init_world (Sample.env_ok 0) Sample.world0))
      ++ call_exit 1 :: l /\
    (calls_to "glDeleteBuffers" l <= 1)%nat /\
    (calls_to "glDeleteTextures" l <= 1)%nat.
Proof.
  refine (proj2 (exit_runs_cleanup_once 1
                   (on_atexit_list
                      (fun _ => [ fn_cleanupCuda; fn_cleanupCuda ])
                      (init_world (Sample.env_ok 0) Sample.world0)) _)).
  vm_compute. discriminate.
Defined.

(** ** What [init] leaves behind *)

Section InitPost.

Variable E : Env.

(** [init] returns false in two ways only. *)
Lemma init_false_inv (w w1 : World) :
  init E w = Returns false w1 ->
  glfwInit_result E <> 0 /\
  ((glfwCreateWindow_result E = NULL /\
    w1 = mkWorld (set_window NULL (globals w)) (gl w) (cuda_registered w)
           (atexit_list w) (close_queries w) (cuda_runs w)
           (trace w ++
              [ call_glfwSetErrorCallback errorCallback;
                call_glfwInit (glfwInit_result E);
                call_glfwCreateWindow (width (globals w))
                  (height (globals w)) "CIS 565 Path Tracer" NULL NULL NULL;
                call_glfwTerminate ])) \/
   (glfwCreateWindow_result E <> NULL /\ glewInit_result E <> GLEW_OK /\
    w1 = mkWorld
           (set_glewExperimental GL_TRUE
              (set_window (glfwCreateWindow_result E) (globals w)))
           (gl w) (cuda_registered w)
           (atexit_list w) (close_queries w) (cuda_runs w)
           (trace w ++
              [ call_glfwSetErrorCallback errorCallback;
                call_glfwInit (glfwInit_result E);
                call_glfwCreateWindow (width (globals w))
                  (height (globals w)) "CIS 565 Path Tracer" NULL NULL
                  (glfwCreateWindow_result E);
                call_glfwMakeContextCurrent (glfwCreateWindow_result E);
                call_glfwSetKeyCallback (glfwCreateWindow_result E)
                  keyCallback;
                call_glewInit (glewInit_result E) ]))).
Proof.
  intros Hinit.
  destruct (Z.eq_dec (glfwInit_result E) 0) as [H0 | H0].
  { destruct (init_exits E w H0) as (w' & l & Hrun & _).
    rewrite Hrun in Hinit. discriminate Hinit. }
  split; [exact H0 |].
  destruct (Z.eq_dec (glfwCreateWindow_result E) NULL) as [H1 | H1].
  { left. split; [exact H1 |].
    rewrite (init_no_window E w H0 H1) in Hinit. now injection Hinit. }
  destruct (Z.eq_dec (glewInit_result E) GLEW_OK) as [H2 | H2].
  - rewrite (init_succeeds E w H0 H1 H2) in Hinit. discriminate Hinit.
  - right. split; [exact H1 |]. split; [exact H2 |].
    rewrite (init_no_glew E w H0 H1 H2) in Hinit. now injection Hinit.
Qed.

End InitPost.

(** X2. When [init] returns true the render loop has what it needs: the
    window pointer is not null; [pbo], [displayImage] and the program in use
    are non-zero names in use; the pixel buffer is the buffer bound to
    [GL_PIXEL_UNPACK_BUFFER] and the display texture the texture bound to
    [GL_TEXTURE_2D]; and the image dimensions are what they were.  On the
    way [init] has asked the C library to register [cleanupCuda] and CUDA to
    register the pixel buffer, with one call each, the second followed by
    the calls of [initShader], [glUseProgram] and [glActiveTexture].  The
    file discards the result of both calls (lines 112 and 129), so a true
    result says that the two requests were made, not that they were
    granted. *)
Theorem init_true_postcondition (E : Env) (w w1 : World) :
  init E w = Returns true w1 ->
  window (globals w1) <> NULL /\
  pbo (globals w1) <> 0 /\ displayImage (globals w1) <> 0 /\
  current_program (gl w1) <> 0 /\
  (pbo (globals w1) ∈ buffer_names (gl w1)) /\
  (displayImage (globals w1) ∈ texture_names (gl w1)) /\
  (current_program (gl w1) ∈ program_names (gl w1)) /\
  pixel_unpack_buffer_binding (gl w1) = pbo (globals w1) /\
  texture_binding_2d (gl w1) = displayImage (globals w1) /\
  width (globals w1) = width (globals w) /\
  height (globals w1) = height (globals w) /\
  exists l1 l2 l3,
    trace w1
    = trace w ++ l1 ++ call_atexit fn_cleanupCuda :: l2
        ++ call_cudaGLRegisterBufferObject (pbo (globals w1)) :: l3 /\
    calls_to "atexit" (l1 ++ l2 ++ l3) = 0%nat /\
    calls_to "cudaGLRegisterBufferObject" (l1 ++ l2 ++ l3) = 0%nat /\
    l3 = initShader_trace E w
         ++ [ call_glUseProgram (current_program (gl w1));
              call_glActiveTexture GL_TEXTURE0 ].
Proof.
  intros Hinit. destruct (init_true_inv E w w1 Hinit) as (-> & _ & H1 & _).
  unfold init_world. simpl.
  split; [exact H1 |].
  split; [discriminate |]. split; [discriminate |]. split; [discriminate |].
  split; [apply elem_of_union; left; now apply elem_of_singleton |].
  split; [apply elem_of_union; left; now apply elem_of_singleton |].
  split; [apply elem_of_union; left; now apply elem_of_singleton |].
  split; [reflexivity |]. split; [reflexivity |].
  split; [reflexivity |]. split; [reflexivity |].
  eexists (_ :: _ :: _ :: _ :: _ :: _ :: initVAO_trace w
             ++ initTextures_trace w ++ [ _ ]), [ _; _; _ ], _.
  split; [| split; [| split; [| reflexivity]]].
  - unfold init_trace, initPBO_trace. cbn [app].
    rewrite <- !app_assoc. cbn [app]. reflexivity.
  - unfold initShader_trace.
    destruct (glGetUniformLocation_result E =? -1); reflexivity.
  - unfold initShader_trace.
    destruct (glGetUniformLocation_result E =? -1); reflexivity.
Qed.

Lemma init_true_postcondition_witness :
  let w1 := init_world (Sample.env_ok 0) Sample.world0 in
  window (globals w1) <> NULL /\
  pbo (globals w1) <> 0 /\ displayImage (globals w1) <> 0 /\
  current_program (gl w1) <> 0 /\
  (pbo (globals w1) ∈ buffer_names (gl w1)) /\
  (displayImage (globals w1) ∈ texture_names (gl w1)) /\
  (current_program (gl w1) ∈ program_names (gl w1)) /\
  pixel_unpack_buffer_binding (gl w1) = pbo (globals w1) /\
  texture_binding_2d (gl w1) = displayImage (globals w1) /\
  width (globals w1) = width (globals Sample.world0) /\
  height (globals w1) = height (globals Sample.world0) /\
  exists l1 l2 l3,
    trace w1
    = trace Sample.world0 ++ l1 ++ call_atexit fn_cleanupCuda :: l2
        ++ call_cudaGLRegisterBufferObject (pbo (globals w1)) :: l3 /\
    calls_to "atexit" (l1 ++ l2 ++ l3) = 0%nat /\
    calls_to "cudaGLRegisterBufferObject" (l1 ++ l2 ++ l3) = 0%nat /\
    l3 = initShader_trace (Sample.env_ok 0) Sample.world0
         ++ [ call_glUseProgram (current_program (gl w1));
              call_glActiveTexture GL_TEXTURE0 ].
Proof.
  exact (init_true_postcondition (Sample.env_ok 0) Sample.world0
           (init_world (Sample.env_ok 0) Sample.world0) init_sample_ok).
Defined.

(** X3. When [init] returns false it has touched no GPU state: the OpenGL
    state, the CUDA registrations, the [atexit] list and the handles [pbo]
    and [displayImage] are what they were, and none of its calls is an
    OpenGL or CUDA call.  Either the window is null and GLFW was shut down
    with [glfwTerminate], or (the extension loader failed) the window was
    created and is left open: neither [glfwDestroyWindow] nor
    [glfwTerminate] was called. *)
Theorem init_false_postcondition (E : Env) (w w1 : World) :
  init E w = Returns false w1 ->
  gl w1 = gl w /\
  cuda_registered w1 = cuda_registered w /\
  atexit_list w1 = atexit_list w /\
  pbo (globals w1) = pbo (globals w) /\
  displayImage (globals w1) = displayImage (globals w) /\
  exists l,
    trace w1 = trace w ++ l /\
    calls_among gl_callees l = 0%nat /\
    ((window (globals w1) = NULL /\ calls_to "glfwTerminate" l = 1%nat) \/
     (window (globals w1) <> NULL /\ calls_to "glfwTerminate" l = 0%nat /\
      calls_to "glfwDestroyWindow" l = 0%nat)).
Proof.
  intros Hinit.
  destruct (init_false_inv E w w1 Hinit)
    as (_ & [(H1 & ->) | (H1 & H2 & ->)]);
    destruct w as [[b t win wd ht it ge] s reg fs q r tr]; simpl;
    repeat (split; [reflexivity |]);
    eexists; (split; [reflexivity |]); (split; [reflexivity |]).
  - left. split; reflexivity.
  - right. split; [exact H1 |]. split; reflexivity.
Qed.

Lemma init_false_postcondition_witness :
  exists w1,
    init Sample.env_no_glew Sample.world0 = Returns false w1 /\
    gl w1 = gl Sample.world0 /\ atexit_list w1 = [] /\
    window (globals w1) = 4096.
Proof.
  eexists. split; [reflexivity |].
  destruct (init_false_postcondition Sample.env_no_glew Sample.world0 _
              eq_refl) as (Hgl & _ & Hfs & _).
  split; [exact Hgl |]. split; [exact Hfs |]. reflexivity.
Defined.

(** ** How [mainLoop] ends *)

Section MainLoopEnds.

Variable E : Env.
Variable convertIntToString : Z -> string.

Lemma after_init_returns (fuel : nat) (w w' : World) :
  mainLoop_while E convertIntToString fuel w = Returns tt w' ->
  after_init E convertIntToString fuel w
  = Returns tt
      (log call_glfwTerminate
         (log (call_glfwDestroyWindow (window (globals w'))) w')).
Proof.
  intros Hloop. unfold after_init.
  rewrite (bind_Returns _ _ _ _ _ Hloop).
  destruct w' as [g s reg fs q r tr]. reflexivity.
Qed.

(** With [glfwInit] succeeding, [init] returns. *)
Lemma init_returns (w : World) :
  glfwInit_result E <> 0 -> exists b w1, init E w = Returns b w1.
Proof.
  intros H0.
  destruct (Z.eq_dec (glfwCreateWindow_result E) NULL) as [H1 | H1].
  { eexists _, _. exact (init_no_window E w H0 H1). }
  destruct (Z.eq_dec (glewInit_result E) GLEW_OK) as [H2 | H2].
  - eexists _, _. exact (init_succeeds E w H0 H1 H2).
  - eexists _, _. exact (init_no_glew E w H0 H1 H2).
Qed.

(** What follows [init] returns or is still running, it never exits. *)
Lemma after_init_never_exits (fuel : nat) (w : World) (s : Z) (w' : World) :
  after_init E convertIntToString fuel w <> Exits s w'.
Proof.
  destruct (first_close E fuel (close_queries w))
    as [Hopen | (n & Hn & Hopen & Hclose)].
  - unfold after_init.
    rewrite (bind_Unfinished _ _ _ _
               (loop_unfinished E convertIntToString fuel w Hopen)).
    discriminate.
  - rewrite (after_init_returns fuel w _
               (loop_returns E convertIntToString n fuel w Hopen Hclose Hn)).
    discriminate.
Qed.

End MainLoopEnds.

(** X4. [mainLoop] ends the process exactly when [glfwInit] fails, and then
    with [EXIT_FAILURE], before anything else happens: no window is created,
    the loop test is never made, no frame is rendered and [glfwTerminate] is
    not called.  When [glfwInit] succeeds, [mainLoop] never exits the
    process, whatever else fails. *)
Theorem mainLoop_exits_iff_glfwInit_fails (E : Env)
    (convertIntToString : Z -> string) (PacketManager : Type)
    (pMgr : PacketManager) (client_ip : string) (fuel : nat) (w : World) :
  ((exists s w',
      mainLoop E convertIntToString PacketManager fuel pMgr client_ip w
      = Exits s w') <->
   glfwInit_result E = 0) /\
  (glfwInit_result E = 0 ->
   exists w' l,
     mainLoop E convertIntToString PacketManager fuel pMgr client_ip w
     = Exits EXIT_FAILURE w' /\
     trace w' = trace w ++ l /\
     calls_to "glfwCreateWindow" l = 0%nat /\
     calls_to "glfwWindowShouldClose" l = 0%nat /\
     calls_to "runCuda" l = 0%nat /\
     calls_to "glfwTerminate" l = 0%nat).
Proof.
  assert (Hfail : glfwInit_result E = 0 ->
            exists w' l,
              mainLoop E convertIntToString PacketManager fuel pMgr
                client_ip w = Exits EXIT_FAILURE w' /\
              trace w' = trace w ++ l /\
              calls_to "glfwCreateWindow" l = 0%nat /\
              calls_to "glfwWindowShouldClose" l = 0%nat /\
              calls_to "runCuda" l = 0%nat /\
              calls_to "glfwTerminate" l = 0%nat).
  { intros H0. destruct (init_exits E w H0) as (w' & l & Hrun & Htr & Fl).
    exists w'. eexists. split; [| split; [exact Htr |]].
    - unfold mainLoop. now rewrite (bind_Exits _ _ _ _ _ Hrun).
    - rewrite !calls_to_app.
      rewrite !(calls_to_outside _ cleanup_callees l Fl);
        [now vm_compute | | | |]; unfold cleanup_callees; simpl;
        intuition discriminate. }
  split; [| exact Hfail]. split.
  - intros (s & w' & Hexit).
    destruct (Z.eq_dec (glfwInit_result E) 0) as [H0 | H0]; [exact H0 |].
    exfalso. destruct (init_returns E w H0) as (b & w1 & Hinit).
    rewrite (mainLoop_after_init E convertIntToString PacketManager fuel
               pMgr client_ip w w1 b Hinit) in Hexit.
    now apply after_init_never_exits in Hexit.
  - intros H0. destruct (Hfail H0) as (w' & l & Hrun & _). eauto.
Qed.

Lemma mainLoop_exits_iff_glfwInit_fails_witness :
  exists w' l,
    mainLoop Sample.env_no_glfw Sample.show_int unit 5 tt "127.0.0.1"
      Sample.world0 = Exits EXIT_FAILURE w' /\
    trace w' = trace Sample.world0 ++ l /\
    calls_to "glfwCreateWindow" l = 0%nat /\
    calls_to "glfwWindowShouldClose" l = 0%nat /\
    calls_to "runCuda" l = 0%nat /\
    calls_to "glfwTerminate" l = 0%nat.
Proof.
  refine (proj2 (mainLoop_exits_iff_glfwInit_fails Sample.env_no_glfw
                   Sample.show_int unit tt "127.0.0.1" 5 Sample.world0) _).
  reflexivity.
Defined.

(** ** What the render loop keeps *)

Section LoopKeeps.

Variable E : Env.
Variable convertIntToString : Z -> string.

Lemma no_alloc_refl (w : World) : no_alloc w w.
Proof. unfold no_alloc. repeat split; reflexivity. Qed.

Lemma no_alloc_trans (w1 w2 w3 : World) :
  no_alloc w1 w2 -> no_alloc w2 w3 -> no_alloc w1 w3.
Proof.
  unfold no_alloc.
  intros (? & ? & ? & ? & ? & ? & ? & ? & ? & ? & ? & ? & ? & ?)
         (? & ? & ? & ? & ? & ? & ? & ? & ? & ? & ? & ? & ? & ?).
  repeat split; congruence.
Qed.

Lemma same_handles_refl (g : Globals) : same_handles g g.
Proof. unfold same_handles. repeat split; reflexivity. Qed.

(** One turn of the loop allocates nothing and keeps the handles. *)
Lemma turn_keeps (w : World) :
  no_alloc w (body_world E convertIntToString (query_world E w)) /\
  same_handles (globals w)
    (globals (body_world E convertIntToString (query_world E w))).
Proof.
  destruct w as [[b t win wd ht it ge]
                   [bn bs tn ti pn ab eb pb tb cp va nb nt np] reg fs q r tr].
  unfold no_alloc, same_handles, body_world, query_world. simpl.
  repeat split; try reflexivity.
  destruct (bool_decide (b ∈ reg)); [apply dom_alter_L | reflexivity].
Qed.

Lemma turns_keep (n : nat) : forall w : World,
  no_alloc w (turns E convertIntToString n w) /\
  same_handles (globals w) (globals (turns E convertIntToString n w)).
Proof.
  induction n as [| n IH]; intros w.
  - split; [apply no_alloc_refl | apply same_handles_refl].
  - simpl turns. destruct (turn_keeps w) as (Ha & Hh).
    destruct (IH (body_world E convertIntToString (query_world E w)))
      as (Ha' & Hh').
    split; [exact (no_alloc_trans _ _ _ Ha Ha') |].
    exact (same_handles_trans _ _ _ Hh Hh').
Qed.

(** The world the loop stops in, with whatever fuel: after some number of
    turns, and after the closing test if the loop returned. *)
Lemma loop_final (fuel : nat) (w : World) :
  exists n,
    (n <= fuel)%nat /\
    (final (mainLoop_while E convertIntToString fuel w)
     = turns E convertIntToString n w \/
     final (mainLoop_while E convertIntToString fuel w)
     = query_world E (turns E convertIntToString n w)).
Proof.
  destruct (first_close E fuel (close_queries w))
    as [Hopen | (n & Hn & Hopen & Hclose)].
  - exists fuel. split; [lia |]. left.
    now rewrite (loop_unfinished E convertIntToString fuel w Hopen).
  - exists n. split; [lia |]. right.
    now rewrite (loop_returns E convertIntToString n fuel w Hopen Hclose Hn).
Qed.

End LoopKeeps.

(** X5. The render loop allocates and releases nothing.  However long it
    runs, in the world it stops in the buffer, texture and program names in
    use, the buffers that have a store, the texture images, the vertex
    attribute arrays, the array and element-array bindings, the program in
    use, the CUDA registrations and the [atexit] list are what they were on
    entry, and so are the globals [window], [pbo], [displayImage], [width]
    and [height]. *)
Theorem render_loop_keeps_resources (E : Env)
    (convertIntToString : Z -> string) (fuel : nat) (w : World) :
  no_alloc w (final (mainLoop_while E convertIntToString fuel w)) /\
  same_handles (globals w)
    (globals (final (mainLoop_while E convertIntToString fuel w))).
Proof.
  destruct (loop_final E convertIntToString fuel w) as (n & _ & [-> | ->]).
  - apply turns_keep.
  - destruct (turns_keep E convertIntToString n w) as (Ha & Hh).
    destruct (turns E convertIntToString n w). split; assumption.
Qed.

(** ** From start to exit *)

Section Lifecycle.

Variable E : Env.
Variable convertIntToString : Z -> string.

(** [exit] in a world where the hook is registered and both handles are
    set. *)
Lemma exit_run (status : Z) (w : World) :
  atexit_list w <> [] ->
  pbo (globals w) <> 0 -> displayImage (globals w) <> 0 ->
  exit status w
  = Exits status
      (mkWorld (set_displayImage NULL (set_pbo NULL (globals w)))
         (GL.delete_texture (displayImage (globals w))
            (GL.delete_buffer (pbo (globals w))
               (GL.bind_buffer GL_ARRAY_BUFFER (pbo (globals w)) (gl w))))
         (cuda_registered w ∖ {[ pbo (globals w) ]})
         (atexit_list w) (close_queries w) (cuda_runs w)
         (trace w ++
            [ call_exit status;
              call_cudaGLUnregisterBufferObject (pbo (globals w));
              call_glBindBuffer GL_ARRAY_BUFFER (pbo (globals w));
              call_glDeleteBuffers 1 [ pbo (globals w) ];
              call_glDeleteTextures 1 [ displayImage (globals w) ] ])).
Proof.
  intros Hfs Hb Ht. destruct w as [g s reg fs q r tr]. simpl in *.
  unfold exit, call, modify, read, bind at 1 2. simpl.
  unfold bind at 1. rewrite (run_exit_fns_once fs _ Hfs).
  rewrite cleanupCuda_run by assumption. simpl.
  now rewrite <- !app_assoc.
Qed.

Lemma calls_among_app (L : list string) (l1 l2 : list Call) :
  calls_among L (l1 ++ l2)
  = (calls_among L l1 + calls_among L l2)%nat.
Proof. unfold calls_among. now rewrite filter_app, length_app. Qed.

(** The frames of the loop release nothing, and each ends with one swap. *)
Lemma releases_loop_trace (g : Globals) (r n : nat) :
  calls_among release_callees (loop_trace E convertIntToString g r n) = 0%nat.
Proof.
  revert r. induction n as [| n IH]; intros r; [reflexivity |].
  rewrite loop_trace_S, calls_among_app, IH. reflexivity.
Qed.

Lemma swaps_loop_trace (g : Globals) (r n : nat) :
  calls_to "glfwSwapBuffers" (loop_trace E convertIntToString g r n) = n.
Proof.
  revert r. induction n as [| n IH]; intros r; [reflexivity |].
  rewrite loop_trace_S, calls_to_app, IH. reflexivity.
Qed.

End Lifecycle.

(** X6. A whole successful run, call by call.  If [init] returns true and
    the window is first reported closed at the [n]-th test, [mainLoop]
    returns after [n] frames, and when the process then exits the calls made
    from start to end are: those of [init], the [n] frames, the closing
    test, [glfwDestroyWindow], [glfwTerminate], [exit] and the four calls of
    [cleanupCuda].  Nothing is released before the loop is over.  The pixel
    buffer and the display texture are passed to [glDeleteBuffers] and
    [glDeleteTextures] once each, by the exit hook, which runs after the
    window has been destroyed and GLFW terminated.  The three buffers of
    [initVAO] are other names than the pixel buffer and are passed to no
    delete call, and nothing deletes the shader program.  Both handles are
    zero at the end. *)
Theorem run_then_exit_release_calls (E : Env)
    (convertIntToString : Z -> string)
    (PacketManager : Type) (pMgr : PacketManager) (client_ip : string)
    (w w1 : World) (n fuel : nat) (status : Z) :
  init E w = Returns true w1 ->
  (forall k, (k < n)%nat ->
             glfwWindowShouldClose_result E (close_queries w1 + k) = 0) ->
  glfwWindowShouldClose_result E (close_queries w1 + n) <> 0 ->
  (n < fuel)%nat ->
  exists w3 w4 frames,
    mainLoop E convertIntToString PacketManager fuel pMgr client_ip w
    = Returns tt w3 /\
    exit status w3 = Exits status w4 /\
    trace w4
    = trace w ++ init_trace E w ++ frames ++
      [ call_glfwWindowShouldClose (window (globals w1))
          (glfwWindowShouldClose_result E (close_queries w1 + n));
        call_glfwDestroyWindow (window (globals w1));
        call_glfwTerminate;
        call_exit status;
        call_cudaGLUnregisterBufferObject (pbo (globals w1));
        call_glBindBuffer GL_ARRAY_BUFFER (pbo (globals w1));
        call_glDeleteBuffers 1 [ pbo (globals w1) ];
        call_glDeleteTextures 1 [ displayImage (globals w1) ] ] /\
    frames = loop_trace E convertIntToString (globals w1) (cuda_runs w1) n /\
    calls_to "glfwSwapBuffers" frames = n /\
    calls_among release_callees (init_trace E w ++ frames) = 0%nat /\
    In (call_glGenBuffers 3
          [ fresh_buffer 0 w; fresh_buffer 1 w; fresh_buffer 2 w ])
       (init_trace E w) /\
    ~ In (pbo (globals w1))
         [ fresh_buffer 0 w; fresh_buffer 1 w; fresh_buffer 2 w ] /\
    pbo (globals w4) = 0 /\ displayImage (globals w4) = 0.
Proof.
  intros Hinit Hopen Hclose Hfuel.
  destruct (init_true_inv E w w1 Hinit) as (Hw1 & _).
  pose proof (loop_returns E convertIntToString n fuel w1 Hopen Hclose Hfuel)
    as Hloop.
  destruct (turns_spec E convertIntToString n w1 Hopen)
    as (Hq & _ & (Hwin & Hpbo & Htex & _) & (Hfs & _) & Htr).
  assert (Htr1 : trace w1 = trace w ++ init_trace E w)
    by (rewrite Hw1; reflexivity).
  assert (Hb1 : pbo (globals w1) = fresh_buffer 3 w)
    by (rewrite Hw1; reflexivity).
  assert (Hn1 : pbo (globals w1) <> 0) by (rewrite Hb1; discriminate).
  assert (Ht1 : displayImage (globals w1) <> 0)
    by (rewrite Hw1; discriminate).
  assert (Hfs1 : atexit_list w1 <> []) by (rewrite Hw1; discriminate).
  set (wt := turns E convertIntToString n w1) in *.
  set (w3 := log call_glfwTerminate
               (log (call_glfwDestroyWindow
                       (window (globals (query_world E wt))))
                  (query_world E wt))).
  assert (H3 : globals w3 = globals wt /\ atexit_list w3 = atexit_list wt /\
               trace w3
               = trace wt ++
                 [ call_glfwWindowShouldClose (window (globals wt))
                     (glfwWindowShouldClose_result E (close_queries wt));
                   call_glfwDestroyWindow (window (globals wt));
                   call_glfwTerminate ]).
  { unfold w3. destruct wt as [g s reg fs q r tr]. simpl.
    repeat split. now rewrite <- !app_assoc. }
  destruct H3 as (H3g & H3f & H3t).
  pose proof (exit_run status w3) as Hexit.
  rewrite H3g, H3f, Hfs, Hpbo, Htex in Hexit.
  specialize (Hexit Hfs1 Hn1 Ht1).
  exists w3. eexists.
  exists (loop_trace E convertIntToString (globals w1) (cuda_runs w1) n).
  split.
  { rewrite (mainLoop_after_init E convertIntToString PacketManager fuel
               pMgr client_ip w w1 true Hinit).
    exact (after_init_returns E convertIntToString fuel w1 _ Hloop). }
  split; [exact Hexit |].
  split.
  { cbn [trace]. rewrite H3t, Htr, Htr1, Hq, Hwin.
    rewrite <- !app_assoc. reflexivity. }
  split; [reflexivity |].
  split; [apply swaps_loop_trace |].
  split.
  { rewrite calls_among_app, (releases_loop_trace E convertIntToString).
    unfold init_trace, initShader_trace.
    destruct (glGetUniformLocation_result E =? -1); reflexivity. }
  split.
  { unfold init_trace. apply in_or_app. right. apply in_or_app. left.
    now left. }
  split.
  { rewrite Hb1. simpl.
    pose proof (fresh_buffer_neq 0 3 w) as H03.
    pose proof (fresh_buffer_neq 1 3 w) as H13.
    pose proof (fresh_buffer_neq 2 3 w) as H23.
    intros [H | [H | [H | []]]];
      [apply H03 | apply H13 | apply H23]; trivial; lia. }
  split; reflexivity.
Qed.

Lemma run_then_exit_release_calls_witness :
  exists w3 w4,
    mainLoop (Sample.env_ok 2) Sample.show_int unit 5 tt "127.0.0.1"
      Sample.world0 = Returns tt w3 /\
    exit 0 w3 = Exits 0 w4 /\
    pbo (globals w4) = 0 /\ displayImage (globals w4) = 0.
Proof.
  destruct (run_then_exit_release_calls (Sample.env_ok 2) Sample.show_int
              unit tt "127.0.0.1" Sample.world0
              (init_world (Sample.env_ok 2) Sample.world0) 2 5 0)
    as (w3 & w4 & frames & H1 & H2 & _ & _ & _ & _ & _ & _ & H3 & H4).
  - vm_compute. reflexivity.
  - intros k Hk. destruct k as [| [| k]]; [reflexivity | reflexivity | lia].
  - vm_compute. lia.
  - lia.
  - exists w3, w4. repeat split; assumption.
Defined.

Lemma terminates_loop_trace (E : Env) (convertIntToString : Z -> string)
    (g : Globals) (r n : nat) :
  calls_to "glfwTerminate" (loop_trace E convertIntToString g r n) = 0%nat /\
  calls_to "glfwDestroyWindow" (loop_trace E convertIntToString g r n)
  = 0%nat.
Proof.
  revert r. induction n as [| n IH]; intros r; [split; reflexivity |].
  rewrite loop_trace_S, !calls_to_app.
  destruct (IH (S r)) as (-> & ->). split; reflexivity.
Qed.

(** X7. When window creation fails, [mainLoop] goes through the loop with
    the null window all the same: if the window is first reported closed at
    the [n]-th test, it runs [n] frames with [window = NULL] and the handles
    [pbo] and [displayImage] as they were before [init], then calls
    [glfwDestroyWindow(NULL)] and [glfwTerminate]; as [init] had already
    called [glfwTerminate], GLFW is terminated twice. *)
Theorem mainLoop_without_window (E : Env) (convertIntToString : Z -> string)
    (PacketManager : Type) (pMgr : PacketManager) (client_ip : string)
    (w : World) (n fuel : nat) :
  glfwInit_result E <> 0 ->
  glfwCreateWindow_result E = NULL ->
  (forall k, (k < n)%nat ->
             glfwWindowShouldClose_result E (close_queries w + k) = 0) ->
  glfwWindowShouldClose_result E (close_queries w + n) <> 0 ->
  (n < fuel)%nat ->
  exists w' l,
    mainLoop E convertIntToString PacketManager fuel pMgr client_ip w
    = Returns tt w' /\
    trace w' = trace w ++ l /\
    l = [ call_glfwSetErrorCallback errorCallback;
          call_glfwInit (glfwInit_result E);
          call_glfwCreateWindow (width (globals w)) (height (globals w))
            "CIS 565 Path Tracer" NULL NULL NULL;
          call_glfwTerminate ]
        ++ loop_trace E convertIntToString (set_window NULL (globals w))
             (cuda_runs w) n
        ++ [ call_glfwWindowShouldClose NULL
               (glfwWindowShouldClose_result E (close_queries w + n));
             call_glfwDestroyWindow NULL;
             call_glfwTerminate ] /\
    calls_to "glfwTerminate" l = 2%nat /\
    calls_to "glfwPollEvents" l = n /\
    window (globals w') = NULL /\
    pbo (globals w') = pbo (globals w) /\
    displayImage (globals w') = displayImage (globals w).
Proof.
  intros H0 H1 Hopen Hclose Hfuel.
  pose proof (init_no_window E w H0 H1) as Hinit.
  set (w1 := mkWorld _ _ _ _ _ _ _) in Hinit.
  assert (Hq1 : close_queries w1 = close_queries w) by reflexivity.
  assert (Hopen1 : forall k, (k < n)%nat ->
            glfwWindowShouldClose_result E (close_queries w1 + k) = 0)
    by (now rewrite Hq1).
  assert (Hclose1 :
            glfwWindowShouldClose_result E (close_queries w1 + n) <> 0)
    by (now rewrite Hq1).
  pose proof (loop_returns E convertIntToString n fuel w1 Hopen1 Hclose1
                Hfuel) as Hloop.
  destruct (turns_spec E convertIntToString n w1 Hopen1)
    as (Hq & _ & (Hwin & Hpbo & Htex & _) & _ & Htr).
  eexists. eexists. split; [| split; [| split; [reflexivity |]]].
  - rewrite (mainLoop_after_init E convertIntToString PacketManager fuel
               pMgr client_ip w w1 false Hinit).
    exact (after_init_returns E convertIntToString fuel w1 _ Hloop).
  - unfold log, query_world.
    cbn [trace globals gl cuda_registered atexit_list close_queries
         cuda_runs].
    rewrite Htr, Hq, Hwin. unfold w1.
    cbn [trace globals close_queries cuda_runs].
    rewrite <- !app_assoc. destruct w as [[b t win wd ht it ge] ? ? ? ? ? ?].
    reflexivity.
  - rewrite !calls_to_app.
    destruct (terminates_loop_trace E convertIntToString
                (set_window NULL (globals w)) (cuda_runs w) n) as (-> & _).
    rewrite (polls_loop_trace E convertIntToString).
    unfold log, query_world.
    cbn [globals gl cuda_registered atexit_list close_queries cuda_runs].
    rewrite Hwin, Hpbo, Htex.
    destruct w as [[b t win wd ht it ge] ? ? ? ? ? ?].
    repeat split; try reflexivity. apply Nat.add_0_r.
Qed.

Lemma mainLoop_without_window_witness :
  exists w',
    mainLoop (Sample.env_no_window 1) Sample.show_int unit 3 tt "127.0.0.1"
      Sample.world0 = Returns tt w' /\
    window (globals w') = NULL.
Proof.
  destruct (mainLoop_without_window (Sample.env_no_window 1) Sample.show_int
              unit tt "127.0.0.1" Sample.world0 1 3)
    as (w' & l & H1 & _ & _ & _ & _ & H2 & _).
  - vm_compute. lia.
  - reflexivity.
  - intros k Hk. destruct k as [| k]; [reflexivity | lia].
  - vm_compute. lia.
  - lia.
  - exists w'. split; assumption.
Defined.

(** ** The size of the pixel buffer, in general *)

Section PboSizeWraps.

Lemma to_int_range (z : Z) : in_int (to_int z).
Proof.
  unfold in_int, INT_MIN, INT_MAX, to_int.
  pose proof (Z.mod_pos_bound (z + 2 ^ 31) (2 ^ 32)). lia.
Qed.

Lemma to_int_fixpoint (z : Z) : to_int z = z <-> in_int z.
Proof.
  split.
  - intros <-. apply to_int_range.
  - apply to_int_in_range.
Qed.

(** Wrapping an intermediate product does not change the wrapped result. *)
Lemma to_int_mul_wrapped (a c : Z) : to_int (to_int a * c) = to_int (a * c).
Proof.
  unfold to_int.
  pose proof (Z.div_mod (a + 2 ^ 31) (2 ^ 32)) as Hdm.
  set (m := (a + 2 ^ 31) mod 2 ^ 32) in *.
  set (q := (a + 2 ^ 31) / 2 ^ 32) in *.
  replace ((m - 2 ^ 31) * c + 2 ^ 31)
    with (a * c + 2 ^ 31 + (- c * q) * 2 ^ 32) by lia.
  now rewrite Z_mod_plus_full.
Qed.

Lemma pbo_size_wraps (w h : Z) : pbo_size w h = to_int (w * h * 4).
Proof.
  unfold pbo_size, int_mul.
  rewrite to_int_size_t by apply to_int_range.
  apply to_int_mul_wrapped.
Qed.

End PboSizeWraps.

(** X8. The size [initPBO] passes to [glBufferData] is, for all image
    dimensions, [width * height * 4] reduced to a 32-bit two's complement
    [int]: it always lies in the [int] range, and it equals
    [width * height * 4] exactly when that product is representable as an
    [int]. *)
Theorem initPBO_size_wraps (w : World) :
  let size := to_int (width (globals w) * height (globals w) * 4) in
  (exists b,
     trace (final (initPBO w))
     = trace w ++
       [ call_glGenBuffers 1 [ b ];
         call_glBindBuffer GL_PIXEL_UNPACK_BUFFER b;
         call_glBufferData GL_PIXEL_UNPACK_BUFFER size data_NULL
           GL_DYNAMIC_COPY;
         call_cudaGLRegisterBufferObject b ]) /\
  in_int size /\
  (size = width (globals w) * height (globals w) * 4 <->
   in_int (width (globals w) * height (globals w) * 4)).
Proof.
  cbv zeta. split; [| split].
  - exists (fresh_buffer 0 w).
    destruct (initPBO_run w) as (-> & _).
    unfold initPBO_trace. now rewrite pbo_size_wraps.
  - apply to_int_range.
  - apply to_int_fixpoint.
Qed.

(** ** Deleting the pixel buffer and the texture *)

(** X9. [deletePBO] guards on the pointer, not on the handle.  Given the
    null pointer it does nothing.  Given the address of a handle it always
    makes its three calls, even when the handle is already 0, and leaves:
    the handle zero; the old name not in use, without a store and not
    registered with CUDA; [GL_ARRAY_BUFFER] bound to 0 (the binding it had
    is lost); no other buffer binding on the deleted name; textures and
    programs untouched. *)
Theorem deletePBO_postcondition (p : GLuintPtr) (w : World) :
  (p = null_ptr -> deletePBO p w = Returns tt w) /\
  (p <> null_ptr ->
   exists w',
     deletePBO p w = Returns tt w' /\
     trace w'
     = trace w ++
       [ call_cudaGLUnregisterBufferObject (pointee p w);
         call_glBindBuffer GL_ARRAY_BUFFER (pointee p w);
         call_glDeleteBuffers 1 [ pointee p w ] ] /\
     pointee p w' = 0 /\
     (pointee p w ∉ buffer_names (gl w')) /\
     (pointee p w ∉ cuda_registered w') /\
     buffer_store (gl w') !! pointee p w = None /\
     array_buffer_binding (gl w') = 0 /\
     (pointee p w <> 0 ->
      element_array_buffer_binding (gl w') <> pointee p w /\
      pixel_unpack_buffer_binding (gl w') <> pointee p w) /\
     texture_names (gl w') = texture_names (gl w) /\
     program_names (gl w') = program_names (gl w)).
Proof.
  split; [intros ->; reflexivity |]. intros Hp.
  destruct w as [[b t win wd ht it ge]
                   [bn bs tn ti pn ab eb pb tb cp va nb nt np] reg fs q r tr].
  assert (Hunbind : forall x y : Z, y <> 0 -> GL.unbind y x <> y).
  { intros x y Hy. unfold GL.unbind. destruct (Z.eqb_spec x y); congruence. }
  destruct p; [contradiction | |]; unfold deletePBO; run; simpl pointee;
    eexists; (split; [reflexivity |]);
    cbn [trace gl globals cuda_registered pbo displayImage buffer_names
         buffer_store array_buffer_binding element_array_buffer_binding
         pixel_unpack_buffer_binding texture_names program_names];
    (split; [now rewrite <- !app_assoc |]);
    (split; [reflexivity |]);
    (split; [apply not_elem_of_difference; right;
             now apply elem_of_singleton |]);
    (split; [apply not_elem_of_difference; right;
             now apply elem_of_singleton |]);
    (split; [apply lookup_delete_eq |]);
    (split; [unfold GL.unbind; now rewrite Z.eqb_refl |]);
    (split; [intros Hb; split; now apply Hunbind |]);
    split; reflexivity.
Qed.

Lemma deletePBO_postcondition_witness :
  exists w',
    deletePBO addr_pbo (init_world (Sample.env_ok 0) Sample.world0)
    = Returns tt w' /\
    pbo (globals w') = 0 /\ array_buffer_binding (gl w') = 0.
Proof.
  destruct (proj2 (deletePBO_postcondition addr_pbo
                     (init_world (Sample.env_ok 0) Sample.world0)))
    as (w' & H1 & _ & H2 & _ & _ & _ & H3 & _).
  - discriminate.
  - exists w'. repeat split; assumption.
Defined.

(** X10. [deleteTexture], given the address of a handle, makes the one
    [glDeleteTextures] call and leaves the handle zero, the old name not in
    use and without an image, and [GL_TEXTURE_2D] not bound to it (bound to
    0 if it was the bound texture); buffers, programs and CUDA registrations
    are untouched. *)
Theorem deleteTexture_postcondition (p : GLuintPtr) (w : World) :
  p <> null_ptr ->
  exists w',
    deleteTexture p w = Returns tt w' /\
    trace w' = trace w ++ [ call_glDeleteTextures 1 [ pointee p w ] ] /\
    pointee p w' = 0 /\
    (pointee p w ∉ texture_names (gl w')) /\
    texture_image (gl w') !! pointee p w = None /\
    (texture_binding_2d (gl w) = pointee p w ->
     texture_binding_2d (gl w') = 0) /\
    (texture_binding_2d (gl w) <> pointee p w ->
     texture_binding_2d (gl w') = texture_binding_2d (gl w)) /\
    buffer_names (gl w') = buffer_names (gl w) /\
    buffer_store (gl w') = buffer_store (gl w) /\
    program_names (gl w') = program_names (gl w) /\
    cuda_registered w' = cuda_registered w.
Proof.
  intros Hp.
  destruct w as [[b t win wd ht it ge]
                   [bn bs tn ti pn ab eb pb tb cp va nb nt np] reg fs q r tr].
  destruct p; [contradiction | |]; unfold deleteTexture; run; simpl pointee;
    eexists; (split; [reflexivity |]);
    cbn [trace gl globals cuda_registered pbo displayImage buffer_names
         buffer_store texture_names texture_image texture_binding_2d
         program_names];
    (split; [reflexivity |]);
    (split; [reflexivity |]);
    (split; [apply not_elem_of_difference; right;
             now apply elem_of_singleton |]);
    (split; [apply lookup_delete_eq |]);
    (split; [intros ->; unfold GL.unbind; now rewrite Z.eqb_refl |]);
    (split; [intros Hne; unfold GL.unbind;
             match goal with
             | |- context [ ?x =? ?y ] => destruct (Z.eqb_spec x y)
             end; congruence |]);
    repeat split; reflexivity.
Qed.

Lemma deleteTexture_postcondition_witness :
  exists w',
    deleteTexture addr_displayImage
      (init_world (Sample.env_ok 0) Sample.world0) = Returns tt w' /\
    displayImage (globals w') = 0 /\ texture_binding_2d (gl w') = 0.
Proof.
  destruct (deleteTexture_postcondition addr_displayImage
              (init_world (Sample.env_ok 0) Sample.world0))
    as (w' & H1 & _ & H2 & _ & _ & H3 & _).
  - discriminate.
  - exists w'. split; [exact H1 |]. split; [exact H2 |].
    apply H3. reflexivity.
Defined.

(** ** The time stamp *)

Example currentTimeString_sample :
  currentTimeString (fun _ => sample_tm) 0 = Some "2026-10-30_09-08-07z"%string.
Proof. reflexivity. Qed.

Section Decimal.

Lemma length_app_string (a b : string) :
  String.length (a ++ b)%string = (String.length a + String.length b)%nat.
Proof. induction a as [| c a IH]; simpl; [reflexivity | now rewrite IH]. Qed.

Lemma decimal_digits_small (f : nat) (n : Z) :
  n < 10 -> decimal_digits (S f) n = String (digit n) EmptyString.
Proof. intros H. simpl. now destruct (Z.ltb_spec n 10); [| lia]. Qed.

Lemma decimal_digits_step (f : nat) (n : Z) :
  10 <= n ->
  decimal_digits (S f) n
  = (decimal_digits f (n / 10)
       ++ String (digit (n mod 10)) EmptyString)%string.
Proof. intros H. simpl. now destruct (Z.ltb_spec n 10); [lia |]. Qed.

(** A number below [10^k] has at most [k] digits. *)
Lemma decimal_digits_length_le (k : nat) : forall (f : nat) (n : Z),
  (1 <= k)%nat -> 0 <= n < 10 ^ Z.of_nat k ->
  (String.length (decimal_digits f n) <= k)%nat.
Proof.
  induction k as [| k IH]; intros f n Hk Hn; [lia |].
  destruct f as [| f]; [simpl; lia |].
  destruct (Z_lt_le_dec n 10) as [Hs | Hl].
  - rewrite decimal_digits_small by exact Hs. simpl. lia.
  - rewrite decimal_digits_step by exact Hl.
    rewrite length_app_string. simpl.
    rewrite Nat2Z.inj_succ, Z.pow_succ_r in Hn by lia.
    destruct k as [| k]; [simpl in Hn; lia |].
    assert (String.length (decimal_digits f (n / 10)) <= S k)%nat.
    { apply IH; [lia |]. split; [apply Z.div_pos; lia |].
      apply Z.div_lt_upper_bound; lia. }
    lia.
Qed.

(** A number from [10^k] on has more than [k] digits, fuel permitting. *)
Lemma decimal_digits_length_ge (k : nat) : forall (f : nat) (n : Z),
  10 ^ Z.of_nat k <= n -> (k < f)%nat ->
  (k + 1 <= String.length (decimal_digits f n))%nat.
Proof.
  induction k as [| k IH]; intros f n Hn Hf.
  - destruct f as [| f]; [lia |]. simpl.
    destruct (n <? 10); [simpl; lia |].
    rewrite length_app_string. simpl. lia.
  - destruct f as [| f]; [lia |].
    rewrite Nat2Z.inj_succ, Z.pow_succ_r in Hn by lia.
    assert (H1 : 1 <= 10 ^ Z.of_nat k)
      by (apply Z.pow_le_mono_r with (b := 0); lia).
    rewrite decimal_digits_step by lia.
    rewrite length_app_string. simpl.
    assert (k + 1 <= String.length (decimal_digits f (n / 10)))%nat.
    { apply IH; [| lia]. apply Z.div_le_lower_bound; lia. }
    lia.
Qed.

Lemma digit_0 : digit 0 = "0"%char.
Proof. reflexivity. Qed.

(** Two digits for everything from 0 to 99. *)
Lemma pad2_digits (n : Z) :
  0 <= n < 100 ->
  pad2 n = String (digit (n / 10)) (String (digit (n mod 10)) EmptyString).
Proof.
  intros Hn. unfold pad2, decimal.
  destruct (Z.ltb_spec n 0) as [| _]; [lia |].
  destruct (Z_lt_le_dec n 10) as [Hs | Hl].
  - rewrite decimal_digits_small by exact Hs. simpl.
    rewrite Z.div_small, Z.mod_small by lia. reflexivity.
  - rewrite decimal_digits_step by exact Hl.
    rewrite decimal_digits_small by (apply Z.div_lt_upper_bound; lia).
    reflexivity.
Qed.

(** Four digits for the years 1000 to 9999. *)
Lemma decimal_year_digits (y : Z) :
  1000 <= y <= 9999 ->
  decimal y
  = String (digit (y / 10 / 10 / 10))
      (String (digit (y / 10 / 10 mod 10))
         (String (digit (y / 10 mod 10))
            (String (digit (y mod 10)) EmptyString))).
Proof.
  intros Hy. unfold decimal.
  destruct (Z.ltb_spec y 0) as [| _]; [lia |].
  assert (H1 : 100 <= y / 10 < 1000)
    by (split; [apply Z.div_le_lower_bound | apply Z.div_lt_upper_bound];
        lia).
  assert (H2 : 10 <= y / 10 / 10 < 100)
    by (split; [apply Z.div_le_lower_bound | apply Z.div_lt_upper_bound];
        lia).
  assert (H3 : 1 <= y / 10 / 10 / 10 < 10)
    by (split; [apply Z.div_le_lower_bound | apply Z.div_lt_upper_bound];
        lia).
  rewrite decimal_digits_step by lia.
  rewrite decimal_digits_step by lia.
  rewrite decimal_digits_step by lia.
  rewrite decimal_digits_small by lia.
  reflexivity.
Qed.

End Decimal.

Section TimeStamp.

(** The format of the file, expanded for a broken-down time in range. *)
Lemma expand_time_format (t : tm) :
  tm_in_range t ->
  expand "%Y-%m-%d_%H-%M-%Sz" t
  = (decimal (tm_year t + 1900) ++ stamp_tail t)%string.
Proof.
  intros (Hs & Hm & Hh & Hd & Hmo).
  change (expand "%Y-%m-%d_%H-%M-%Sz" t)
    with (decimal (tm_year t + 1900)
          ++ String "-" (pad2 (tm_mon t + 1)
          ++ String "-" (pad2 (tm_mday t)
          ++ String "_" (pad2 (tm_hour t)
          ++ String "-" (pad2 (tm_min t)
          ++ String "-" (pad2 (tm_sec t)
          ++ String "z" EmptyString))))))%string.
  rewrite !pad2_digits by lia. reflexivity.
Qed.

(** The year takes at most four characters exactly from -999 to 9999. *)
Lemma decimal_length_le_4 (y : Z) :
  (String.length (decimal y) <= 4)%nat <-> -999 <= y <= 9999.
Proof.
  unfold decimal. destruct (Z.ltb_spec y 0) as [Hneg | Hpos].
  - change (String.length (String "-" (decimal_digits 20 (- y))))
      with (S (String.length (decimal_digits 20 (- y)))).
    destruct (Z_lt_le_dec (- y) 1000) as [Hs | Hl].
    + pose proof (decimal_digits_length_le 3 20 (- y)) as H.
      change (10 ^ Z.of_nat 3) with 1000 in H. split; lia.
    + pose proof (decimal_digits_length_ge 3 20 (- y)) as H.
      change (10 ^ Z.of_nat 3) with 1000 in H. split; lia.
  - destruct (Z_lt_le_dec y 10000) as [Hs | Hl].
    + pose proof (decimal_digits_length_le 4 20 y) as H.
      change (10 ^ Z.of_nat 4) with 10000 in H. split; lia.
    + pose proof (decimal_digits_length_ge 4 20 y) as H.
      change (10 ^ Z.of_nat 4) with 10000 in H. split; lia.
Qed.

End TimeStamp.

(** X11. [currentTimeString] and its buffer.  For a broken-down time whose
    fields are in their ranges, the formatted time fits the buffer of
    [sizeof "0000-00-00_00-00-00z"] bytes, so that the function returns a
    determinate string, exactly when the year lies between -999 and 9999.
    For the years 1000 to 9999 the result has exactly 20 characters: four
    year digits and the fixed tail of separators and two-digit fields,
    ending in [z]. *)
Theorem currentTimeString_fits (gmtime : Z -> tm) (now : Z) :
  tm_in_range (gmtime now) ->
  (is_Some (currentTimeString gmtime now) <->
   -999 <= tm_year (gmtime now) + 1900 <= 9999) /\
  (1000 <= tm_year (gmtime now) + 1900 <= 9999 ->
   exists s,
     currentTimeString gmtime now = Some s /\
     String.length s = 20%nat /\
     s = (decimal (tm_year (gmtime now) + 1900)
          ++ stamp_tail (gmtime now))%string /\
     String.length (decimal (tm_year (gmtime now) + 1900)) = 4%nat).
Proof.
  intros Hr. unfold currentTimeString, strftime.
  change (sizeof_literal "0000-00-00_00-00-00z") with 21.
  rewrite (expand_time_format _ Hr), length_app_string.
  change (String.length (stamp_tail (gmtime now))) with 16%nat.
  pose proof (decimal_length_le_4 (tm_year (gmtime now) + 1900)) as H4.
  split.
  - destruct (Z.leb_spec
                (Z.of_nat
                   (String.length (decimal (tm_year (gmtime now) + 1900))
                    + 16) + 1) 21) as [Hfit | Hno]; simpl.
    + split; [intros _; apply H4; lia | intros _; eauto].
    + split; [intros [s Hs]; discriminate Hs |].
      intros Hy. apply H4 in Hy. lia.
  - intros Hy. rewrite (decimal_year_digits _ Hy). simpl.
    eexists. repeat split; reflexivity.
Qed.

Lemma currentTimeString_fits_witness :
  exists s,
    currentTimeString (fun _ => sample_tm) 0 = Some s /\
    String.length s = 20%nat /\
    s = (decimal (tm_year sample_tm + 1900) ++ stamp_tail sample_tm)%string /\
    String.length (decimal (tm_year sample_tm + 1900)) = 4%nat.
Proof.
  refine (proj2 (currentTimeString_fits (fun _ => sample_tm) 0 _) _).
  - vm_compute. repeat split; discriminate.
  - vm_compute. split; discriminate.
Defined.

Section TimeOrder.

Lemma ascii_compare_refl (c : ascii) : Ascii.compare c c = Eq.
Proof. unfold Ascii.compare. apply N.compare_refl. Qed.

Lemma string_compare_refl (s : string) : String.compare s s = Eq.
Proof.
  induction s as [| c s IH]; [reflexivity |].
  cbn [String.compare]. now rewrite ascii_compare_refl.
Qed.

Lemma string_compare_same_head (c : ascii) (a b : string) :
  String.compare (String c a) (String c b) = String.compare a b.
Proof. cbn [String.compare]. now rewrite ascii_compare_refl. Qed.

Lemma digit_compare (a b : Z) :
  0 <= a <= 9 -> 0 <= b <= 9 ->
  Ascii.compare (digit a) (digit b) = (a ?= b).
Proof.
  intros Ha Hb.
  assert (Ea : a = 0 \/ a = 1 \/ a = 2 \/ a = 3 \/ a = 4 \/ a = 5 \/ a = 6 \/
               a = 7 \/ a = 8 \/ a = 9) by lia.
  assert (Eb : b = 0 \/ b = 1 \/ b = 2 \/ b = 3 \/ b = 4 \/ b = 5 \/ b = 6 \/
               b = 7 \/ b = 8 \/ b = 9) by lia.
  clear Ha Hb.
  repeat (destruct Ea as [-> | Ea]);
    repeat (destruct Eb as [-> | Eb]); subst; vm_compute; reflexivity.
Qed.

Lemma string_compare_digit_head (a b : Z) (s s' : string) :
  0 <= a <= 9 -> 0 <= b <= 9 ->
  String.compare (String (digit a) s) (String (digit b) s')
  = match a ?= b with
    | Eq => String.compare s s'
    | Lt => Lt
    | Gt => Gt
    end.
Proof.
  intros Ha Hb. cbn [String.compare]. rewrite (digit_compare a b Ha Hb).
  now destruct (a ?= b).
Qed.

Lemma compare_div10 (x y : Z) (K : comparison) :
  match x / 10 ?= y / 10 with
  | Eq => match x mod 10 ?= y mod 10 with
          | Eq => K
          | Lt => Lt
          | Gt => Gt
          end
  | Lt => Lt
  | Gt => Gt
  end
  = match x ?= y with
    | Eq => K
    | Lt => Lt
    | Gt => Gt
    end.
Proof.
  pose proof (Z.div_mod x 10) as Hx. pose proof (Z.div_mod y 10) as Hy.
  pose proof (Z.mod_pos_bound x 10) as Bx.
  pose proof (Z.mod_pos_bound y 10) as By.
  destruct (Z.compare_spec (x / 10) (y / 10));
    destruct (Z.compare_spec (x mod 10) (y mod 10));
    destruct (Z.compare_spec x y); try reflexivity; exfalso; lia.
Qed.

Lemma digit_range_div (n : Z) : 0 <= n < 100 -> 0 <= n / 10 <= 9.
Proof.
  intros H. split; [apply Z.div_pos; lia |].
  apply Z.lt_succ_r, Z.div_lt_upper_bound; lia.
Qed.

Lemma digit_range_mod (n : Z) : 0 <= n mod 10 <= 9.
Proof. pose proof (Z.mod_pos_bound n 10). lia. Qed.

Lemma string_app_cons (c : ascii) (a b : string) :
  (String c a ++ b)%string = String c (a ++ b)%string.
Proof. reflexivity. Qed.

Lemma string_app_nil (b : string) : (EmptyString ++ b)%string = b.
Proof. reflexivity. Qed.

Lemma stamp_compare (t1 t2 : tm) :
  tm_in_range t1 -> tm_in_range t2 ->
  1000 <= tm_year t1 + 1900 <= 9999 ->
  1000 <= tm_year t2 + 1900 <= 9999 ->
  String.compare
    (decimal (tm_year t1 + 1900) ++ stamp_tail t1)%string
    (decimal (tm_year t2 + 1900) ++ stamp_tail t2)%string
  = lex_compare (tm_key t1) (tm_key t2).
Proof.
  intros (Hs1 & Hm1 & Hh1 & Hd1 & Hmo1) (Hs2 & Hm2 & Hh2 & Hd2 & Hmo2)
         Hy1 Hy2.
  rewrite (decimal_year_digits _ Hy1), (decimal_year_digits _ Hy2).
  unfold stamp_tail, tm_key.
  destruct t1 as [s1 m1 h1 d1 mo1 yr1], t2 as [s2 m2 h2 d2 mo2 yr2].
  cbn [tm_sec tm_min tm_hour tm_mday tm_mon tm_year] in *.
  set (y1 := yr1 + 1900) in *. set (y2 := yr2 + 1900) in *.
  set (n1 := mo1 + 1). set (n2 := mo2 + 1).
  assert (Hn1 : 0 <= n1 < 100) by (unfold n1; lia).
  assert (Hn2 : 0 <= n2 < 100) by (unfold n2; lia).
  assert (Ha1 : 0 <= y1 / 10 / 10 < 100).
  { split; [apply Z.div_pos; [apply Z.div_pos |]; lia |].
    apply Z.div_lt_upper_bound; [lia |]. apply Z.div_lt_upper_bound; lia. }
  assert (Ha2 : 0 <= y2 / 10 / 10 < 100).
  { split; [apply Z.div_pos; [apply Z.div_pos |]; lia |].
    apply Z.div_lt_upper_bound; [lia |]. apply Z.div_lt_upper_bound; lia. }
  clearbody y1 y2 n1 n2. clear Hy1 Hy2 Hmo1 Hmo2.
  rewrite !string_app_cons, !string_app_nil.
  rewrite string_compare_digit_head by now apply digit_range_div.
  rewrite string_compare_digit_head by apply digit_range_mod.
  rewrite string_compare_digit_head by apply digit_range_mod.
  rewrite string_compare_digit_head by apply digit_range_mod.
  rewrite !compare_div10.
  rewrite string_compare_same_head.
  rewrite string_compare_digit_head by now apply digit_range_div.
  rewrite string_compare_digit_head by apply digit_range_mod.
  rewrite compare_div10.
  rewrite string_compare_same_head.
  rewrite string_compare_digit_head by (apply digit_range_div; lia).
  rewrite string_compare_digit_head by apply digit_range_mod.
  rewrite compare_div10.
  rewrite string_compare_same_head.
  rewrite string_compare_digit_head by (apply digit_range_div; lia).
  rewrite string_compare_digit_head by apply digit_range_mod.
  rewrite compare_div10.
  rewrite string_compare_same_head.
  rewrite string_compare_digit_head by (apply digit_range_div; lia).
  rewrite string_compare_digit_head by apply digit_range_mod.
  rewrite compare_div10.
  rewrite string_compare_same_head.
  rewrite string_compare_digit_head by (apply digit_range_div; lia).
  rewrite string_compare_digit_head by apply digit_range_mod.
  rewrite compare_div10.
  rewrite string_compare_same_head.
  reflexivity.
Qed.

Lemma lex_compare_eq (a : list Z) : forall b : list Z,
  lex_compare a b = Eq -> a = b.
Proof.
  induction a as [| x a IH]; intros [| y b] H; try discriminate H.
  - reflexivity.
  - simpl in H. destruct (Z.compare_spec x y); try discriminate H.
    subst. f_equal. now apply IH.
Qed.

(** The string [currentTimeString] returns for a four-digit year. *)
Lemma currentTimeString_value (gmtime : Z -> tm) (now : Z) :
  tm_in_range (gmtime now) ->
  1000 <= tm_year (gmtime now) + 1900 <= 9999 ->
  currentTimeString gmtime now
  = Some (decimal (tm_year (gmtime now) + 1900)
          ++ stamp_tail (gmtime now))%string.
Proof.
  intros Hr Hy. unfold currentTimeString, strftime.
  change (sizeof_literal "0000-00-00_00-00-00z") with 21.
  rewrite (expand_time_format _ Hr), length_app_string.
  change (String.length (stamp_tail (gmtime now))) with 16%nat.
  rewrite (decimal_year_digits _ Hy). reflexivity.
Qed.

End TimeOrder.

(** X12. Time stamps sort as times do.  For two broken-down times with
    fields in range and years from 1000 to 9999, the strings
    [currentTimeString] returns compare, character by character, exactly as
    the calendar fields (year, month, day, hour, minute, second) compare in
    that order; in particular two stamps are equal only if all six fields
    are. *)
Theorem currentTimeString_sorts (gmtime : Z -> tm) (a b : Z)
    (s1 s2 : string) :
  tm_in_range (gmtime a) -> tm_in_range (gmtime b) ->
  1000 <= tm_year (gmtime a) + 1900 <= 9999 ->
  1000 <= tm_year (gmtime b) + 1900 <= 9999 ->
  currentTimeString gmtime a = Some s1 ->
  currentTimeString gmtime b = Some s2 ->
  String.compare s1 s2 = lex_compare (tm_key (gmtime a)) (tm_key (gmtime b))
  /\
  (s1 = s2 <-> tm_key (gmtime a) = tm_key (gmtime b)).
Proof.
  intros Hra Hrb Hya Hyb H1 H2.
  rewrite (currentTimeString_value gmtime a Hra Hya) in H1.
  rewrite (currentTimeString_value gmtime b Hrb Hyb) in H2.
  injection H1 as <-. injection H2 as <-.
  pose proof (stamp_compare _ _ Hra Hrb Hya Hyb) as Hcmp.
  split; [exact Hcmp |]. split.
  - intros Heq. apply lex_compare_eq. rewrite <- Hcmp, Heq.
    apply string_compare_refl.
  - unfold tm_key, stamp_tail. intros Hk.
    injection Hk as Hy Hmo Hd Hh Hm Hs.
    now rewrite Hy, Hmo, Hd, Hh, Hm, Hs.
Qed.

Lemma currentTimeString_sorts_witness :
  String.compare "2026-10-30_09-08-07z" "2026-10-30_09-08-08z" = Lt.
Proof.
  destruct (currentTimeString_sorts
              (fun now => if now =? 0 then sample_tm
                          else mk_tm 8 8 9 30 9 126)
              0 1 "2026-10-30_09-08-07z" "2026-10-30_09-08-08z")
    as (Hcmp & _).
  - vm_compute. repeat split; discriminate.
  - vm_compute. repeat split; discriminate.
  - vm_compute. split; discriminate.
  - vm_compute. split; discriminate.
  - reflexivity.
  - reflexivity.
  - exact Hcmp.
Defined.

(** ** The shader set-up *)

(** X13. A missing [u_image] uniform is silently ignored.  [initShader]
    always returns the (non-zero) program [createDefaultProgram] made, after
    asking for the location of ["u_image"]; it calls [glUniform1i], with
    texture unit 0, exactly when the location is not -1.  The location has
    no influence on what [init] returns: with -1, [init] still returns true
    when nothing else fails. *)
Theorem initShader_missing_uniform (E : Env) (w : World) :
  (exists p w' l,
     initShader E w = Returns p w' /\
     p <> 0 /\ (p ∈ program_names (gl w')) /\
     trace w'
     = trace w ++
       [ call_createDefaultProgram [ "Position"; "Texcoords" ]%string 2 p;
         call_glGetUniformLocation p "u_image"
           (glGetUniformLocation_result E) ] ++ l /\
     (glGetUniformLocation_result E = -1 -> l = []) /\
     (glGetUniformLocation_result E <> -1 ->
      l = [ call_glUniform1i (glGetUniformLocation_result E) 0 ])) /\
  (glfwInit_result E <> 0 -> glfwCreateWindow_result E <> NULL ->
   glewInit_result E = GLEW_OK ->
   exists w1, init E w = Returns true w1 /\
              calls_to "glUniform1i" (drop (length (trace w)) (trace w1))
              = if glGetUniformLocation_result E =? -1 then 0%nat
                else 1%nat).
Proof.
  split.
  - destruct w as [[b t win wd ht it ge]
                     [bn bs tn ti pn ab eb pb tb cp va nb nt np]
                     reg fs q r tr].
    unfold initShader. run.
    destruct (Z.eqb_spec (glGetUniformLocation_result E) (-1)) as [Hl | Hl];
      cbv beta iota; eexists _, _, _;
      (split; [reflexivity |]); (split; [discriminate |]);
      cbn [gl program_names trace];
      (split; [apply elem_of_union; left; now apply elem_of_singleton |]);
      (split; [rewrite <- !app_assoc; reflexivity |]);
      split; intros H; try contradiction; reflexivity.
  - intros H0 H1 H2. exists (init_world E w).
    split; [now apply init_succeeds |].
    unfold init_world. cbn [trace]. rewrite drop_app_length.
    unfold init_trace, initShader_trace.
    destruct (glGetUniformLocation_result E =? -1); reflexivity.
Qed.

Lemma initShader_missing_uniform_witness :
  exists w1,
    init (mkEnv GL_TRUE 4096 GLEW_OK (-1) (fun _ => 1) (fun _ => 0))
      Sample.world0 = Returns true w1 /\
    calls_to "glUniform1i" (drop (length (trace Sample.world0)) (trace w1))
    = 0%nat.
Proof.
  refine (proj2 (initShader_missing_uniform
                   (mkEnv GL_TRUE 4096 GLEW_OK (-1) (fun _ => 1)
                      (fun _ => 0)) Sample.world0) _ _ _);
    vm_compute; try reflexivity; discriminate.
Defined.
